(** * cava_stock_monitor: a shallow embedding and its verified properties

    The development follows [cava_stock_monitor.py] section by section:
    Python values as they come out of a JSON document, the catalog
    fetcher, the classifier of [build_report_via_products_json], the state
    store, the change detector and [main].

    Conventions.
    - A Python exception is a value of [exn]; code that may raise returns
      a [result].
    - A Python [dict] is its list of items in insertion order.
    - What the program takes from outside is a section variable of the
      function that uses it: [urljoin] and the text an f-string gives a
      value, [requests.get], the [json] codec, [os.getenv], the SMTP
      session, and the text of the two renderers.  The statements about
      them hold whatever they are; module [PyLib] gives instances to
      compute with, among them a JSON printer and reader.
    - [print] calls are left out, except that the [', '.join] inside them
      raises on a label that is not a string. *)

From Stdlib Require Import ZArith String Ascii.
From stdpp Require Import prelude strings sorting pretty.

#[local] Set Warnings "-register-all".

(** ** Python values *)

(** What [json.load] and [resp.json()] return.  Numbers are integers:
    the program reads no number from a record, it only tests values for
    truth and labels for being strings, where a float behaves as an
    integer does. *)
Inductive json : Type :=
  | JNull
  | JBool (b : bool)
  | JNum (n : Z)
  | JStr (s : string)
  | JArr (items : list json)
  | JObj (members : list (string * json)).

Inductive exn : Type :=
  | AttributeError
  | TypeError
  | RuntimeError
  | JSONDecodeError
  | ConnectionError
  | OSError
  | SMTPException.

Inductive result (A : Type) : Type :=
  | Ok (a : A)
  | Raise (e : exn).
Arguments Ok {A} a.
Arguments Raise {A} e.

#[global] Instance result_ret : MRet result := @Ok.
#[global] Instance result_bind : MBind result := λ A B f m,
  match m with
  | Ok a => f a
  | Raise e => Raise e
  end.

#[global] Instance exn_eq_dec : EqDecision exn.
Proof. solve_decision. Defined.

(** [for x in xs: acc = body(acc, x)], stopping at the first exception. *)
Fixpoint for_each {A S : Type} (body : S → A → result S) (xs : list A)
    (acc : S) : result S :=
  match xs with
  | [] => Ok acc
  | x :: xs' => acc' ← body acc x; for_each body xs' acc'
  end.

(** Truth value of an object: [None], [False], [0], the empty
    string, the empty list and the empty dict are false. *)
Definition truthy (v : json) : bool :=
  match v with
  | JNull => false
  | JBool b => b
  | JNum n => negb (n =? 0)%Z
  | JStr s => negb (bool_decide (s = EmptyString))
  | JArr items => negb (bool_decide (items = []))
  | JObj members => negb (bool_decide (members = []))
  end.

(** ** Dictionaries *)

(** Items in insertion order.  A key written twice in a member list reads
    as its last binding, which is the one [json.load] keeps. *)
Definition pydict (V : Type) : Type := list (string * V).

Fixpoint dict_get {V : Type} (k : string) (d : pydict V) : option V :=
  match d with
  | [] => None
  | (k', v) :: d' =>
      match dict_get k d' with
      | Some w => Some w
      | None => if decide (k' = k) then Some v else None
      end
  end.

Definition dict_keys {V : Type} (d : pydict V) : list string := d.*1.

Definition dict_mem {V : Type} (k : string) (d : pydict V) : bool :=
  bool_decide (k ∈ dict_keys d).

(** [d[k] = v]: an existing key keeps its position, a new one goes last. *)
Definition dict_set {V : Type} (k : string) (v : V) (d : pydict V) : pydict V :=
  if dict_mem k d
  then (λ kv : string * V, if decide (kv.1 = k) then (k, v) else kv) <$> d
  else d ++ [(k, v)].

(** The invariant of a Python dict: no key occurs twice. *)
Definition dict_wf {V : Type} (d : pydict V) : Prop := NoDup (dict_keys d).

(** [obj.get(key)] and [obj.get(key, default)]: only a dict has [get]. *)
Definition py_get (obj : json) (key : string) (dflt : json) : result json :=
  match obj with
  | JObj members => Ok (default dflt (dict_get key members))
  | _ => Raise AttributeError
  end.

(** [for v in obj]: a list yields its items, a string its characters
    (here the bytes of its text), a dict its keys; nothing else is
    iterable. *)
Definition py_iter (obj : json) : result (list json) :=
  match obj with
  | JArr items => Ok items
  | JStr s => Ok ((λ c, JStr (String c EmptyString)) <$> list_ascii_of_string s)
  | JObj members => Ok (JStr <$> dict_keys members)
  | _ => Raise TypeError
  end.

(** ** [sorted(set(...))] *)

(** [set(xs)] keeps one copy of each element, in an order of its own;
    [sorted] puts strings in the order of [str], which is lexicographic
    on the characters ([String.le]; on UTF-8 text the order of the bytes
    is the order of the code points). *)
Definition py_set (xs : list string) : list string := remove_dups xs.
Definition sorted (xs : list string) : list string := merge_sort String.le xs.

(** The labels collected for a product end up in [set], [sorted] and
    [', '.join]: an unhashable label stops the first, labels of mixed
    types the second, and any label that is not a [str] the third, each
    with a [TypeError].  Every label of a product is joined in the branch
    its product takes, so one label that is not a string makes the
    product raise. *)
Fixpoint str_labels (labels : list json) : result (list string) :=
  match labels with
  | [] => Ok []
  | JStr s :: rest => ss ← str_labels rest; Ok (s :: ss)
  | _ :: _ => Raise TypeError
  end.

Definition sorted_set (labels : list json) : result (list string) :=
  ss ← str_labels labels; Ok (sorted (py_set ss)).

(** ** Report and snapshot *)

Inductive status_key : Type := StPartial | StFullInStock | StFullOos.

#[global] Instance status_key_eq_dec : EqDecision status_key.
Proof. solve_decision. Defined.

Definition status_name (st : status_key) : string :=
  match st with
  | StPartial => "partial"
  | StFullInStock => "full_in_stock"
  | StFullOos => "full_oos"
  end.

Record product_info : Type := ProductInfo {
  title : json;
  available_sizes : list string;
  unavailable_sizes : list string;
}.

Record report : Type := Report {
  partial : pydict product_info;
  full_in_stock : pydict product_info;
  full_oos : pydict product_info;
}.

Definition empty_report : report := Report [] [] [].

(** [report.get(status_key, {})] on a report built by this program. *)
Definition bucket (st : status_key) (r : report) : pydict product_info :=
  match st with
  | StPartial => partial r
  | StFullInStock => full_in_stock r
  | StFullOos => full_oos r
  end.

(** [bucket[url] = info] for the bucket named by [st]. *)
Definition bucket_assign (st : status_key) (url : string) (info : product_info)
    (r : report) : report :=
  match st with
  | StPartial => Report (dict_set url info (partial r)) (full_in_stock r) (full_oos r)
  | StFullInStock => Report (partial r) (dict_set url info (full_in_stock r)) (full_oos r)
  | StFullOos => Report (partial r) (full_in_stock r) (dict_set url info (full_oos r))
  end.

(** ** Classifier: the body of [build_report_via_products_json] *)

Definition BASE_URL : string := "https://cavaathleisure.com".

(** Loop state of the variant loop:
    [available_sizes], [unavailable_sizes], [total_variants_with_size]. *)
Record sizes_acc : Type := SizesAcc {
  acc_available : list json;
  acc_unavailable : list json;
  total_variants_with_size : nat;
}.

Definition variant_step (acc : sizes_acc) (v : json) : result sizes_acc :=
  available ← py_get v "available" (JBool true);
  option1 ← py_get v "option1" JNull;
  size ← (if truthy option1 then Ok option1 else py_get v "title" JNull);
  if negb (truthy size) then Ok acc
  else if truthy available
  then Ok (SizesAcc (acc_available acc ++ [size]) (acc_unavailable acc)
             (S (total_variants_with_size acc)))
  else Ok (SizesAcc (acc_available acc) (acc_unavailable acc ++ [size])
             (S (total_variants_with_size acc))).

Definition collect_sizes (variants : list json) : result sizes_acc :=
  for_each variant_step variants (SizesAcc [] [] 0).

(** The [if / elif / elif / else] chain on the two sorted lists. *)
Definition classify_sizes (ttl : json) (unique_available unique_unavailable : list string)
    : option (status_key * product_info) :=
  let nonempty (l : list string) := negb (bool_decide (l = [])) in
  if nonempty unique_available && nonempty unique_unavailable
  then Some (StPartial, ProductInfo ttl unique_available unique_unavailable)
  else if nonempty unique_available && negb (nonempty unique_unavailable)
  then Some (StFullInStock, ProductInfo ttl unique_available [])
  else if nonempty unique_unavailable && negb (nonempty unique_available)
  then Some (StFullOos, ProductInfo ttl [] unique_unavailable)
  else None.

Section classifier.
(** [urllib.parse.urljoin] and the text an f-string gives a value. *)
Variable urljoin : string → string → string.
Variable str_of : json → string.

Definition product_url (handle : json) : string :=
  urljoin BASE_URL ("/products/" +:+ str_of handle).

(** What one turn of the product loop decides: [None] for a [continue],
    otherwise the key, the bucket and the entry it stores. *)
Definition classify_product (p : json)
    : result (option (string * status_key * product_info)) :=
  ttl ← py_get p "title" (JStr "Unknown product");
  handle ← py_get p "handle" JNull;
  if negb (truthy handle) then Ok None
  else
    variants_obj ← py_get p "variants" (JArr []);
    variants ← py_iter variants_obj;
    acc ← collect_sizes variants;
    if bool_decide (total_variants_with_size acc = 0) then Ok None
    else
      unique_available ← sorted_set (acc_available acc);
      unique_unavailable ← sorted_set (acc_unavailable acc);
      Ok ((λ c, (product_url handle, c.1, c.2))
            <$> classify_sizes ttl unique_available unique_unavailable).

Definition product_step (r : report) (p : json) : result report :=
  c ← classify_product p;
  match c with
  | None => Ok r
  | Some (url, st, info) => Ok (bucket_assign st url info r)
  end.

(** The loop over the fetched products, from the three empty buckets. *)
Definition build_report (products : list json) : result report :=
  for_each product_step products empty_report.
End classifier.

(** ** Catalog fetcher *)

(** What [requests.get] hands back: the status code and what
    [resp.json()] gives for the body (it raises on a body that is not
    JSON). *)
Record response : Type := Response {
  status_code : Z;
  resp_json : result json;
}.

(** The URL of one catalog page. *)
Definition page_url (page limit : nat) : string :=
  BASE_URL +:+ "/products.json?limit=" +:+ pretty limit
  +:+ "&page=" +:+ pretty page.

Section fetcher.
(** [requests.get(url, headers=headers, timeout=30)]: a response, or the
    exception the request raised (no connection, timeout). *)
Variable requests_get : string → result response.

Definition fetch_products_page (page : nat) : result json :=
  resp ← requests_get (page_url page 250);
  if bool_decide (status_code resp ≠ 200%Z) then Ok (JArr [])
  else data ← resp_json resp; py_get data "products" (JArr []).

(** The [while True] loop of [fetch_all_products], [page] and
    [all_products] being its variables.  [None]: the loop has not
    stopped within [fuel] pages. *)
Fixpoint fetch_loop (fuel page : nat) (all_products : list json)
    : option (result (list json)) :=
  match fuel with
  | 0 => None
  | S fuel' =>
      match fetch_products_page page with
      | Raise e => Some (Raise e)
      | Ok products =>
          if negb (truthy products) then Some (Ok all_products)
          else
            match py_iter products with
            | Raise e => Some (Raise e)
            | Ok more => fetch_loop fuel' (S page) (all_products ++ more)
            end
      end
  end.

Definition fetch_all_products (fuel : nat) : option (result (list json)) :=
  fetch_loop fuel 1 [].
End fetcher.

(** ** State store and change detector *)

Record state_entry : Type := StateEntry {
  status : status_key;
  available : list string;
  unavailable : list string;
}.

#[global] Instance state_entry_eq_dec : EqDecision state_entry.
Proof. solve_decision. Defined.

(** The entry stored for a product of bucket [st]. *)
Definition entry_of (st : status_key) (data : product_info) : state_entry :=
  StateEntry st (available_sizes data) (unavailable_sizes data).

(** The nested loops of [extract_state_from_report]. *)
Definition extract_bucket (st : status_key) (items : pydict product_info)
    (state : pydict state_entry) : pydict state_entry :=
  foldl (λ state kv, dict_set kv.1 (entry_of st kv.2) state) state items.

Definition extract_state_from_report (r : report) : pydict state_entry :=
  foldl (λ state st, extract_bucket st (bucket st r) state)
        [] [StPartial; StFullInStock; StFullOos].

(** The snapshot as the Python object it is: a dict of dicts. *)
Definition json_of_entry (e : state_entry) : json :=
  JObj [("status", JStr (status_name (status e)));
        ("available", JArr (JStr <$> available e));
        ("unavailable", JArr (JStr <$> unavailable e))].

Definition json_of_state (s : pydict state_entry) : json :=
  JObj ((λ kv, (kv.1, json_of_entry kv.2)) <$> s).

(** [a == b] on such objects: [True == 1], lists compare item by item,
    dicts by size and then key by key whatever the order of insertion. *)
Fixpoint py_eq (a b : json) : bool :=
  match a, b with
  | JNull, JNull => true
  | JBool x, JBool y => bool_decide (x = y)
  | JBool x, JNum n => bool_decide (Z.b2z x = n)
  | JNum n, JBool x => bool_decide (n = Z.b2z x)
  | JNum m, JNum n => bool_decide (m = n)
  | JStr s, JStr t => bool_decide (s = t)
  | JArr xs, JArr ys =>
      (fix items_eq (xs ys : list json) : bool :=
         match xs, ys with
         | [], [] => true
         | x :: xs', y :: ys' => py_eq x y && items_eq xs' ys'
         | _, _ => false
         end) xs ys
  | JObj xs, JObj ys =>
      bool_decide (length xs = length ys) &&
      (fix members_eq (xs : list (string * json)) : bool :=
         match xs with
         | [] => true
         | (k, v) :: xs' =>
             match dict_get k ys with
             | Some w => py_eq v w
             | None => false
             end && members_eq xs'
         end) xs
  | _, _ => false
  end.

Definition has_changes (prev_state curr_state : json) : bool :=
  negb (py_eq prev_state curr_state).

(** [state.json] on disk: missing, present but not readable as text, or
    its text. *)
Inductive file : Type :=
  | Absent
  | Unreadable
  | Content (text : string).

Definition path_exists (f : file) : bool :=
  match f with Absent => false | _ => true end.

(** [open(STATE_FILE, "r", encoding="utf-8")] followed by a read. *)
Definition read_text (f : file) : result string :=
  match f with
  | Content text => Ok text
  | _ => Raise OSError
  end.

(** [try: body  except Exception: handler]. *)
Definition try_except {A : Type} (body : result A) (handler : exn → A) : A :=
  match body with
  | Ok a => a
  | Raise e => handler e
  end.

Section state_store.
(** The text [json.dump(data, f, ensure_ascii=False, indent=2)] writes
    and what [json.load] makes of a text. *)
Variable json_dump : json → string.
Variable json_load : string → result json.

Definition load_previous_state (f : file) : json :=
  if negb (path_exists f) then JObj []
  else
    try_except
      (text ← read_text f;
       data ← json_load text;
       py_get data "products" (JObj []))
      (λ _, JObj []).

(** [writable]: whether [open(STATE_FILE, "w")] succeeds. *)
Definition save_current_state (current_state : json) (writable : bool)
    (f : file) : result file :=
  let data := JObj [("products", current_state)] in
  if writable then Ok (Content (json_dump data)) else Raise OSError.
End state_store.

(** ** Notification and [main] *)

Definition ascii_lower (c : ascii) : ascii :=
  let n := nat_of_ascii c in
  if (65 <=? n) && (n <=? 90) then ascii_of_nat (n + 32) else c.

Fixpoint lower (s : string) : string :=
  match s with
  | EmptyString => EmptyString
  | String c s' => String (ascii_lower c) (lower s')
  end.

(** [not x] for a value of [os.getenv]: unset or empty. *)
Definition unset_or_empty (x : option string) : bool :=
  match x with
  | None => true
  | Some s => bool_decide (s = EmptyString)
  end.

(** The message handed to the SMTP session; [msg_to] is [TO_EMAIL] as it
    is set, before it is split at the commas. *)
Record message : Type := Message {
  msg_from : string;
  msg_to : string;
  msg_subject : string;
  msg_text : string;
  msg_html : string;
}.

(** What a run can change: the state file and the mail handed to the
    SMTP server. *)
Record world : Type := World {
  state_file : file;
  outbox : list message;
}.

Section main.
Variable urljoin : string → string → string.
Variable str_of : json → string.
Variable requests_get : string → result response.
Variable json_dump : json → string.
Variable json_load : string → result json.
(** The two renderers, pure functions of the report. *)
Variable format_report_html : report → string.
Variable format_report_text : report → string.
(** [os.getenv], whether the state file can be opened for writing, and
    whether the SMTP session (connect, starttls, login, sendmail) goes
    through for a message. *)
Variable getenv : string → option string.
Variable writable : bool.
Variable smtp_session : message → bool.

Definition SMTP_USER : option string := getenv "SMTP_USER".
Definition SMTP_PASSWORD : option string := getenv "SMTP_PASSWORD".
Definition TO_EMAIL : option string :=
  match getenv "TO_EMAIL" with
  | Some t => Some t
  | None => SMTP_USER
  end.
Definition ONLY_EMAIL_IF_CHANGES : bool :=
  bool_decide (lower (default "true" (getenv "ONLY_EMAIL_IF_CHANGES")) = "true").

Definition build_report_via_products_json (fuel : nat) : option (result report) :=
  match fetch_all_products requests_get fuel with
  | None => None
  | Some (Raise e) => Some (Raise e)
  | Some (Ok products) => Some (build_report urljoin str_of products)
  end.

Definition send_email (subject html_body : string) (text_body : option string)
    (w : world) : result unit * world :=
  if unset_or_empty SMTP_USER || unset_or_empty SMTP_PASSWORD
  then (Raise RuntimeError, w)
  else
    let text := default
      "Your email client does not support HTML. Please view this email in an HTML-capable client."
      text_body in
    let msg := Message (default EmptyString SMTP_USER) (default EmptyString TO_EMAIL)
                 subject text html_body in
    if smtp_session msg
    then (Ok (), World (state_file w) (outbox w ++ [msg]))
    else (Raise SMTPException, w).

(** [main] once the report is built: render, compare with the previous
    state, save, then decide whether to send. *)
Definition main_with_report (rep : report) (w : world) : result unit * world :=
  let html_body := format_report_html rep in
  let text_body := format_report_text rep in
  let curr_state := json_of_state (extract_state_from_report rep) in
  let prev_state := load_previous_state json_load (state_file w) in
  let changed := has_changes prev_state curr_state in
  match save_current_state json_dump curr_state writable (state_file w) with
  | Raise e => (Raise e, w)
  | Ok f' =>
      let w' := World f' (outbox w) in
      if ONLY_EMAIL_IF_CHANGES && negb changed then (Ok (), w')
      else
        send_email "CAVA Daily Stock Report (Full Inventory View)"
          html_body (Some text_body) w'
  end.

(** [None]: the fetch loop has not stopped within [fuel] pages.
    Otherwise how the run ends and the world it leaves. *)
Definition main (fuel : nat) (w : world) : option (result unit * world) :=
  match build_report_via_products_json fuel with
  | None => None
  | Some (Raise e) => Some (Raise e, w)
  | Some (Ok rep) => Some (main_with_report rep w)
  end.
End main.

(** ** Recipients of the notification *)

(** [s.split(sep)] for a separator of one character: the pieces between
    its occurrences, in order; a text without the separator is one
    piece, the empty text included. *)
Fixpoint split_on (sep : ascii) (s : string) : list string :=
  match s with
  | EmptyString => [EmptyString]
  | String c s' =>
      if decide (c = sep) then EmptyString :: split_on sep s'
      else
        match split_on sep s' with
        | piece :: pieces => String c piece :: pieces
        | [] => [String c EmptyString]
        end
  end.

(** The characters [str.strip()] removes from both ends, among the
    ASCII ones: tab, line feed, vertical tab, form feed, carriage
    return, the four separators 28 to 31 and the space.  Beyond ASCII
    Python strips the Unicode spaces as well; the statements about
    [strip] are for text of ASCII characters, as addresses are. *)
Definition is_py_space (c : ascii) : bool :=
  let n := nat_of_ascii c in
  ((9 <=? n) && (n <=? 13)) || ((28 <=? n) && (n <=? 32)).

Fixpoint lstrip (s : string) : string :=
  match s with
  | EmptyString => EmptyString
  | String c s' => if is_py_space c then lstrip s' else s
  end.

Fixpoint rstrip (s : string) : string :=
  match s with
  | EmptyString => EmptyString
  | String c s' =>
      match rstrip s' with
      | EmptyString => if is_py_space c then EmptyString else String c EmptyString
      | rest => String c rest
      end
  end.

Definition strip (s : string) : string := rstrip (lstrip s).

(** [[e.strip() for e in TO_EMAIL.split(",") if e.strip()]] and the
    [To] header [", ".join(recipients)] of [send_email]. *)
Definition recipients (to_email : string) : list string :=
  strip <$> filter (λ e, strip e ≠ EmptyString) (split_on "," to_email).

Definition to_header (to_email : string) : string :=
  String.concat ", " (recipients to_email).

(** ** Plain-text body: [format_report_text] *)

(** The renderer of the text body as the program has it, on reports of
    the shape the classifier builds; [main] above takes its two
    renderers as parameters, and this is the one it is run with. *)

Definition newline : ascii := ascii_of_nat 10.

(** [', '.join(sizes) or 'None']. *)
Definition join_or_none (sizes : list string) : string :=
  let joined := String.concat ", " sizes in
  if bool_decide (joined = EmptyString) then "None" else joined.

Section text_renderer.
(** The text an f-string gives a title. *)
Variable str_of : json → string.

(** The lines one turn of each of the three loops appends. *)
Definition partial_lines (item : string * product_info) : list string :=
  let '(url, data) := item in
  ["[PARTIAL] " +:+ str_of (title data);
   "  URL: " +:+ url;
   "  Available sizes: " +:+ join_or_none (available_sizes data);
   "  Sold-out sizes: " +:+ join_or_none (unavailable_sizes data);
   EmptyString].

Definition full_in_stock_lines (item : string * product_info) : list string :=
  let '(url, data) := item in
  ["[FULL IN STOCK] " +:+ str_of (title data);
   "  URL: " +:+ url;
   "  All sizes: " +:+ join_or_none (available_sizes data);
   EmptyString].

Definition full_oos_lines (item : string * product_info) : list string :=
  let '(url, data) := item in
  ["[FULL OOS] " +:+ str_of (title data);
   "  URL: " +:+ url;
   "  All sold-out sizes: " +:+ join_or_none (unavailable_sizes data);
   EmptyString].

(** [if not bucket: lines.append("None.")  else: for ... in
    bucket.items(): ...]. *)
Definition section_lines (block : string * product_info → list string)
    (items : pydict product_info) : list string :=
  if bool_decide (items = []) then ["None."] else items ≫= block.

(** [lines] when the function returns. *)
Definition report_text_lines (r : report) : list string :=
  ["CAVA Daily Stock Report"; "Source: /products.json"; EmptyString]
  ++ ["1) Partially Sold-Out Products"; "--------------------------------"]
  ++ section_lines partial_lines (partial r)
  ++ [EmptyString]
  ++ ["2) Fully Available Products"; "--------------------------------"]
  ++ section_lines full_in_stock_lines (full_in_stock r)
  ++ [EmptyString]
  ++ ["3) Fully Sold-Out Products"; "--------------------------------"]
  ++ section_lines full_oos_lines (full_oos r).

Definition format_report_text (r : report) : string :=
  String.concat (String newline EmptyString) (report_text_lines r).
End text_renderer.

(** ** HTML body: [render_table_html] and [format_report_html] *)

(** The renderer of the HTML body, on reports of the shape the
    classifier builds. *)

Definition double_quote : ascii := ascii_of_nat 34.

(** The texts of the two functions are written here with an apostrophe
    where the program has a double quote; they hold no apostrophe of
    their own, and [html] puts the double quotes back. *)
Fixpoint html (s : string) : string :=
  match s with
  | EmptyString => EmptyString
  | String c s' =>
      String (if decide (c = "'"%char) then double_quote else c) (html s')
  end.

Definition header_color (status : string) : string :=
  if decide (status = "partial") then "#ffb347"
  else if decide (status = "full_in_stock") then "#77dd77"
  else "#ff6961".

Definition status_label (status : string) : string :=
  if decide (status = "partial") then "Partially Sold-Out"
  else if decide (status = "full_in_stock") then "Fully Available"
  else "Fully Sold-Out".

(** [", ".join(sizes) if sizes else "None"]. *)
Definition join_if_any (sizes : list string) : string :=
  if bool_decide (sizes = []) then "None" else String.concat ", " sizes.

(** The f-string a turn of the loop adds to [rows_html]. *)
Definition row_html (url name status_label available unavailable : string)
    : string :=
  html "
        <tr>
            <td style='padding:8px; border:1px solid #ddd; font-weight:500;'>
                <a href='"
  +:+ url
  +:+ html "' style='color:#1a73e8; text-decoration:none;'>"
  +:+ name
  +:+ html "</a>
            </td>
            <td style='padding:8px; border:1px solid #ddd;'>"
  +:+ status_label
  +:+ html "</td>
            <td style='padding:8px; border:1px solid #ddd;'>"
  +:+ available
  +:+ html "</td>
            <td style='padding:8px; border:1px solid #ddd;'>"
  +:+ unavailable
  +:+ html "</td>
        </tr>
        ".

(** The f-string returned for a bucket without items. *)
Definition empty_table_html (title : string) : string :=
  html "
        <h2>"
  +:+ title
  +:+ html "</h2>
        <p style='color:#666;'>None.</p>
        ".

(** The f-string returned for a bucket with items. *)
Definition table_html (title header_color rows_html : string) : string :=
  html "
    <h2 style='margin-top:24px; margin-bottom:8px;'>"
  +:+ title
  +:+ html "</h2>
    <table cellpadding='0' cellspacing='0' style='border-collapse:collapse; width:100%; max-width:900px; font-size:14px;'>
        <thead>
            <tr style='background:"
  +:+ header_color
  +:+ html "; color:#000;'>
                <th style='padding:8px; border:1px solid #ddd; text-align:left;'>Product</th>
                <th style='padding:8px; border:1px solid #ddd; text-align:left;'>Status</th>
                <th style='padding:8px; border:1px solid #ddd; text-align:left;'>Available Sizes</th>
                <th style='padding:8px; border:1px solid #ddd; text-align:left;'>Sold-Out Sizes</th>
            </tr>
        </thead>
        <tbody>
            "
  +:+ rows_html
  +:+ html "
        </tbody>
    </table>
    ".

(** The f-string [format_report_html] returns. *)
Definition page_html (partial_html full_in_stock_html full_oos_html : string)
    : string :=
  html "
    <html>
    <head>
      <meta charset='UTF-8' />
      <title>CAVA Daily Stock Report</title>
    </head>
    <body style='font-family:Arial,Helvetica,sans-serif; background:#f5f5f5; margin:0; padding:16px;'>
      <div style='max-width:960px; margin:0 auto; background:#ffffff; padding:16px 24px; border-radius:8px; box-shadow:0 2px 4px rgba(0,0,0,0.08);'>
        <h1 style='font-size:20px; margin-bottom:4px;'>CAVA Daily Stock Report</h1>
        <p style='margin-top:0; color:#666; font-size:13px;'>Source: /products.json â€¢ Generated automatically</p>
        "
  +:+ partial_html
  +:+ html "
        "
  +:+ full_in_stock_html
  +:+ html "
        "
  +:+ full_oos_html
  +:+ html "
        <p style='margin-top:24px; font-size:11px; color:#999;'>
          This email was generated by an automated GitHub Actions job.
        </p>
      </div>
    </body>
    </html>
    ".

(** One turn of the loop of [render_table_html]; [str_of] is the text
    the f-string gives the title. *)
Definition table_row (str_of : json → string) (status : string)
    (item : string * product_info) : string :=
  let '(url, data) := item in
  let name := str_of (title data) in
  let available := join_if_any (available_sizes data) in
  let unavailable := join_if_any (unavailable_sizes data) in
  row_html url name (status_label status) available unavailable.

Definition render_table_html (str_of : json → string) (title : string)
    (items : pydict product_info) (status : string) : string :=
  if bool_decide (items = []) then empty_table_html title
  else
    let rows_html :=
      foldl (λ rows_html item, rows_html +:+ table_row str_of status item)
            EmptyString items in
    table_html title (header_color status) rows_html.

Definition format_report_html (str_of : json → string) (r : report) : string :=
  let partial_html :=
    render_table_html str_of "1) Partially Sold-Out Products" (partial r)
      "partial" in
  let full_in_stock_html :=
    render_table_html str_of "2) Fully Available Products" (full_in_stock r)
      "full_in_stock" in
  let full_oos_html :=
    render_table_html str_of "3) Fully Sold-Out Products" (full_oos r)
      "full_oos" in
  page_html partial_html full_in_stock_html full_oos_html.

(** ** Vocabulary of the statements

    The terms in which the properties below are stated: how a product
    record reads, the two label sets of a product, the status the sets
    call for, what a list of products assigns to a bucket, and when two
    snapshots are the same. *)

Definition is_obj (v : json) : bool :=
  match v with JObj _ => true | _ => false end.

Definition is_str (v : json) : bool :=
  match v with JStr _ => true | _ => false end.

Definition label_text (v : json) : option string :=
  match v with JStr s => Some s | _ => None end.

Definition product_title (m : pydict json) : json :=
  default (JStr "Unknown product") (dict_get "title" m).

Definition product_handle (m : pydict json) : json :=
  default JNull (dict_get "handle" m).

Definition product_variants (m : pydict json) : json :=
  default (JArr []) (dict_get "variants" m).

(** [v.get("option1") or v.get("title")] and the truth of
    [v.get("available", True)]. *)
Definition variant_size (m : pydict json) : json :=
  let option1 := default JNull (dict_get "option1" m) in
  if truthy option1 then option1 else default JNull (dict_get "title" m).

Definition variant_available (m : pydict json) : bool :=
  truthy (default (JBool true) (dict_get "available" m)).

(** The label a variant adds to the available ([avail = true]) or to the
    unavailable labels, if any. *)
Definition sized_label (avail : bool) (v : json) : option json :=
  match v with
  | JObj m =>
      if truthy (variant_size m) && bool_decide (variant_available m = avail)
      then Some (variant_size m) else None
  | _ => None
  end.

Definition sized_labels (avail : bool) (variants : list json) : list json :=
  omap (sized_label avail) variants.

(** The sorted, duplicate-free set of available or unavailable sizes. *)
Definition label_set (avail : bool) (variants : list json) : list string :=
  sorted (py_set (omap label_text (sized_labels avail variants))).

(** The status two size sets call for; none when both are empty. *)
Definition status_of_sets (a u : list string) : option status_key :=
  match a, u with
  | [], [] => None
  | _ :: _, _ :: _ => Some StPartial
  | _ :: _, [] => Some StFullInStock
  | [], _ :: _ => Some StFullOos
  end.

(** Key, bucket and entry of a classified product. *)
Definition classification : Type := string * status_key * product_info.

Definition assign (r : report) (c : classification) : report :=
  bucket_assign c.1.2 c.1.1 c.2 r.

(** The assignments a list of classifications makes to one bucket. *)
Definition assigned (st : status_key) (cs : list classification)
    : pydict product_info :=
  omap (λ c : classification,
          if decide (c.1.2 = st) then Some (c.1.1, c.2) else None) cs.

Definition report_wf (r : report) : Prop := ∀ st, dict_wf (bucket st r).

(** Two product records that differ at most in the order of their
    variants. *)
Inductive reordered_variants : json → json → Prop :=
  | reordered_obj (m m' : pydict json) (vs vs' : list json) :
      (∀ k, k ≠ "variants" → dict_get k m' = dict_get k m) →
      product_variants m = JArr vs →
      product_variants m' = JArr vs' →
      vs ≡ₚ vs' →
      reordered_variants (JObj m) (JObj m')
  | reordered_same (p : json) : reordered_variants p p.

Section classified.
Variable urljoin : string → string → string.
Variable str_of : json → string.

(** The classifications of the products of a list, in order. *)
Definition classified (ps : list json) : list classification :=
  omap (λ p, match classify_product urljoin str_of p with
             | Ok c => c
             | Raise _ => None
             end) ps.
End classified.

(** Buckets read back from a snapshot: the keys whose entry carries the
    status. *)
Definition rederive_bucket (st : status_key) (state : pydict state_entry)
    : list string :=
  dict_keys (filter (λ kv, status kv.2 = st) state).

(** [==] on two snapshots, on their typed view. *)
Definition state_eqb (s1 s2 : pydict state_entry) : bool :=
  bool_decide (length s1 = length s2)
  && forallb (λ kv, bool_decide (dict_get kv.1 s2 = Some kv.2)) s1.

(** Structural equality of snapshots: the same keys with the same
    entries. *)
Definition snapshot_equal (s1 s2 : pydict state_entry) : Prop :=
  ∀ url, dict_get url s1 = dict_get url s2.

(** Its negation, in the words of the change detector's contract:
    different key sets, or a shared key whose status or size lists
    differ. *)
Definition snapshots_differ (s1 s2 : pydict state_entry) : Prop :=
  (∃ url, ¬ (url ∈ dict_keys s1 ↔ url ∈ dict_keys s2)) ∨
  (∃ url e1 e2,
     dict_get url s1 = Some e1 ∧ dict_get url s2 = Some e2 ∧
     (status e1 ≠ status e2 ∨ available e1 ≠ available e2
      ∨ unavailable e1 ≠ unavailable e2)).

(** ** Vocabulary of the further statements *)

(** Two product records that differ at most in their titles. *)
Inductive retitled : json → json → Prop :=
  | retitled_obj (m m' : pydict json) :
      (∀ k, k ≠ "title" → dict_get k m' = dict_get k m) →
      retitled (JObj m) (JObj m')
  | retitled_same (p : json) : retitled p p.

(** Entries under the same keys with the same size lists. *)
Definition same_stock (d d' : pydict product_info) : Prop :=
  Forall2 (λ kv kv', kv.1 = kv'.1
                     ∧ available_sizes kv.2 = available_sizes kv'.2
                     ∧ unavailable_sizes kv.2 = unavailable_sizes kv'.2) d d'.

(** The classification of a record under another title. *)
Definition same_stock_class (c c' : option classification) : Prop :=
  match c, c' with
  | None, None => True
  | Some (url, st, info), Some (url', st', info') =>
      url = url' ∧ st = st'
      ∧ available_sizes info = available_sizes info'
      ∧ unavailable_sizes info = unavailable_sizes info'
  | _, _ => False
  end.

Section catalogue_vocabulary.
Variable urljoin : string → string → string.
Variable str_of : json → string.

(** Products that share a URL are classified alike. *)
Definition alike (ps : list json) : Prop :=
  ∀ p1 p2 url st1 st2 info1 info2,
    p1 ∈ ps → p2 ∈ ps →
    classify_product urljoin str_of p1 = Ok (Some (url, st1, info1)) →
    classify_product urljoin str_of p2 = Ok (Some (url, st2, info2)) →
    st1 = st2 ∧ info1 = info2.

(** The snapshot entry some product of the list gives a URL. *)
Definition entry_from (ps : list json) (url : string) (e : state_entry) : Prop :=
  ∃ p st info,
    p ∈ ps ∧ classify_product urljoin str_of p = Ok (Some (url, st, info))
    ∧ e = entry_of st info.
End catalogue_vocabulary.

(** A report without an entry. *)
Definition no_entries (r : report) : bool :=
  bool_decide (partial r = [] ∧ full_in_stock r = [] ∧ full_oos r = []).

(** The characters of a text, and text whose characters are ASCII. *)
Abbreviation chars := list_ascii_of_string.

Definition is_ascii_text (s : string) : bool :=
  forallb (λ c, nat_of_ascii c <? 128) (chars s).

(** An address as [recipients] returns them: not empty, without a comma
    and without white space at either end. *)
Definition clean_address (e : string) : Prop :=
  e ≠ EmptyString ∧ (("," : ascii) ∉ chars e) ∧ strip e = e.

(** A text that does not begin with white space. *)
Definition starts_clean (s : string) : Prop :=
  match s with
  | EmptyString => True
  | String c _ => is_py_space c = false
  end.

(** The world once the snapshot of a report is saved: the state file
    holds its document, the outbox is as it was. *)
Definition saved_world (json_dump : json → string) (rep : report) (w : world)
    : world :=
  World (Content (json_dump
           (JObj [("products", json_of_state (extract_state_from_report rep))])))
        (outbox w).

(** Text without a line break. *)
Definition newline_free (s : string) : Prop := newline ∉ chars s.

(** The rest of a text that begins with [pre]. *)
Fixpoint strip_prefix (pre s : string) : option string :=
  match pre, s with
  | EmptyString, _ => Some s
  | String a pre', String b s' =>
      if decide (a = b) then strip_prefix pre' s' else None
  | String _ _, EmptyString => None
  end.

(** What the lines of a text body give as product URLs. *)
Definition url_lines (lines : list string) : list string :=
  omap (strip_prefix "  URL: ") lines.

Section text_body_vocabulary.
Variable str_of : json → string.

(** The block of lines the renderer appends for an entry of a bucket. *)
Definition block_of (st : status_key) : string * product_info → list string :=
  match st with
  | StPartial => partial_lines str_of
  | StFullInStock => full_in_stock_lines str_of
  | StFullOos => full_oos_lines str_of
  end.

(** An entry whose key, title text and size labels hold no line break. *)
Definition one_line_entry (item : string * product_info) : Prop :=
  newline_free item.1 ∧ newline_free (str_of (title item.2))
  ∧ Forall newline_free (available_sizes item.2 ++ unavailable_sizes item.2).
End text_body_vocabulary.

(** ** Instances of the library calls

    [urljoin] is given for a base without a path and a reference that is
    an absolute path of plain segments, where it appends the reference;
    [str_of] for strings, integers, booleans and [None].  [json_dump]
    prints as [json.dump] does with [indent=2] and [ensure_ascii=False]:
    items one per line, two spaces per level, a colon and a space after
    a key, the characters of a string as they are except the quote, the
    backslash and the control characters.  [json_load] reads
    JSON text whose numbers are integers and whose [\u] escapes are
    below 128; an object with a repeated key keeps the position of the
    first and the value of the last. *)
Module PyLib.

Definition urljoin (base ref : string) : string := base +:+ ref.

Definition str_of (v : json) : string :=
  match v with
  | JStr s => s
  | JNum n => pretty n
  | JBool true => "True"
  | JBool false => "False"
  | _ => "None"
  end.

Definition hex_digit (n : nat) : ascii :=
  ascii_of_nat (if n <? 10 then 48 + n else 87 + n).

Definition dquote : ascii := ascii_of_nat 34.
Definition backslash : ascii := ascii_of_nat 92.

Definition escape_char (c : ascii) : string :=
  let n := nat_of_ascii c in
  if n =? 34 then String backslash (String dquote EmptyString)
  else if n =? 92 then "\\"
  else if n =? 8 then "\b"
  else if n =? 12 then "\f"
  else if n =? 10 then "\n"
  else if n =? 13 then "\r"
  else if n =? 9 then "\t"
  else if n <? 32
  then "\u00" +:+ String (hex_digit (n / 16))
                    (String (hex_digit (n mod 16)) EmptyString)
  else String c EmptyString.

Fixpoint escape (s : string) : string :=
  match s with
  | EmptyString => EmptyString
  | String c s' => escape_char c +:+ escape s'
  end.

Definition quote (s : string) : string :=
  String dquote (escape s +:+ String dquote EmptyString).

Definition newline_indent (level : nat) : string :=
  String (ascii_of_nat 10) (String.concat EmptyString (replicate level "  ")).

Fixpoint dump_value (level : nat) (v : json) : string :=
  match v with
  | JNull => "null"
  | JBool true => "true"
  | JBool false => "false"
  | JNum n => pretty n
  | JStr s => quote s
  | JArr [] => "[]"
  | JArr items =>
      "[" +:+ newline_indent (S level)
      +:+ String.concat ("," +:+ newline_indent (S level))
            (dump_value (S level) <$> items)
      +:+ newline_indent level +:+ "]"
  | JObj [] => "{}"
  | JObj members =>
      "{" +:+ newline_indent (S level)
      +:+ String.concat ("," +:+ newline_indent (S level))
            ((λ kv, quote kv.1 +:+ ": " +:+ dump_value (S level) kv.2) <$> members)
      +:+ newline_indent level +:+ "}"
  end.

Definition json_dump (v : json) : string := dump_value 0 v.

Definition is_space (c : ascii) : bool :=
  let n := nat_of_ascii c in
  (n =? 32) || (n =? 9) || (n =? 10) || (n =? 13).

Fixpoint skip_ws (s : string) : string :=
  match s with
  | String c s' => if is_space c then skip_ws s' else s
  | EmptyString => s
  end.

Definition hex_value (c : ascii) : option nat :=
  let n := nat_of_ascii c in
  if (48 <=? n) && (n <=? 57) then Some (n - 48)
  else if (97 <=? n) && (n <=? 102) then Some (n - 87)
  else if (65 <=? n) && (n <=? 70) then Some (n - 55)
  else None.

(** The characters after an opening quote, up to the closing one. *)
Fixpoint scan_string (s : string) (acc : list ascii) : option (string * string) :=
  match s with
  | EmptyString => None
  | String c s' =>
      let n := nat_of_ascii c in
      if n =? 34 then Some (string_of_list_ascii (reverse acc), s')
      else if n =? 92 then
        match s' with
        | String e s'' =>
            let m := nat_of_ascii e in
            let simple k := scan_string s'' (ascii_of_nat k :: acc) in
            if m =? 34 then simple 34
            else if m =? 92 then simple 92
            else if m =? 47 then simple 47
            else if m =? 98 then simple 8
            else if m =? 102 then simple 12
            else if m =? 110 then simple 10
            else if m =? 114 then simple 13
            else if m =? 116 then simple 9
            else if m =? 117 then
              match s'' with
              | String h1 (String h2 (String h3 (String h4 s4))) =>
                  match hex_value h1, hex_value h2, hex_value h3, hex_value h4 with
                  | Some a, Some b, Some c', Some d =>
                      let code := ((a * 16 + b) * 16 + c') * 16 + d in
                      if code <? 128 then scan_string s4 (ascii_of_nat code :: acc)
                      else None
                  | _, _, _, _ => None
                  end
              | _ => None
              end
            else None
        | EmptyString => None
        end
      else if n <? 32 then None
      else scan_string s' (c :: acc)
  end.

Definition is_digit (c : ascii) : bool :=
  let n := nat_of_ascii c in (48 <=? n) && (n <=? 57).

Fixpoint scan_digits (s : string) (acc : N) : N * string :=
  match s with
  | String c s' =>
      if is_digit c
      then scan_digits s' (acc * 10 + N.of_nat (nat_of_ascii c - 48))%N
      else (acc, s)
  | EmptyString => (acc, s)
  end.

Definition scan_int (s : string) : option (Z * string) :=
  match s with
  | String c s' =>
      if bool_decide (c = "-"%char) then
        match s' with
        | String d _ =>
            if is_digit d
            then let r := scan_digits s' 0%N in Some (Z.opp (Z.of_N r.1), r.2)
            else None
        | EmptyString => None
        end
      else if is_digit c
      then let r := scan_digits s 0%N in Some (Z.of_N r.1, r.2)
      else None
  | EmptyString => None
  end.

Definition expect (word : string) (v : json) (s : string) : option (json * string) :=
  if String.prefix word s
  then Some (v, String.substring (String.length word)
                  (String.length s - String.length word) s)
  else None.

Fixpoint parse_value (fuel : nat) (s : string) : option (json * string) :=
  match fuel with
  | 0 => None
  | S fuel' =>
      match skip_ws s with
      | EmptyString => None
      | String c s' =>
          let n := nat_of_ascii c in
          if n =? 34 then
            '(str, rest) ← scan_string s' []; Some (JStr str, rest)
          else if n =? 91 then
            match skip_ws s' with
            | String c' rest =>
                if nat_of_ascii c' =? 93 then Some (JArr [], rest)
                else '(items, rest') ← parse_items fuel' (String c' rest);
                     Some (JArr items, rest')
            | EmptyString => None
            end
          else if n =? 123 then
            match skip_ws s' with
            | String c' rest =>
                if nat_of_ascii c' =? 125 then Some (JObj [], rest)
                else '(members, rest') ← parse_members fuel' (String c' rest);
                     Some (JObj (foldl (λ d kv, dict_set kv.1 kv.2 d) [] members),
                           rest')
            | EmptyString => None
            end
          else if n =? 110 then expect "null" JNull (String c s')
          else if n =? 116 then expect "true" (JBool true) (String c s')
          else if n =? 102 then expect "false" (JBool false) (String c s')
          else '(z, rest) ← scan_int (String c s'); Some (JNum z, rest)
      end
  end
with parse_items (fuel : nat) (s : string) : option (list json * string) :=
  match fuel with
  | 0 => None
  | S fuel' =>
      '(v, rest) ← parse_value fuel' s;
      match skip_ws rest with
      | String c rest' =>
          if nat_of_ascii c =? 44 then
            '(vs, rest'') ← parse_items fuel' rest'; Some (v :: vs, rest'')
          else if nat_of_ascii c =? 93 then Some ([v], rest')
          else None
      | EmptyString => None
      end
  end
with parse_members (fuel : nat) (s : string)
    : option (list (string * json) * string) :=
  match fuel with
  | 0 => None
  | S fuel' =>
      match skip_ws s with
      | String q s' =>
          if nat_of_ascii q =? 34 then
            '(key, rest) ← scan_string s' [];
            match skip_ws rest with
            | String colon rest1 =>
                if nat_of_ascii colon =? 58 then
                  '(v, rest2) ← parse_value fuel' rest1;
                  match skip_ws rest2 with
                  | String c rest3 =>
                      if nat_of_ascii c =? 44 then
                        '(kvs, rest4) ← parse_members fuel' rest3;
                        Some ((key, v) :: kvs, rest4)
                      else if nat_of_ascii c =? 125 then Some ([(key, v)], rest3)
                      else None
                  | EmptyString => None
                  end
                else None
            | EmptyString => None
            end
          else None
      | EmptyString => None
      end
  end.

Definition json_load (text : string) : result json :=
  match parse_value (S (String.length text)) text with
  | Some (v, rest) =>
      if bool_decide (skip_ws rest = EmptyString) then Ok v
      else Raise JSONDecodeError
  | None => Raise JSONDecodeError
  end.

(** *** What the codec is shown to read back *)

(** Documents without numbers whose objects have no repeated key; the
    snapshot documents are of this kind. *)
Fixpoint text_only (v : json) : bool :=
  match v with
  | JNum _ => false
  | JArr items => forallb text_only items
  | JObj members =>
      bool_decide (NoDup (dict_keys members))
      && forallb (λ kv, text_only kv.2) members
  | _ => true
  end.

(** A bound on the fuel the reader needs for a value. *)
Fixpoint weight (v : json) : nat :=
  match v with
  | JArr items => S (list_sum ((λ x, S (weight x)) <$> items))
  | JObj members => S (list_sum ((λ kv, S (weight kv.2)) <$> members))
  | _ => 1
  end.

(** The text between the brackets of a list and of a dict. *)
Definition items_text (level : nat) (items : list json) : string :=
  String.concat ("," +:+ newline_indent level) (dump_value level <$> items).

Definition member_text (level : nat) (kv : string * json) : string :=
  quote kv.1 +:+ ": " +:+ dump_value level kv.2.

Definition members_text (level : nat) (members : list (string * json)) : string :=
  String.concat ("," +:+ newline_indent level) (member_text level <$> members).

(** How a printed value starts: never with a space or a closing
    bracket. *)
Definition opens_value (s : string) : Prop :=
  ∃ c s', s = String c s' ∧ is_space c = false
          ∧ nat_of_ascii c ≠ 93 ∧ nat_of_ascii c ≠ 125.

(** Reading back what was printed, for each of the three mutually
    recursive readers. *)
Definition reads_back (fuel : nat) : Prop :=
  (∀ v level rest,
     weight v ≤ fuel → text_only v = true →
     parse_value fuel (dump_value level v +:+ rest) = Some (v, rest)) ∧
  (∀ items level tail rest,
     items ≠ [] → list_sum ((λ x, S (weight x)) <$> items) ≤ fuel →
     forallb text_only items = true →
     skip_ws tail = String "]" rest →
     parse_items fuel (items_text level items +:+ tail) = Some (items, rest)) ∧
  (∀ members level tail rest,
     members ≠ [] → list_sum ((λ kv, S (weight kv.2)) <$> members) ≤ fuel →
     forallb (λ kv, text_only kv.2) members = true →
     skip_ws tail = String "}" rest →
     parse_members fuel (members_text level members +:+ tail)
     = Some (members, rest)).
End PyLib.

(** ** Example records *)
Module Examples.

Definition variant (size : string) (available : json) : json :=
  JObj [("option1", JStr size); ("available", available)].

Definition product (ttl handle : string) (variants : list json) : pydict json :=
  [("title", JStr ttl); ("handle", JStr handle); ("variants", JArr variants)].

(** The product of the end-to-end scenario: S in stock, M sold out. *)
Definition bowl_variants : list json :=
  [variant "S" (JBool true); variant "M" (JBool false)].
Definition bowl : pydict json := product "Bowl" "bowl" bowl_variants.
Definition bowl_url : string := "https://cavaathleisure.com/products/bowl".
Definition bowl_info : product_info := ProductInfo (JStr "Bowl") ["S"] ["M"].

(** The same record with its variants in the other order. *)
Definition bowl_swapped : pydict json :=
  product "Bowl" "bowl" [variant "M" (JBool false); variant "S" (JBool true)].

(** Two more records under the handle [bowl], both fully in stock. *)
Definition bowl_restocked : pydict json :=
  product "Bowl" "bowl" [variant "S" (JBool true); variant "M" (JBool true)].
Definition bowl_small : pydict json :=
  product "Bowl" "bowl" [variant "XS" (JBool true)].

(** A second product, sold out. *)
Definition cup : pydict json :=
  product "Cup" "cup" [variant "L" (JBool false)].
Definition cup_url : string := "https://cavaathleisure.com/products/cup".
Definition cup_info : product_info := ProductInfo (JStr "Cup") [] ["L"].

(** A record with a sized variant and no handle. *)
Definition ghost_variants : list json := [variant "S" (JBool true)].
Definition ghost : pydict json :=
  [("title", JStr "Ghost"); ("variants", JArr ghost_variants)].

(** One label, once in stock and once sold out. *)
Definition twin_variants : list json :=
  [variant "S" (JBool true); variant "S" (JBool false)].
Definition twin : pydict json := product "Twin" "twin" twin_variants.

(** [available] present and null, and [available] absent. *)
Definition null_variant : pydict json :=
  [("option1", JStr "S"); ("available", JNull)].
Definition bare_variant : pydict json := [("option1", JStr "S")].
Definition nullish : pydict json :=
  product "Nullish" "nullish" [JObj null_variant].
Definition bare : pydict json := product "Bare" "bare" [JObj bare_variant].

Definition bowl_and_cup_report : report :=
  Report [(bowl_url, bowl_info)] [] [(cup_url, cup_info)].

(** The report of [bowl] followed by [bowl_restocked]. *)
Definition two_bucket_report : report :=
  Report [(bowl_url, bowl_info)]
         [(bowl_url, ProductInfo (JStr "Bowl") ["M"; "S"] [])] [].

Definition bowl_entry : state_entry := StateEntry StPartial ["S"] ["M"].
Definition cup_entry : state_entry := StateEntry StFullOos [] ["L"].
Definition bowl_state : pydict state_entry := [(bowl_url, bowl_entry)].

(** A catalog of one page holding [bowl]; page 2 answers 500. *)
Definition one_page_then_500 (url : string) : result response :=
  if decide (url = page_url 1 250)
  then Ok (Response 200 (Ok (JObj [("products", JArr [JObj bowl])])))
  else Ok (Response 500 (Raise JSONDecodeError)).

(** The catalog of the end-to-end scenario: page 2 is empty. *)
Definition one_page_then_empty (url : string) : result response :=
  if decide (url = page_url 1 250)
  then Ok (Response 200 (Ok (JObj [("products", JArr [JObj bowl])])))
  else Ok (Response 200 (Ok (JObj [("products", JArr [])]))).

(** A catalog whose first page answers 503. *)
Definition always_503 (url : string) : result response :=
  Ok (Response 503 (Raise JSONDecodeError)).

(** A catalog that cannot be reached. *)
Definition unreachable (url : string) : result response :=
  Raise ConnectionError.

Definition render_html (rep : report) : string := "<html></html>".
Definition render_text (rep : report) : string := "CAVA Daily Stock Report".

(** An environment without SMTP credentials, and one with them. *)
Definition no_credentials (name : string) : option string := None.
Definition with_credentials (name : string) : option string :=
  if decide (name = "SMTP_USER") then Some "bot@example.com"
  else if decide (name = "SMTP_PASSWORD") then Some "app-password"
  else None.

Definition smtp_up (msg : message) : bool := true.

Definition fresh_world : world := World Absent [].

(** The record [bowl] under another title. *)
Definition bowl_renamed : pydict json := product "Salad Bowl" "bowl" bowl_variants.

(** A record whose only size label is a number. *)
Definition odd : pydict json :=
  [("title", JStr "Odd"); ("handle", JStr "odd");
   ("variants", JArr [JObj [("option1", JNum 38)]])].

(** A catalog that answers every page with [bowl]. *)
Definition endless (url : string) : result response :=
  Ok (Response 200 (Ok (JObj [("products", JArr [JObj bowl])]))).

(** A catalog whose first page answers 200 with a body that is not
    JSON. *)
Definition garbled (url : string) : result response :=
  Ok (Response 200 (Raise JSONDecodeError)).

(** A catalog of one page holding [bowl], [odd] and [cup]. *)
Definition one_odd_page (url : string) : result response :=
  if decide (url = page_url 1 250)
  then Ok (Response 200
             (Ok (JObj [("products", JArr [JObj bowl; JObj odd; JObj cup])])))
  else Ok (Response 200 (Ok (JObj []))).

(** An SMTP server that refuses the session. *)
Definition smtp_down (msg : message) : bool := false.

(** The state file once the snapshot of [bowl] is saved. *)
Definition bowl_saved : file :=
  Content (PyLib.json_dump (JObj [("products", json_of_state bowl_state)])).

(** The mail a run on the catalog of [bowl] sends. *)
Definition bowl_mail : message :=
  Message "bot@example.com" "bot@example.com"
    "CAVA Daily Stock Report (Full Inventory View)"
    "CAVA Daily Stock Report" "<html></html>".

(** A recipient list as typed by hand. *)
Definition typed_recipients : string := " ann@example.com, bob@example.com ,,".

(** A state file whose [products] is [null]. *)
Definition null_products : string :=
  "{" +:+ String PyLib.dquote "products" +:+ String PyLib.dquote ": null}".
End Examples.

Import Examples.

(** * Properties *)

(** ** Dictionaries *)

Section dict.
Context {V : Type}.
Implicit Types (d : pydict V) (k : string) (v : V).

Lemma dict_get_app k d1 d2 :
  dict_get k (d1 ++ d2) =
  match dict_get k d2 with Some v => Some v | None => dict_get k d1 end.
Proof.
  induction d1 as [|[k' v'] d1 IH]; simpl.
  - by destruct (dict_get k d2).
  - rewrite IH. by destruct (dict_get k d2).
Qed.

Lemma dict_get_None k d : dict_get k d = None ↔ k ∉ dict_keys d.
Proof.
  unfold dict_keys. induction d as [|[k' v'] d IH]; simpl.
  - split; [intros _; apply not_elem_of_nil | done].
  - rewrite not_elem_of_cons, <- IH.
    destruct (dict_get k d) as [w|].
    { split; [done|]. by intros [_ ?]. }
    destruct (decide (k' = k)) as [->|Hne].
    { split; [done|]. by intros [? _]. }
    split; [|done]. intros _. split; [congruence|done].
Qed.

Lemma dict_get_is_Some k d : is_Some (dict_get k d) ↔ k ∈ dict_keys d.
Proof.
  rewrite <- not_eq_None_Some, dict_get_None.
  destruct (decide (k ∈ dict_keys d)); naive_solver.
Qed.

Lemma dict_mem_true k d : dict_mem k d = true ↔ k ∈ dict_keys d.
Proof. unfold dict_mem. apply bool_decide_eq_true. Qed.

Lemma dict_get_elem_of k v d : dict_get k d = Some v → (k, v) ∈ d.
Proof.
  induction d as [|[k' v'] d IH]; simpl; [done|].
  destruct (dict_get k d) eqn:E.
  - intros [= ->]. right. by apply IH.
  - destruct (decide (k' = k)) as [->|]; [|done]. intros [= ->]. left.
Qed.

Lemma dict_get_wf k v d : dict_wf d → (k, v) ∈ d → dict_get k d = Some v.
Proof.
  unfold dict_wf, dict_keys. induction d as [|[k' v'] d IH]; simpl.
  - intros _ H. by apply elem_of_nil in H.
  - rewrite NoDup_cons. intros [Hk Hd] [[= -> ->]|Hin]%elem_of_cons.
    + apply dict_get_None in Hk. rewrite Hk. by rewrite decide_True.
    + by rewrite (IH Hd Hin).
Qed.

Lemma dict_get_Permutation k d d' :
  dict_wf d → d ≡ₚ d' → dict_get k d = dict_get k d'.
Proof.
  intros Hwf Hp.
  assert (dict_wf d') as Hwf'.
  { unfold dict_wf, dict_keys in *. by rewrite <- Hp. }
  destruct (dict_get k d) as [v|] eqn:E.
  - symmetry. apply dict_get_wf; [done|]. rewrite <- Hp. by apply dict_get_elem_of.
  - symmetry. apply dict_get_None. apply dict_get_None in E.
    unfold dict_keys in *. by rewrite <- Hp.
Qed.

Lemma dict_keys_set k v d :
  dict_keys (dict_set k v d) =
  if dict_mem k d then dict_keys d else dict_keys d ++ [k].
Proof.
  unfold dict_set, dict_keys. destruct (dict_mem k d).
  - rewrite <- list_fmap_compose. apply list_fmap_ext.
    intros i [k' v'] _. simpl. by destruct (decide (k' = k)) as [->|].
  - by rewrite fmap_app.
Qed.

Lemma dict_wf_set k v d : dict_wf d → dict_wf (dict_set k v d).
Proof.
  unfold dict_wf. rewrite dict_keys_set.
  destruct (dict_mem k d) eqn:E; [done|].
  intros Hd. apply NoDup_app. split_and!; [done| |apply NoDup_singleton].
  intros x Hx ->%list_elem_of_singleton.
  apply dict_mem_true in Hx. congruence.
Qed.

Lemma dict_get_update k v d :
  dict_get k ((λ kv : string * V, if decide (kv.1 = k) then (k, v) else kv) <$> d)
  = if decide (k ∈ dict_keys d) then Some v else None.
Proof.
  unfold dict_keys. induction d as [|[k' v'] d IH].
  - rewrite decide_False; [done|apply not_elem_of_nil].
  - rewrite !fmap_cons. cbn [dict_get fst].
    destruct (decide (k' = k)) as [->|Hne]; rewrite IH.
    + rewrite (decide_True (P := k ∈ k :: d.*1)) by left.
      destruct (decide (k ∈ d.*1)); [done|]. by rewrite decide_True.
    + destruct (decide (k ∈ d.*1)) as [Hin|Hnin].
      * rewrite decide_True; [done|by right].
      * rewrite decide_False by done. rewrite decide_False; [done|].
        rewrite not_elem_of_cons. naive_solver.
Qed.

Lemma dict_get_set_eq k v d : dict_get k (dict_set k v d) = Some v.
Proof.
  unfold dict_set. destruct (dict_mem k d) eqn:E.
  - apply dict_mem_true in E. rewrite dict_get_update. by rewrite decide_True.
  - rewrite dict_get_app. simpl. by rewrite decide_True.
Qed.

Lemma dict_get_set_ne k k' v d :
  k ≠ k' → dict_get k' (dict_set k v d) = dict_get k' d.
Proof.
  intros Hne. unfold dict_set. destruct (dict_mem k d).
  - induction d as [|[k2 v2] d IH]; [done|].
    rewrite fmap_cons. cbn [dict_get fst].
    destruct (decide (k2 = k)) as [->|]; rewrite IH; [|done].
    destruct (dict_get k' d); [done|]. rewrite !decide_False by done. done.
  - rewrite dict_get_app. simpl. by rewrite decide_False.
Qed.

Lemma dict_get_set k k' v d :
  dict_get k' (dict_set k v d) = if decide (k = k') then Some v else dict_get k' d.
Proof.
  destruct (decide (k = k')) as [->|]; [apply dict_get_set_eq|by apply dict_get_set_ne].
Qed.
End dict.

(** ** [sorted(set(...))] *)

Lemma sorted_Permutation xs : sorted xs ≡ₚ xs.
Proof. apply merge_sort_Permutation. Qed.

Lemma sorted_StronglySorted xs : StronglySorted String.le (sorted xs).
Proof. apply StronglySorted_merge_sort; apply _. Qed.

Lemma sorted_proper xs ys : xs ≡ₚ ys → sorted xs = sorted ys.
Proof.
  intros Hp. apply (StronglySorted_unique String.le); try apply sorted_StronglySorted.
  by rewrite !sorted_Permutation.
Qed.

Lemma elem_of_sorted_set x xs : x ∈ sorted (py_set xs) ↔ x ∈ xs.
Proof. unfold py_set. by rewrite sorted_Permutation, elem_of_remove_dups. Qed.

Lemma NoDup_sorted_set xs : NoDup (sorted (py_set xs)).
Proof. rewrite sorted_Permutation. apply NoDup_remove_dups. Qed.

(** [sorted(set(xs))] depends on the set of labels only. *)
Lemma sorted_set_ext xs ys :
  (∀ x, x ∈ xs ↔ x ∈ ys) → sorted (py_set xs) = sorted (py_set ys).
Proof.
  intros H. apply sorted_proper. apply NoDup_Permutation; try apply NoDup_remove_dups.
  intros x. unfold py_set. by rewrite !elem_of_remove_dups.
Qed.

Lemma sorted_nil_iff xs : sorted (py_set xs) = [] ↔ xs = [].
Proof.
  split; [|by intros ->].
  intros H. destruct xs as [|x xs]; [done|].
  assert (x ∈ sorted (py_set (x :: xs))) as Hx by (apply elem_of_sorted_set; left).
  rewrite H in Hx. by apply elem_of_nil in Hx.
Qed.

(** ** The variant loop *)

Lemma variant_step_obj acc m :
  variant_step acc (JObj m) =
  Ok (if negb (truthy (variant_size m)) then acc
      else if variant_available m
      then SizesAcc (acc_available acc ++ [variant_size m]) (acc_unavailable acc)
             (S (total_variants_with_size acc))
      else SizesAcc (acc_available acc) (acc_unavailable acc ++ [variant_size m])
             (S (total_variants_with_size acc))).
Proof.
  unfold variant_step, variant_size, variant_available. simpl.
  destruct (truthy (default JNull (dict_get "option1" m))); simpl;
    repeat (match goal with |- context [if ?b then _ else _] => destruct b end; simpl);
    done.
Qed.

Lemma variant_step_not_obj acc v :
  is_obj v = false → variant_step acc v = Raise AttributeError.
Proof. by destruct v. Qed.

Lemma for_each_variant_step vs acc :
  for_each variant_step vs acc =
  if forallb is_obj vs
  then Ok (SizesAcc (acc_available acc ++ sized_labels true vs)
             (acc_unavailable acc ++ sized_labels false vs)
             (total_variants_with_size acc + length (sized_labels true vs)
              + length (sized_labels false vs)))
  else Raise AttributeError.
Proof.
  revert acc. induction vs as [|v vs IH]; intros acc.
  - simpl. rewrite !app_nil_r. destruct acc; simpl. f_equal. f_equal. lia.
  - cbn [for_each forallb]. destruct (is_obj v) eqn:Ev.
    + destruct v; try done. rewrite variant_step_obj. cbn [mbind result_bind].
      rewrite IH. cbn [andb]. destruct (forallb is_obj vs); [|done].
      unfold sized_labels. cbn [omap list_omap sized_label].
      destruct (truthy (variant_size members)); cbn [negb andb]; [|done].
      destruct (variant_available members); simpl;
        rewrite <- ?app_assoc; simpl; f_equal; f_equal; lia.
    + by rewrite variant_step_not_obj.
Qed.

Lemma collect_sizes_spec vs :
  collect_sizes vs =
  if forallb is_obj vs
  then Ok (SizesAcc (sized_labels true vs) (sized_labels false vs)
             (length (sized_labels true vs) + length (sized_labels false vs)))
  else Raise AttributeError.
Proof. unfold collect_sizes. by rewrite for_each_variant_step. Qed.

Lemma str_labels_spec labels :
  str_labels labels =
  if forallb is_str labels then Ok (omap label_text labels) else Raise TypeError.
Proof.
  induction labels as [|[] labels IH]; try done.
  simpl. rewrite IH. by destruct (forallb is_str labels).
Qed.

Lemma sorted_set_spec labels :
  sorted_set labels =
  if forallb is_str labels
  then Ok (sorted (py_set (omap label_text labels))) else Raise TypeError.
Proof. unfold sorted_set. rewrite str_labels_spec. by destruct (forallb _ _). Qed.

Lemma classify_sizes_spec ttl a u :
  classify_sizes ttl a u = (λ st, (st, ProductInfo ttl a u)) <$> status_of_sets a u.
Proof. by destruct a, u. Qed.

Lemma omap_label_text_nil labels :
  forallb is_str labels = true → omap label_text labels = [] → labels = [].
Proof. by destruct labels as [|[] ?]. Qed.

Lemma elem_of_label_set avail vs s :
  s ∈ label_set avail vs ↔ JStr s ∈ sized_labels avail vs.
Proof.
  unfold label_set. rewrite elem_of_sorted_set, list_elem_of_omap. split.
  - intros ([] & Hin & Heq); simplify_eq/=. done.
  - intros Hin. by exists (JStr s).
Qed.

Lemma label_set_nil avail vs :
  forallb is_str (sized_labels avail vs) = true →
  label_set avail vs = [] ↔ sized_labels avail vs = [].
Proof.
  intros Hstr. unfold label_set. rewrite sorted_nil_iff. split.
  - by apply omap_label_text_nil.
  - by intros ->.
Qed.

(** ** Assignments to the buckets *)

Lemma assign_get st url r c :
  dict_get url (bucket st (assign r c)) =
  if decide (c.1.2 = st ∧ c.1.1 = url) then Some c.2 else dict_get url (bucket st r).
Proof.
  destruct c as [[u s] info]. unfold assign. simpl.
  destruct (decide (s = st ∧ u = url)) as [[-> ->]|Hne].
  - destruct st; apply dict_get_set_eq.
  - destruct s, st; simpl; try done; apply dict_get_set_ne; naive_solver.
Qed.

Lemma foldl_assign_get st url cs r0 :
  dict_get url (bucket st (foldl assign r0 cs)) =
  match dict_get url (assigned st cs) with
  | Some info => Some info
  | None => dict_get url (bucket st r0)
  end.
Proof.
  revert r0. induction cs as [|c cs IH]; intros r0; [done|].
  cbn [foldl]. rewrite IH, assign_get. unfold assigned. cbn [omap list_omap].
  fold (assigned st cs).
  destruct (decide (c.1.2 = st)) as [Hst|Hst]; cbn [dict_get].
  - destruct (dict_get url (assigned st cs)); [done|].
    destruct (decide (c.1.1 = url)).
    + by rewrite decide_True.
    + rewrite decide_False; [done|naive_solver].
  - destruct (dict_get url (assigned st cs)); [done|].
    rewrite decide_False; [done|naive_solver].
Qed.

Lemma assign_wf r c : report_wf r → report_wf (assign r c).
Proof.
  intros Hr st. destruct c as [[u s] info]. unfold assign. simpl.
  destruct s, st; simpl; try apply dict_wf_set; apply (Hr StPartial) ||
    apply (Hr StFullInStock) || apply (Hr StFullOos).
Qed.

Lemma foldl_assign_wf cs r0 : report_wf r0 → report_wf (foldl assign r0 cs).
Proof.
  revert r0. induction cs as [|c cs IH]; intros r0 Hr; [done|].
  simpl. by apply IH, assign_wf.
Qed.

Lemma empty_report_wf : report_wf empty_report.
Proof. intros []; apply NoDup_nil_2. Qed.

Lemma elem_of_assigned st url info cs :
  (url, info) ∈ assigned st cs ↔ (url, st, info) ∈ cs.
Proof.
  unfold assigned. rewrite list_elem_of_omap. split.
  - intros ([[u s] i] & Hin & Heq). simpl in Heq.
    destruct (decide (s = st)); simplify_eq. done.
  - intros Hin. exists (url, st, info). split; [done|]. simpl. by rewrite decide_True.
Qed.

Lemma elem_of_keys_assigned st url cs :
  url ∈ dict_keys (assigned st cs) ↔ ∃ info, (url, st, info) ∈ cs.
Proof.
  unfold dict_keys. rewrite list_elem_of_fmap. split.
  - intros ([u i] & -> & Hin). exists i. by apply elem_of_assigned.
  - intros [i Hin]. exists (url, i). split; [done|]. by apply elem_of_assigned.
Qed.

Lemma dict_get_agree {V} k (v : V) (d : pydict V) :
  (k, v) ∈ d → (∀ v', (k, v') ∈ d → v' = v) → dict_get k d = Some v.
Proof.
  intros Hin Hall. destruct (dict_get k d) as [w|] eqn:E.
  - f_equal. by apply Hall, dict_get_elem_of.
  - apply dict_get_None in E. exfalso. apply E.
    unfold dict_keys. apply list_elem_of_fmap. by exists (k, v).
Qed.

Lemma dict_wf_NoDup {V} (d : pydict V) : dict_wf d → NoDup d.
Proof. apply NoDup_fmap_1. Qed.

Lemma dict_elem_of_get {V} k (v : V) (d : pydict V) :
  dict_wf d → (k, v) ∈ d ↔ dict_get k d = Some v.
Proof. intros Hwf. split; [by apply dict_get_wf|apply dict_get_elem_of]. Qed.

Lemma forallb_Permutation {A} (f : A → bool) l l' :
  l ≡ₚ l' → forallb f l = forallb f l'.
Proof.
  induction 1 as [|x l l' _ IH|x y l|l1 l2 l3 _ IH1 _ IH2]; simpl.
  - done.
  - by rewrite IH.
  - by destruct (f x), (f y).
  - congruence.
Qed.

Lemma sized_labels_Permutation avail vs vs' :
  vs ≡ₚ vs' → sized_labels avail vs ≡ₚ sized_labels avail vs'.
Proof. intros Hp. unfold sized_labels. by rewrite Hp. Qed.

Lemma label_set_Permutation avail vs vs' :
  vs ≡ₚ vs' → label_set avail vs = label_set avail vs'.
Proof.
  intros Hp. unfold label_set. apply sorted_set_ext. intros s.
  by rewrite (sized_labels_Permutation avail vs vs' Hp).
Qed.

(** ** The classifier *)

Section classifier_facts.
Variable urljoin : string → string → string.
Variable str_of : json → string.

Abbreviation classify_product := (classify_product urljoin str_of).
Abbreviation product_step := (product_step urljoin str_of).
Abbreviation product_url := (product_url urljoin str_of).
Abbreviation classified := (classified urljoin str_of).

Lemma classify_product_obj m :
  classify_product (JObj m) =
  if negb (truthy (product_handle m)) then Ok None
  else
    vs ← py_iter (product_variants m);
    if forallb is_obj vs then
      if bool_decide (sized_labels true vs = [] ∧ sized_labels false vs = [])
      then Ok None
      else if forallb is_str (sized_labels true vs)
              && forallb is_str (sized_labels false vs)
      then Ok ((λ st, (product_url (product_handle m), st,
                       ProductInfo (product_title m) (label_set true vs)
                         (label_set false vs)))
                 <$> status_of_sets (label_set true vs) (label_set false vs))
      else Raise TypeError
    else Raise AttributeError.
Proof.
  unfold classify_product. cbn [py_get mbind result_bind].
  fold (product_handle m) (product_title m) (product_variants m).
  destruct (negb (truthy (product_handle m))); [done|].
  destruct (py_iter (product_variants m)) as [vs|e]; [|done].
  cbn [mbind result_bind]. rewrite collect_sizes_spec.
  destruct (forallb is_obj vs); [|done]. cbn [mbind result_bind total_variants_with_size
    acc_available acc_unavailable].
  destruct (sized_labels true vs) as [|x la] eqn:Ea;
    destruct (sized_labels false vs) as [|y lu] eqn:Eu.
  - by rewrite bool_decide_eq_true_2.
  - rewrite bool_decide_eq_false_2 by (simpl; lia).
    rewrite bool_decide_eq_false_2 by (by intros [_ ?]).
    rewrite !sorted_set_spec. unfold label_set. rewrite Ea, Eu.
    cbn [forallb andb mbind result_bind].
    destruct (is_str y && forallb is_str lu); [|done].
    cbn [mbind result_bind]. rewrite classify_sizes_spec.
    by destruct (status_of_sets _ _).
  - rewrite bool_decide_eq_false_2 by (simpl; lia).
    rewrite bool_decide_eq_false_2 by (by intros [? _]).
    rewrite !sorted_set_spec. unfold label_set. rewrite Ea, Eu.
    cbn [forallb andb mbind result_bind].
    destruct (is_str x && forallb is_str la); [|done].
    cbn [mbind result_bind]. rewrite classify_sizes_spec.
    by destruct (status_of_sets _ _).
  - rewrite bool_decide_eq_false_2 by (simpl; lia).
    rewrite bool_decide_eq_false_2 by (by intros [? _]).
    rewrite !sorted_set_spec. unfold label_set. rewrite Ea, Eu.
    cbn [forallb andb mbind result_bind].
    destruct (is_str x && forallb is_str la); [|done].
    cbn [mbind result_bind].
    destruct (is_str y && forallb is_str lu); [|done].
    cbn [mbind result_bind]. rewrite classify_sizes_spec.
    by destruct (status_of_sets _ _).
Qed.

Lemma product_step_spec r p :
  product_step r p =
  c ← classify_product p;
  Ok (match c with
      | None => r
      | Some (url, st, info) => bucket_assign st url info r
      end).
Proof.
  unfold product_step.
  destruct (classify_product p) as [[[[url st] info]|]|]; done.
Qed.

Lemma bucket_assign_get st url info r :
  dict_get url (bucket st (bucket_assign st url info r)) = Some info.
Proof. destruct st; apply dict_get_set_eq. Qed.

Lemma bucket_assign_get_other st st' url url' info r :
  (st, url) ≠ (st', url') →
  dict_get url' (bucket st' (bucket_assign st url info r))
  = dict_get url' (bucket st' r).
Proof.
  intros Hne. destruct st, st'; simpl; try done;
    apply dict_get_set_ne; congruence.
Qed.

(** A product with a handle, variants that are records and labels that
    are strings: what the classifier does with it, in terms of its two
    label sets. *)
Lemma classify_with_handle (m : pydict json) (vs : list json) (r : report) :
  truthy (product_handle m) = true →
  product_variants m = JArr vs →
  Forall is_obj vs →
  Forall is_str (sized_labels true vs ++ sized_labels false vs) →
  let a := label_set true vs in
  let u := label_set false vs in
  let url := product_url (product_handle m) in
  let info := ProductInfo (product_title m) a u in
  (∀ s, s ∈ a ↔ JStr s ∈ sized_labels true vs) ∧
  (∀ s, s ∈ u ↔ JStr s ∈ sized_labels false vs) ∧
  (a = [] ∧ u = [] ↔ sized_labels true vs = [] ∧ sized_labels false vs = []) ∧
  (status_of_sets a u = Some StPartial ↔ a ≠ [] ∧ u ≠ []) ∧
  (status_of_sets a u = Some StFullInStock ↔ a ≠ [] ∧ u = []) ∧
  (status_of_sets a u = Some StFullOos ↔ a = [] ∧ u ≠ []) ∧
  (status_of_sets a u = None ↔ a = [] ∧ u = []) ∧
  match status_of_sets a u with
  | Some st =>
      classify_product (JObj m) = Ok (Some (url, st, info)) ∧
      product_step r (JObj m) = Ok (bucket_assign st url info r) ∧
      dict_get url (bucket st (bucket_assign st url info r)) = Some info
  | None =>
      classify_product (JObj m) = Ok None ∧
      product_step r (JObj m) = Ok r
  end.
Proof.
  intros Hh Hv Hobj Hstr a u url info.
  apply Forall_app in Hstr as [Hsa Hsu].
  apply forallb_True in Hobj, Hsa, Hsu.
  apply Is_true_true in Hobj, Hsa, Hsu.
  assert (a = [] ∧ u = [] ↔ sized_labels true vs = [] ∧ sized_labels false vs = [])
    as Hnil by (subst a u; by rewrite !label_set_nil).
  split_and!; try apply elem_of_label_set; try done;
    try (destruct a, u; naive_solver).
  rewrite product_step_spec, classify_product_obj, Hh, Hv.
  cbn [negb py_iter mbind result_bind]. rewrite Hobj, Hsa, Hsu. cbn [andb].
  fold a u. destruct (status_of_sets a u) as [st|] eqn:Est.
  - rewrite bool_decide_eq_false_2.
    2:{ rewrite <- Hnil. intros [-> ->]. done. }
    split_and!; try done. apply bucket_assign_get.
  - rewrite bool_decide_eq_true_2; [done|].
    apply Hnil. by destruct a, u.
Qed.

Lemma classify_without_handle (m : pydict json) (r : report) :
  truthy (product_handle m) = false →
  classify_product (JObj m) = Ok None ∧ product_step r (JObj m) = Ok r.
Proof.
  intros Hh. rewrite product_step_spec, classify_product_obj, Hh. done.
Qed.

(** C1, amended: for every product record with a true handle whose
    variants are records with string labels, the classifier decides
    from the two sorted, duplicate-free size sets alone.  The sets hold
    exactly the labels of the variants in stock and sold out; the
    product is stored under [partial] iff both sets are non-empty,
    under [full_in_stock] iff only the available set is, under
    [full_oos] iff only the unavailable set is; and when no variant
    yields a label, so that both sets are empty, the product is left
    out and the report is unchanged.  A record without a true handle
    is skipped whatever its variants. *)
Theorem classifier_status_law (m : pydict json) (r : report) :
  (truthy (product_handle m) = false →
     classify_product (JObj m) = Ok None ∧ product_step r (JObj m) = Ok r) ∧
  (truthy (product_handle m) = true →
   ∀ vs,
     product_variants m = JArr vs →
     Forall is_obj vs →
     Forall is_str (sized_labels true vs ++ sized_labels false vs) →
     let a := label_set true vs in
     let u := label_set false vs in
     let url := product_url (product_handle m) in
     let info := ProductInfo (product_title m) a u in
     (∀ s, s ∈ a ↔ JStr s ∈ sized_labels true vs) ∧
     (∀ s, s ∈ u ↔ JStr s ∈ sized_labels false vs) ∧
     (a = [] ∧ u = [] ↔ sized_labels true vs = [] ∧ sized_labels false vs = []) ∧
     (status_of_sets a u = Some StPartial ↔ a ≠ [] ∧ u ≠ []) ∧
     (status_of_sets a u = Some StFullInStock ↔ a ≠ [] ∧ u = []) ∧
     (status_of_sets a u = Some StFullOos ↔ a = [] ∧ u ≠ []) ∧
     (status_of_sets a u = None ↔ a = [] ∧ u = []) ∧
     match status_of_sets a u with
     | Some st =>
         classify_product (JObj m) = Ok (Some (url, st, info)) ∧
         product_step r (JObj m) = Ok (bucket_assign st url info r) ∧
         dict_get url (bucket st (bucket_assign st url info r)) = Some info
     | None =>
         classify_product (JObj m) = Ok None ∧
         product_step r (JObj m) = Ok r
     end).
Proof.
  split.
  - apply classify_without_handle.
  - intros Hh vs. by apply classify_with_handle.
Qed.

Lemma elem_of_sized_labels avail vs v :
  JObj v ∈ vs → truthy (variant_size v) = true → variant_available v = avail →
  variant_size v ∈ sized_labels avail vs.
Proof.
  intros Hin Ht Ha. apply list_elem_of_omap. exists (JObj v). split; [done|].
  simpl. rewrite Ht, Ha. by rewrite bool_decide_eq_true_2.
Qed.

Lemma classify_product_label avail m vs v s c :
  truthy (product_handle m) = true →
  product_variants m = JArr vs →
  JObj v ∈ vs → variant_size v = JStr s → s ≠ EmptyString →
  variant_available v = avail →
  classify_product (JObj m) = Ok c →
  ∃ st info,
    c = Some (product_url (product_handle m), st, info) ∧
    available_sizes info = label_set true vs ∧
    unavailable_sizes info = label_set false vs ∧
    status_of_sets (label_set true vs) (label_set false vs) = Some st ∧
    s ∈ label_set avail vs.
Proof.
  intros Hh Hv Hin Hs Hne Ha. rewrite classify_product_obj, Hh, Hv.
  cbn [negb py_iter mbind result_bind].
  assert (JStr s ∈ sized_labels avail vs) as Hl.
  { rewrite <- Hs. apply elem_of_sized_labels; try done.
    rewrite Hs. simpl. by rewrite bool_decide_eq_false_2. }
  destruct (forallb is_obj vs); [|done].
  rewrite bool_decide_eq_false_2.
  2:{ intros [H1 H2]. destruct avail; [rewrite H1 in Hl|rewrite H2 in Hl];
      by apply elem_of_nil in Hl. }
  destruct (_ && _); [|done].
  apply elem_of_label_set in Hl.
  destruct (status_of_sets _ _) as [st|] eqn:Est.
  - intros [= <-]. eauto 10.
  - exfalso. destruct avail, (label_set true vs), (label_set false vs);
      try done; by apply elem_of_nil in Hl.
Qed.

(** C9: the two size sets of a product need not be disjoint.  When a
    product's variants include a label once in stock and once sold out,
    the label is in both lists of the entry and the product is stored
    under [partial]. *)
Theorem same_label_in_both_sets (m : pydict json) (vs : list json)
    (v1 v2 : pydict json) (s : string)
    (c : option (string * status_key * product_info)) :
  truthy (product_handle m) = true →
  product_variants m = JArr vs →
  JObj v1 ∈ vs → JObj v2 ∈ vs →
  variant_size v1 = JStr s → variant_size v2 = JStr s → s ≠ EmptyString →
  variant_available v1 = true → variant_available v2 = false →
  classify_product (JObj m) = Ok c →
  ∃ info,
    c = Some (product_url (product_handle m), StPartial, info) ∧
    s ∈ available_sizes info ∧ s ∈ unavailable_sizes info.
Proof.
  intros Hh Hv H1 H2 Hs1 Hs2 Hne Ha1 Ha2 Hc.
  destruct (classify_product_label true m vs v1 s c) as (st & info & -> & Ea & Eu & Est & Hin1);
    try done.
  destruct (classify_product_label false m vs v2 s _ Hh Hv H2 Hs2 Hne Ha2 Hc)
    as (st' & info' & [= <- <-] & _ & _ & _ & Hin2).
  exists info. rewrite Ea, Eu. split_and!; try done.
  destruct (label_set true vs), (label_set false vs); simplify_eq/=; try done;
    by (apply elem_of_nil in Hin1 || apply elem_of_nil in Hin2).
Qed.

(** C10: [available] defaults to true only when the key is absent.  A
    variant whose [available] is present and null adds its label to the
    unavailable sizes, and the label is in the unavailable list of the
    product's entry; a variant without the key adds it to the available
    sizes. *)
Theorem available_defaults_only_when_absent (m : pydict json) (vs : list json)
    (v : pydict json) (s : string) (acc : sizes_acc)
    (c : option (string * status_key * product_info)) :
  truthy (product_handle m) = true →
  product_variants m = JArr vs →
  JObj v ∈ vs → variant_size v = JStr s → s ≠ EmptyString →
  classify_product (JObj m) = Ok c →
  (dict_get "available" v = Some JNull →
     variant_step acc (JObj v)
     = Ok (SizesAcc (acc_available acc) (acc_unavailable acc ++ [JStr s])
             (S (total_variants_with_size acc))) ∧
     ∃ st info, c = Some (product_url (product_handle m), st, info) ∧
                s ∈ unavailable_sizes info) ∧
  (dict_get "available" v = None →
     variant_step acc (JObj v)
     = Ok (SizesAcc (acc_available acc ++ [JStr s]) (acc_unavailable acc)
             (S (total_variants_with_size acc))) ∧
     ∃ st info, c = Some (product_url (product_handle m), st, info) ∧
                s ∈ available_sizes info).
Proof.
  intros Hh Hv Hin Hs Hne Hc.
  assert (truthy (JStr s) = true) as Ht by (simpl; by rewrite bool_decide_eq_false_2).
  split; intros Ha.
  - assert (variant_available v = false) as Hav by (unfold variant_available; by rewrite Ha).
    split.
    + rewrite variant_step_obj, Hs, Ht, Hav. done.
    + destruct (classify_product_label false m vs v s c) as (st & info & -> & _ & Eu & _ & H);
        try done.
      exists st, info. by rewrite Eu.
  - assert (variant_available v = true) as Hav by (unfold variant_available; by rewrite Ha).
    split.
    + rewrite variant_step_obj, Hs, Ht, Hav. done.
    + destruct (classify_product_label true m vs v s c) as (st & info & -> & Ea & _ & _ & H);
        try done.
      exists st, info. by rewrite Ea.
Qed.

Lemma for_each_product_step ps r0 r :
  for_each product_step ps r0 = Ok r ↔
  Forall (λ p, ∃ c, classify_product p = Ok c) ps ∧ r = foldl assign r0 (classified ps).
Proof.
  revert r0. induction ps as [|p ps IH]; intros r0.
  - simpl. split; [intros [= ->]; by split|intros [_ ->]; done].
  - cbn [for_each]. rewrite product_step_spec, Forall_cons.
    unfold classified. cbn [omap list_omap]. fold (classified ps).
    destruct (classify_product p) as [[[[url st] info]|]|e]; cbn [mbind result_bind].
    + rewrite IH. cbn [foldl]. unfold assign at 2. simpl. naive_solver.
    + rewrite IH. naive_solver.
    + split; [done|]. by intros [[[c ?] _] _].
Qed.

Lemma build_report_spec ps r :
  build_report urljoin str_of ps = Ok r ↔
  Forall (λ p, ∃ c, classify_product p = Ok c) ps
  ∧ r = foldl assign empty_report (classified ps).
Proof. apply for_each_product_step. Qed.

Lemma elem_of_classified c ps :
  c ∈ classified ps ↔ ∃ p, p ∈ ps ∧ classify_product p = Ok (Some c).
Proof.
  unfold classified. rewrite list_elem_of_omap. split.
  - intros (p & Hin & Hc). exists p. split; [done|].
    destruct (classify_product p); by simplify_eq.
  - intros (p & Hin & Hc). exists p. by rewrite Hc.
Qed.

Lemma build_report_wf ps r : build_report urljoin str_of ps = Ok r → report_wf r.
Proof.
  intros [_ ->]%build_report_spec. apply foldl_assign_wf, empty_report_wf.
Qed.

Lemma build_report_keys ps r st url :
  build_report urljoin str_of ps = Ok r →
  url ∈ dict_keys (bucket st r) ↔
  ∃ p info, p ∈ ps ∧ classify_product p = Ok (Some (url, st, info)).
Proof.
  intros [_ ->]%build_report_spec.
  rewrite <- dict_get_is_Some, foldl_assign_get.
  assert (dict_get url (bucket st empty_report) = None) as -> by by destruct st.
  transitivity (is_Some (dict_get url (assigned st (classified ps)))).
  { by destruct (dict_get url (assigned st (classified ps))). }
  rewrite dict_get_is_Some, elem_of_keys_assigned.
  setoid_rewrite elem_of_classified. naive_solver.
Qed.

(** C4, amended: in a report the classifier returns, a product URL is
    a key of exactly one bucket, provided no two products of the list
    that share a URL are classified under different statuses (so, in
    particular, when the URLs are pairwise distinct).  In general a
    URL is a key of a bucket iff some product of the list with that
    URL is classified under it, so two products that share a handle
    and differ in status leave the URL in two buckets. *)
Theorem url_in_exactly_one_bucket (ps : list json) (r : report) :
  build_report urljoin str_of ps = Ok r →
  (∀ url st,
     url ∈ dict_keys (bucket st r) ↔
     ∃ p info, p ∈ ps ∧ classify_product p = Ok (Some (url, st, info))) ∧
  ((∀ p1 p2 url st1 st2 info1 info2,
      p1 ∈ ps → p2 ∈ ps →
      classify_product p1 = Ok (Some (url, st1, info1)) →
      classify_product p2 = Ok (Some (url, st2, info2)) →
      st1 = st2) →
   (∀ p url st info,
      p ∈ ps → classify_product p = Ok (Some (url, st, info)) →
      ∀ st', url ∈ dict_keys (bucket st' r) ↔ st' = st) ∧
   (∀ url st st',
      url ∈ dict_keys (bucket st r) → url ∈ dict_keys (bucket st' r) → st = st')).
Proof.
  intros Hr. split; [intros url st; by apply build_report_keys|].
  intros Hsame. split.
  - intros p url st info Hp Hc st'. rewrite (build_report_keys ps r) by done. split.
    + intros (p' & info' & Hp' & Hc'). exact (Hsame _ _ _ _ _ _ _ Hp' Hp Hc' Hc).
    + intros ->. eauto.
  - intros url st st'. rewrite !(build_report_keys ps r) by done.
    intros (p & info & Hp & Hc) (p' & info' & Hp' & Hc').
    exact (Hsame _ _ _ _ _ _ _ Hp Hp' Hc Hc').
Qed.

Lemma classify_variants_Permutation m m' vs vs' :
  (∀ k, k ≠ "variants" → dict_get k m' = dict_get k m) →
  product_variants m = JArr vs → product_variants m' = JArr vs' →
  vs ≡ₚ vs' →
  classify_product (JObj m') = classify_product (JObj m).
Proof.
  intros Hk Hv Hv' Hp. rewrite !classify_product_obj, Hv, Hv'.
  unfold product_handle, product_title. rewrite !Hk by done.
  cbn [py_iter mbind result_bind].
  rewrite (forallb_Permutation is_obj vs vs' Hp).
  rewrite (forallb_Permutation is_str _ _ (sized_labels_Permutation true vs vs' Hp)).
  rewrite (forallb_Permutation is_str _ _ (sized_labels_Permutation false vs vs' Hp)).
  rewrite (label_set_Permutation true vs vs' Hp).
  rewrite (label_set_Permutation false vs vs' Hp).
  destruct (negb _); [done|]. destruct (forallb is_obj vs'); [|done].
  assert (bool_decide (sized_labels true vs = [] ∧ sized_labels false vs = [])
          = bool_decide (sized_labels true vs' = [] ∧ sized_labels false vs' = []))
    as ->; [|done].
  apply bool_decide_ext.
  pose proof (sized_labels_Permutation true vs vs' Hp) as H1.
  pose proof (sized_labels_Permutation false vs vs' Hp) as H2.
  split; intros [E1 E2]; rewrite E1 in H1; rewrite E2 in H2.
  - by apply Permutation_nil_l in H1, H2.
  - by apply Permutation_nil_r in H1, H2.
Qed.

Lemma classified_Permutation ps ps' : ps ≡ₚ ps' → classified ps ≡ₚ classified ps'.
Proof. intros Hp. unfold classified. by rewrite Hp. Qed.

Lemma build_report_items ps r st url info :
  build_report urljoin str_of ps = Ok r →
  (∀ p1 p2 url st1 st2 info1 info2,
     p1 ∈ ps → p2 ∈ ps →
     classify_product p1 = Ok (Some (url, st1, info1)) →
     classify_product p2 = Ok (Some (url, st2, info2)) →
     st1 = st2 ∧ info1 = info2) →
  (url, info) ∈ bucket st r ↔
  ∃ p, p ∈ ps ∧ classify_product p = Ok (Some (url, st, info)).
Proof.
  intros Hr Hsame. pose proof (build_report_wf _ _ Hr st) as Hwf.
  rewrite dict_elem_of_get by done.
  apply build_report_spec in Hr as [_ ->]. rewrite foldl_assign_get.
  assert (dict_get url (bucket st empty_report) = None) as -> by by destruct st.
  rewrite <- elem_of_classified, <- elem_of_assigned. split.
  - destruct (dict_get url (assigned st (classified ps))) eqn:E; [|done].
    intros [= ->]. by apply dict_get_elem_of.
  - intros Hin. rewrite (dict_get_agree url info); [done|done|].
    intros info' Hin'. apply elem_of_assigned, elem_of_classified in Hin, Hin'.
    destruct Hin as (p & Hp & Hc), Hin' as (p' & Hp' & Hc').
    by destruct (Hsame p' p url st st info' info Hp' Hp Hc' Hc).
Qed.

Lemma build_report_Permutation ps ps' r :
  ps ≡ₚ ps' →
  build_report urljoin str_of ps = Ok r →
  (∀ p1 p2 url st1 st2 info1 info2,
     p1 ∈ ps → p2 ∈ ps →
     classify_product p1 = Ok (Some (url, st1, info1)) →
     classify_product p2 = Ok (Some (url, st2, info2)) →
     st1 = st2 ∧ info1 = info2) →
  ∃ r', build_report urljoin str_of ps' = Ok r' ∧
        ∀ st, bucket st r' ≡ₚ bucket st r ∧
              ∀ url, dict_get url (bucket st r') = dict_get url (bucket st r).
Proof.
  intros Hp Hr Hsame.
  pose proof Hr as [Hok _]%build_report_spec.
  assert (build_report urljoin str_of ps'
          = Ok (foldl assign empty_report (classified ps'))) as Hr'.
  { apply build_report_spec. split; [|done]. by rewrite <- Hp. }
  eexists. split; [exact Hr'|]. intros st.
  assert (bucket st (foldl assign empty_report (classified ps')) ≡ₚ bucket st r) as HP.
  { apply NoDup_Permutation.
    - apply dict_wf_NoDup, (build_report_wf _ _ Hr').
    - apply dict_wf_NoDup, (build_report_wf _ _ Hr).
    - intros [url info].
      rewrite (build_report_items ps' _ st url info Hr'),
              (build_report_items ps r st url info Hr Hsame).
      + by setoid_rewrite Hp.
      + intros p1 p2 ?????. rewrite <- !Hp. apply Hsame. }
  split; [done|]. intros url. symmetry. apply dict_get_Permutation; [|done].
  apply (build_report_wf _ _ Hr).
Qed.

Lemma reordered_variants_classify p q :
  reordered_variants p q → classify_product q = classify_product p.
Proof.
  destruct 1 as [m m' vs vs' Hk Hv Hv' Hp|]; [|done].
  by apply (classify_variants_Permutation m m' vs vs').
Qed.

Lemma classify_product_sorted p url st info :
  classify_product p = Ok (Some (url, st, info)) →
  ∃ vs, available_sizes info = label_set true vs
        ∧ unavailable_sizes info = label_set false vs.
Proof.
  destruct p as [| | | | |m]; try done. rewrite classify_product_obj.
  destruct (negb _); [done|].
  destruct (py_iter (product_variants m)) as [vs|]; [|done].
  cbn [mbind result_bind]. destruct (forallb is_obj vs); [|done].
  destruct (bool_decide _); [done|]. destruct (_ && _); [|done].
  destruct (status_of_sets _ _); [|done]. intros [= <- <- <-]. by exists vs.
Qed.

Lemma build_report_get ps r st url :
  build_report urljoin str_of ps = Ok r →
  dict_get url (bucket st r) = dict_get url (assigned st (classified ps)).
Proof.
  intros [_ ->]%build_report_spec. rewrite foldl_assign_get.
  assert (dict_get url (bucket st empty_report) = None) as -> by by destruct st.
  by destruct (dict_get url (assigned st (classified ps))).
Qed.

Lemma build_report_reordered_variants ps qs r :
  Forall2 reordered_variants ps qs →
  build_report urljoin str_of ps = Ok r →
  build_report urljoin str_of qs = Ok r.
Proof.
  intros Hv. unfold build_report. generalize empty_report.
  induction Hv as [|p q ps qs Hpq _ IH]; intros r0; [done|].
  cbn [for_each]. rewrite !product_step_spec, (reordered_variants_classify p q Hpq).
  destruct (classify_product p); [|done]. apply IH.
Qed.

Lemma build_report_sorted ps r st url info :
  build_report urljoin str_of ps = Ok r →
  (url, info) ∈ bucket st r →
  StronglySorted String.le (available_sizes info) ∧ NoDup (available_sizes info) ∧
  StronglySorted String.le (unavailable_sizes info) ∧ NoDup (unavailable_sizes info).
Proof.
  intros Hr Hin.
  apply dict_get_wf in Hin; [|apply (build_report_wf ps r Hr)].
  rewrite (build_report_get ps r st url Hr) in Hin.
  apply dict_get_elem_of, elem_of_assigned, elem_of_classified in Hin
    as (p & _ & Hc).
  apply classify_product_sorted in Hc as (vs & -> & ->).
  unfold label_set. split_and!;
    (apply sorted_StronglySorted || apply NoDup_sorted_set).
Qed.

(** C5, amended: reordering the variants of each product leaves the
    report as it is; reordering the products as well gives a report
    whose buckets hold the same entries under the same keys, up to the
    order of the keys, provided any two products that share a URL are
    classified alike; and every size list of the report is sorted and
    free of duplicates, so that nothing in it depends on the iteration
    order of a set.  In general the entry of a URL in a bucket is the
    one of the last product assigned to it there, so the order of
    products that share a URL does matter. *)
Theorem classifier_order_independence (ps qs ps' : list json) (r : report) :
  Forall2 reordered_variants ps qs →
  qs ≡ₚ ps' →
  build_report urljoin str_of ps = Ok r →
  build_report urljoin str_of qs = Ok r ∧
  (∀ st url,
     dict_get url (bucket st r) = dict_get url (assigned st (classified ps))) ∧
  ((∀ p1 p2 url st1 st2 info1 info2,
      p1 ∈ ps → p2 ∈ ps →
      classify_product p1 = Ok (Some (url, st1, info1)) →
      classify_product p2 = Ok (Some (url, st2, info2)) →
      st1 = st2 ∧ info1 = info2) →
   ∃ r', build_report urljoin str_of ps' = Ok r' ∧
         ∀ st, bucket st r' ≡ₚ bucket st r ∧
               ∀ url, dict_get url (bucket st r') = dict_get url (bucket st r)) ∧
  (∀ st url info,
     (url, info) ∈ bucket st r →
     StronglySorted String.le (available_sizes info) ∧ NoDup (available_sizes info) ∧
     StronglySorted String.le (unavailable_sizes info) ∧ NoDup (unavailable_sizes info)).
Proof.
  intros Hv Hp Hr.
  pose proof (build_report_reordered_variants ps qs r Hv Hr) as Hq.
  split_and!; [done| | |].
  - intros st url. by apply build_report_get.
  - intros Hsame. apply (build_report_Permutation qs ps' r Hp Hq).
    intros q1 q2 url st1 st2 info1 info2 Hq1 Hq2.
    apply list_elem_of_lookup in Hq1 as [i1 Hq1], Hq2 as [i2 Hq2].
    destruct (Forall2_lookup_r _ _ _ _ _ Hv Hq1) as (p1 & Hp1%list_elem_of_lookup_2 & H1).
    destruct (Forall2_lookup_r _ _ _ _ _ Hv Hq2) as (p2 & Hp2%list_elem_of_lookup_2 & H2).
    rewrite (reordered_variants_classify _ _ H1), (reordered_variants_classify _ _ H2).
    by apply Hsame.
  - intros st url info. by apply (build_report_sorted ps).
Qed.
End classifier_facts.

(** ** The snapshot of a report *)

Lemma extract_bucket_get st items state url :
  dict_get url (extract_bucket st items state) =
  match dict_get url items with
  | Some info => Some (entry_of st info)
  | None => dict_get url state
  end.
Proof.
  unfold extract_bucket. revert state.
  induction items as [|[k v] items IH]; intros state; [done|].
  cbn [foldl dict_get]. rewrite IH. destruct (dict_get url items); [done|].
  cbn [fst snd]. rewrite dict_get_set. by destruct (decide (k = url)).
Qed.

Lemma extract_bucket_wf st items state :
  dict_wf state → dict_wf (extract_bucket st items state).
Proof.
  unfold extract_bucket. revert state.
  induction items as [|[k v] items IH]; intros state Hwf; [done|].
  cbn [foldl]. by apply IH, dict_wf_set.
Qed.

Lemma extract_state_wf r : dict_wf (extract_state_from_report r).
Proof.
  unfold extract_state_from_report. cbn [foldl].
  do 3 apply extract_bucket_wf. apply NoDup_nil_2.
Qed.

Lemma extract_state_get r url :
  dict_get url (extract_state_from_report r) =
  match dict_get url (full_oos r) with
  | Some info => Some (entry_of StFullOos info)
  | None =>
      match dict_get url (full_in_stock r) with
      | Some info => Some (entry_of StFullInStock info)
      | None => entry_of StPartial <$> dict_get url (partial r)
      end
  end.
Proof.
  unfold extract_state_from_report. cbn [foldl bucket].
  rewrite !extract_bucket_get. by destruct (dict_get url (partial r)).
Qed.

Lemma elem_of_rederive_bucket st state url :
  dict_wf state →
  url ∈ rederive_bucket st state ↔
  ∃ e, dict_get url state = Some e ∧ status e = st.
Proof.
  intros Hwf. unfold rederive_bucket, dict_keys. rewrite list_elem_of_fmap. split.
  - intros ([k e] & -> & [Hst Hin]%list_elem_of_filter). exists e.
    split; [|done]. by apply dict_get_wf.
  - intros (e & Hget & Hst). exists (url, e). split; [done|].
    apply list_elem_of_filter. split; [done|]. by apply dict_get_elem_of.
Qed.

Lemma rederive_bucket_disjoint (r : report) :
  (∀ url st st',
     url ∈ dict_keys (bucket st r) → url ∈ dict_keys (bucket st' r) → st = st') →
  ∀ url st,
    url ∈ rederive_bucket st (extract_state_from_report r)
    ↔ url ∈ dict_keys (bucket st r).
Proof.
  intros Hdisj url st.
  rewrite elem_of_rederive_bucket by apply extract_state_wf.
  rewrite extract_state_get.
  pose proof (Hdisj url) as Hd. setoid_rewrite <- dict_get_is_Some in Hd.
  rewrite <- dict_get_is_Some.
  destruct (dict_get url (full_oos r)) as [i3|] eqn:E3;
    destruct (dict_get url (full_in_stock r)) as [i2|] eqn:E2;
    destruct (dict_get url (partial r)) as [i1|] eqn:E1; simpl.
  all: try (pose proof (Hd StFullOos StFullInStock) as Hx; simpl in Hx;
            rewrite E3, E2 in Hx; by specialize (Hx (mk_is_Some _ _ eq_refl) (mk_is_Some _ _ eq_refl))).
  all: try (pose proof (Hd StFullOos StPartial) as Hx; simpl in Hx;
            rewrite E3, E1 in Hx; by specialize (Hx (mk_is_Some _ _ eq_refl) (mk_is_Some _ _ eq_refl))).
  all: try (pose proof (Hd StFullInStock StPartial) as Hx; simpl in Hx;
            rewrite E2, E1 in Hx; by specialize (Hx (mk_is_Some _ _ eq_refl) (mk_is_Some _ _ eq_refl))).
  all: destruct st; simpl; rewrite ?E1, ?E2, ?E3;
    (split; [intros (e & He & Hst); simplify_eq/=; eauto
            |intros [x Hx]; simplify_eq/=; eauto]).
Qed.

(** C7, amended: for every report in which no URL is a key of two
    buckets, the buckets read back from the status fields of the
    extracted snapshot have the keys of the report's buckets.  In
    general the snapshot keeps one entry for a URL, that of the last
    bucket that has it in the order [partial], [full_in_stock],
    [full_oos]. *)
Theorem snapshot_restores_buckets (r : report) :
  (∀ url,
     dict_get url (extract_state_from_report r) =
     match dict_get url (full_oos r) with
     | Some info => Some (entry_of StFullOos info)
     | None =>
         match dict_get url (full_in_stock r) with
         | Some info => Some (entry_of StFullInStock info)
         | None => entry_of StPartial <$> dict_get url (partial r)
         end
     end) ∧
  ((∀ url st st',
      url ∈ dict_keys (bucket st r) → url ∈ dict_keys (bucket st' r) → st = st') →
   ∀ url st,
     url ∈ rederive_bucket st (extract_state_from_report r)
     ↔ url ∈ dict_keys (bucket st r)).
Proof.
  split; [apply extract_state_get|apply rederive_bucket_disjoint].
Qed.

(** ** Change detector *)

Lemma py_eq_arr xs ys :
  py_eq (JArr xs) (JArr ys) =
  bool_decide (length xs = length ys)
  && forallb (λ xy, py_eq xy.1 xy.2) (zip xs ys).
Proof.
  cbn [py_eq]. revert ys. induction xs as [|x xs IH]; intros [|y ys]; try done.
  - cbn [length zip zip_with forallb fst snd]. rewrite IH.
    rewrite (bool_decide_ext (S (length xs) = S (length ys)) (length xs = length ys)) by lia.
    by destruct (py_eq x y), (bool_decide _).
Qed.

Lemma py_eq_obj xs ys :
  py_eq (JObj xs) (JObj ys) =
  bool_decide (length xs = length ys)
  && forallb (λ kv, match dict_get kv.1 ys with
                    | Some w => py_eq kv.2 w
                    | None => false
                    end) xs.
Proof.
  cbn [py_eq]. f_equal. induction xs as [|[k v] xs IH]; [done|].
  cbn [forallb fst snd]. by rewrite IH.
Qed.

Lemma py_eq_strs l1 l2 :
  py_eq (JArr (JStr <$> l1)) (JArr (JStr <$> l2)) = bool_decide (l1 = l2).
Proof.
  cbn [py_eq]. revert l2. induction l1 as [|s l1 IH]; intros [|t l2]; try done.
  rewrite !fmap_cons. cbn [py_eq]. rewrite IH.
  destruct (decide (s = t)) as [->|Hne].
  - rewrite bool_decide_eq_true_2 by done. cbn [andb]. apply bool_decide_ext. naive_solver.
  - rewrite bool_decide_eq_false_2 by done. cbn [andb]. symmetry.
    apply bool_decide_eq_false_2. congruence.
Qed.

Lemma status_name_inj st st' : status_name st = status_name st' → st = st'.
Proof. by destruct st, st'. Qed.

Lemma entry_members_get (a b c : json) :
  let ms := [("status", a); ("available", b); ("unavailable", c)] in
  dict_get "status" ms = Some a ∧ dict_get "available" ms = Some b
  ∧ dict_get "unavailable" ms = Some c.
Proof. done. Qed.

Lemma py_eq_entry e1 e2 :
  py_eq (json_of_entry e1) (json_of_entry e2) = bool_decide (e1 = e2).
Proof.
  unfold json_of_entry. rewrite py_eq_obj. cbn [length forallb fst snd].
  destruct (entry_members_get (JStr (status_name (status e2)))
              (JArr (JStr <$> available e2)) (JArr (JStr <$> unavailable e2)))
    as (-> & -> & ->).
  rewrite !py_eq_strs. cbn [py_eq].
  destruct e1 as [s1 a1 u1], e2 as [s2 a2 u2]; simpl.
  destruct (decide (s1 = s2)) as [->|];
    [rewrite (bool_decide_eq_true_2 (status_name s2 = status_name s2)) by done
    |rewrite (bool_decide_eq_false_2 (status_name s1 = status_name s2))
       by (by intros ?%status_name_inj)];
    destruct (decide (a1 = a2)) as [->|]; destruct (decide (u1 = u2)) as [->|];
    repeat first [rewrite bool_decide_eq_true_2 by done
                 |rewrite bool_decide_eq_false_2 by congruence]; done.
Qed.

Lemma dict_get_fmap {A B} (f : A → B) k (d : pydict A) :
  dict_get k ((λ kv, (kv.1, f kv.2)) <$> d) = f <$> dict_get k d.
Proof.
  induction d as [|[k' v] d IH]; [done|]. rewrite fmap_cons. cbn [dict_get fst snd].
  rewrite IH. destruct (dict_get k d); [done|]. by destruct (decide (k' = k)).
Qed.

Lemma py_eq_state s1 s2 :
  py_eq (json_of_state s1) (json_of_state s2) = state_eqb s1 s2.
Proof.
  unfold json_of_state, state_eqb. rewrite py_eq_obj, !length_fmap. f_equal.
  induction s1 as [|[k e] s1 IH]; [done|].
  rewrite fmap_cons. cbn [forallb fst snd]. rewrite IH. f_equal.
  rewrite (dict_get_fmap json_of_entry).
  destruct (dict_get k s2) as [e'|]; cbn [fmap option_fmap option_map].
  - rewrite py_eq_entry. apply bool_decide_ext. naive_solver.
  - symmetry. by apply bool_decide_eq_false_2.
Qed.

Lemma state_eqb_true s1 s2 :
  dict_wf s1 → dict_wf s2 →
  state_eqb s1 s2 = true ↔ ∀ url, dict_get url s1 = dict_get url s2.
Proof.
  intros Hwf1 Hwf2. unfold state_eqb.
  rewrite andb_true_iff, bool_decide_eq_true, forallb_forall. split.
  - intros [Hlen Hall] url.
    assert (∀ k e, dict_get k s1 = Some e → dict_get k s2 = Some e) as Hsub.
    { intros k e Hget%dict_get_elem_of. apply list_elem_of_In, Hall in Hget.
      by apply bool_decide_eq_true in Hget. }
    destruct (dict_get url s1) as [e|] eqn:E1; [symmetry; by apply Hsub|].
    symmetry. apply dict_get_None. intros Hin. apply dict_get_None in E1. apply E1.
    assert (dict_keys s1 ⊆ dict_keys s2) as Hincl.
    { intros k Hk. apply dict_get_is_Some in Hk as [e Hk].
      apply dict_get_is_Some. exists e. by apply Hsub. }
    assert (dict_keys s1 ≡ₚ dict_keys s2) as Hperm.
    { apply submseteq_length_Permutation.
      - by apply NoDup_submseteq.
      - unfold dict_keys. rewrite !length_fmap. lia. }
    by rewrite Hperm.
  - intros Heq. split.
    + assert (dict_keys s1 ≡ₚ dict_keys s2) as Hperm.
      { apply NoDup_Permutation; [done|done|]. intros k.
        by rewrite <- !dict_get_is_Some, Heq. }
      apply Permutation_length in Hperm. unfold dict_keys in Hperm.
      by rewrite !length_fmap in Hperm.
    + intros [k e] Hin%list_elem_of_In. apply bool_decide_eq_true. simpl.
      rewrite <- Heq. by apply dict_get_wf.
Qed.

Lemma bool_eq_iff (b1 b2 : bool) : (b1 = true ↔ b2 = true) → b1 = b2.
Proof. destruct b1, b2; naive_solver. Qed.

Lemma snapshot_equal_dec s1 s2 :
  snapshot_equal s1 s2 ∨ snapshots_differ s1 s2.
Proof.
  destruct (decide (Forall (λ url, dict_get url s1 = dict_get url s2)
                      (dict_keys s1 ++ dict_keys s2))) as [Hall|Hex].
  - left. intros url. rewrite Forall_forall in Hall.
    destruct (decide (url ∈ dict_keys s1 ++ dict_keys s2)) as [Hin|Hnin].
    + by apply Hall.
    + rewrite elem_of_app in Hnin.
      assert (dict_get url s1 = None) as -> by (apply dict_get_None; tauto).
      symmetry. apply dict_get_None. tauto.
  - right. apply not_Forall_Exists in Hex; [|apply _].
    apply Exists_exists in Hex as (url & _ & Hne). simpl in Hne.
    destruct (dict_get url s1) as [e1|] eqn:E1, (dict_get url s2) as [e2|] eqn:E2.
    + right. exists url, e1, e2. split_and!; [done..|].
      destruct e1 as [st1 a1 u1], e2 as [st2 a2 u2]; simpl.
      destruct (decide (st1 = st2)) as [->|]; [|by left].
      destruct (decide (a1 = a2)) as [->|]; [|by right; left].
      destruct (decide (u1 = u2)) as [->|]; [|by right; right]. done.
    + left. exists url. rewrite <- !dict_get_is_Some, E1, E2.
      intros [H _]. by destruct (H (mk_is_Some _ _ eq_refl)).
    + left. exists url. rewrite <- !dict_get_is_Some, E1, E2.
      intros [_ H]. by destruct (H (mk_is_Some _ _ eq_refl)).
    + done.
Qed.

Lemma snapshots_differ_not_equal s1 s2 :
  snapshots_differ s1 s2 → ¬ snapshot_equal s1 s2.
Proof.
  intros [(url & Hk)|(url & e1 & e2 & H1 & H2 & Hne)] Heq.
  - apply Hk. by rewrite <- !dict_get_is_Some, (Heq url).
  - rewrite (Heq url), H2 in H1. simplify_eq. naive_solver.
Qed.

(** C3: on two snapshots, [has_changes] is true iff they are not
    structurally equal, that is iff their key sets differ or a shared key
    has a different status or different size lists; the order of the
    keys of either snapshot does not affect the result; [has_changes s s]
    is false, and [has_changes] is symmetric. *)
Theorem has_changes_structural (s1 s2 : pydict state_entry) :
  dict_wf s1 → dict_wf s2 →
  (has_changes (json_of_state s1) (json_of_state s2) = true
   ↔ snapshots_differ s1 s2) ∧
  (has_changes (json_of_state s1) (json_of_state s2) = false
   ↔ snapshot_equal s1 s2) ∧
  (∀ s1' s2',
     s1' ≡ₚ s1 → s2' ≡ₚ s2 →
     has_changes (json_of_state s1') (json_of_state s2')
     = has_changes (json_of_state s1) (json_of_state s2)) ∧
  has_changes (json_of_state s1) (json_of_state s1) = false ∧
  has_changes (json_of_state s1) (json_of_state s2)
  = has_changes (json_of_state s2) (json_of_state s1).
Proof.
  intros Hwf1 Hwf2. unfold has_changes. rewrite !py_eq_state.
  assert (∀ a b, dict_wf a → dict_wf b →
                 negb (state_eqb a b) = false ↔ snapshot_equal a b) as Hfalse.
  { intros a b Ha Hb. rewrite negb_false_iff. by apply state_eqb_true. }
  split_and!.
  - split.
    + intros Hc. destruct (snapshot_equal_dec s1 s2) as [Heq|]; [|done].
      apply Hfalse in Heq; [congruence|done..].
    + intros Hd%snapshots_differ_not_equal.
      destruct (negb (state_eqb s1 s2)) eqn:E; [done|].
      by apply Hfalse in E.
  - by apply Hfalse.
  - intros s1' s2' Hp1 Hp2. rewrite !py_eq_state. f_equal. apply bool_eq_iff.
    assert (dict_wf s1') by (unfold dict_wf, dict_keys; by rewrite Hp1).
    assert (dict_wf s2') by (unfold dict_wf, dict_keys; by rewrite Hp2).
    rewrite !state_eqb_true by done.
    split; intros Heq url.
    + by rewrite <- (dict_get_Permutation url s1' s1), <- (dict_get_Permutation url s2' s2).
    + by rewrite (dict_get_Permutation url s1' s1), (dict_get_Permutation url s2' s2).
  - by apply Hfalse.
  - f_equal. apply bool_eq_iff. rewrite !state_eqb_true by done.
    split; intros Heq url; by rewrite Heq.
Qed.

(** ** The JSON codec of [PyLib] *)

Section codec_facts.
Import PyLib.

Lemma string_app_cons (x : ascii) (a b : string) :
String x a +:+ b = String x (a +:+ b).
Proof. reflexivity. Qed.

Lemma string_app_nil_l (a : string) : EmptyString +:+ a = a.
Proof. reflexivity. Qed.

Lemma string_app_assoc (a b c : string) : (a +:+ b) +:+ c = a +:+ (b +:+ c).
Proof.
induction a as [|x a IH]; [done|]. by rewrite !string_app_cons, IH.
Qed.

Lemma string_app_length (a b : string) :
String.length (a +:+ b) = String.length a + String.length b.
Proof.
induction a as [|x a IH]; [done|]. rewrite string_app_cons. simpl. by rewrite IH.
Qed.

Lemma string_of_list_ascii_app (l : list ascii) (s : string) :
string_of_list_ascii (l ++ list_ascii_of_string s) = string_of_list_ascii l +:+ s.
Proof.
induction l as [|x l IH]; simpl.
- apply string_of_list_ascii_of_string.
- by rewrite IH, string_app_cons.
Qed.

Lemma scan_string_escape_char c rest acc :
scan_string (escape_char c +:+ rest) acc = scan_string rest (c :: acc).
Proof.
destruct c as [[] [] [] [] [] [] [] []]; reflexivity.
Qed.

Lemma scan_string_escape s rest acc :
scan_string (escape s +:+ String dquote rest) acc
= Some (string_of_list_ascii (reverse acc) +:+ s, rest).
Proof.
revert acc. induction s as [|c s IH]; intros acc.
- rewrite string_app_nil_l. cbn [scan_string]. simpl.
  rewrite <- (string_of_list_ascii_app _ EmptyString). simpl. by rewrite app_nil_r.
- cbn [escape]. rewrite string_app_assoc, scan_string_escape_char, IH.
  f_equal. f_equal. rewrite reverse_cons.
  rewrite <- !string_of_list_ascii_app. f_equal. rewrite <- app_assoc. done.
Qed.

Lemma scan_string_quote s rest :
scan_string (escape s +:+ String dquote rest) [] = Some (s, rest).
Proof. by rewrite scan_string_escape. Qed.

Lemma skip_ws_idemp s : skip_ws (skip_ws s) = skip_ws s.
Proof.
induction s as [|c s IH]; [done|]. simpl.
destruct (is_space c) eqn:E; [done|]. simpl. by rewrite E.
Qed.

Lemma skip_ws_newline_indent level s :
skip_ws (newline_indent level +:+ s) = skip_ws s.
Proof.
unfold newline_indent. rewrite string_app_cons. cbn [skip_ws].
change (is_space (ascii_of_nat 10)) with true. cbn match.
induction level as [|n IH]; [done|].
cbn [replicate]. destruct n as [|n].
- cbn [replicate String.concat]. by rewrite !string_app_cons.
- cbn [replicate String.concat] in *.
  rewrite !string_app_assoc, !string_app_cons, string_app_nil_l. cbn [skip_ws].
  change (is_space " ") with true. cbn match. rewrite string_app_nil_l in IH.
  by rewrite <- string_app_assoc.
Qed.

Lemma parse_value_skip_ws fuel s : parse_value fuel (skip_ws s) = parse_value fuel s.
Proof. destruct fuel; [done|]. cbn [parse_value]. by rewrite skip_ws_idemp. Qed.

Lemma parse_items_skip_ws fuel s : parse_items fuel (skip_ws s) = parse_items fuel s.
Proof. destruct fuel; [done|]. cbn [parse_items]. by rewrite parse_value_skip_ws. Qed.

Lemma parse_members_skip_ws fuel s :
parse_members fuel (skip_ws s) = parse_members fuel s.
Proof. destruct fuel; [done|]. cbn [parse_members]. by rewrite skip_ws_idemp. Qed.

Lemma substring_all s : substring 0 (String.length s) s = s.
Proof. induction s as [|c s IH]; [done|]. simpl. by rewrite IH. Qed.

Lemma dump_value_opens level v :
text_only v = true → ∀ rest, opens_value (dump_value level v +:+ rest).
Proof.
intros Hv rest. destruct v as [|[]|n|s|[|x items]|[|kv members]]; try done;
  cbn [dump_value]; unfold quote; rewrite ?string_app_cons;
  eexists _, _; (split; [reflexivity|]); by vm_compute.
Qed.

Lemma opens_value_skip_ws s : opens_value s → skip_ws s = s.
Proof. intros (c & s' & -> & Hc & _). simpl. by rewrite Hc. Qed.

Lemma dump_arr level x items :
dump_value level (JArr (x :: items))
= "[" +:+ newline_indent (S level) +:+ items_text (S level) (x :: items)
  +:+ newline_indent level +:+ "]".
Proof. reflexivity. Qed.

Lemma dump_obj level kv members :
dump_value level (JObj (kv :: members))
= "{" +:+ newline_indent (S level) +:+ members_text (S level) (kv :: members)
  +:+ newline_indent level +:+ "}".
Proof. reflexivity. Qed.

Lemma items_text_cons level x y items :
items_text level (x :: y :: items)
= dump_value level x +:+ "," +:+ newline_indent level
  +:+ items_text level (y :: items).
Proof. unfold items_text. rewrite !fmap_cons. cbn [String.concat]. by rewrite string_app_assoc. Qed.

Lemma members_text_cons level x y members :
members_text level (x :: y :: members)
= member_text level x +:+ "," +:+ newline_indent level
  +:+ members_text level (y :: members).
Proof. unfold members_text. rewrite !fmap_cons. cbn [String.concat]. by rewrite string_app_assoc. Qed.

Lemma parse_value_open fuel s :
opens_value s → parse_value (S fuel) s =
match s with
| String c s' =>
    let n := nat_of_ascii c in
    if n =? 34 then
      '(str, rest) ← scan_string s' []; Some (JStr str, rest)
    else if n =? 91 then
      match skip_ws s' with
      | String c' rest =>
          if nat_of_ascii c' =? 93 then Some (JArr [], rest)
          else '(items, rest') ← parse_items fuel (String c' rest);
               Some (JArr items, rest')
      | EmptyString => None
      end
    else if n =? 123 then
      match skip_ws s' with
      | String c' rest =>
          if nat_of_ascii c' =? 125 then Some (JObj [], rest)
          else '(members, rest') ← parse_members fuel (String c' rest);
               Some (JObj (foldl (λ d kv, dict_set kv.1 kv.2 d) [] members),
                     rest')
      | EmptyString => None
      end
    else if n =? 110 then expect "null" JNull (String c s')
    else if n =? 116 then expect "true" (JBool true) (String c s')
    else if n =? 102 then expect "false" (JBool false) (String c s')
    else '(z, rest) ← scan_int (String c s'); Some (JNum z, rest)
| EmptyString => None
end.
Proof. intros Ho. cbn [parse_value]. by rewrite (opens_value_skip_ws s Ho). Qed.

Lemma weight_pos v : 1 ≤ weight v.
Proof. destruct v; simpl; lia. Qed.

Lemma foldl_dict_set_fresh {V} (members acc : pydict V) :
NoDup (dict_keys (acc ++ members)) →
foldl (λ d kv, dict_set kv.1 kv.2 d) acc members = acc ++ members.
Proof.
revert acc. induction members as [|[k v] members IH]; intros acc Hnd.
- by rewrite app_nil_r.
- cbn [foldl fst snd]. unfold dict_set.
  assert (dict_mem k acc = false) as ->.
  { apply bool_decide_eq_false_2. unfold dict_keys in *. rewrite fmap_app in Hnd.
    apply NoDup_app in Hnd as (_ & Hd & _). intros Hin. apply (Hd k Hin). left. }
  rewrite IH; [by rewrite <- app_assoc|]. by rewrite <- app_assoc.
Qed.

Lemma prefix_empty s : String.prefix EmptyString s = true.
Proof. by destruct s. Qed.

Lemma expect_null rest : expect "null" JNull ("null" +:+ rest) = Some (JNull, rest).
Proof.
unfold expect. rewrite !string_app_cons, string_app_nil_l. cbn.
by rewrite prefix_empty, Nat.sub_0_r, substring_all.
Qed.

Lemma expect_true rest :
expect "true" (JBool true) ("true" +:+ rest) = Some (JBool true, rest).
Proof.
unfold expect. rewrite !string_app_cons, string_app_nil_l. cbn.
by rewrite prefix_empty, Nat.sub_0_r, substring_all.
Qed.

Lemma expect_false rest :
expect "false" (JBool false) ("false" +:+ rest) = Some (JBool false, rest).
Proof.
unfold expect. rewrite !string_app_cons, string_app_nil_l. cbn.
by rewrite prefix_empty, Nat.sub_0_r, substring_all.
Qed.

Lemma items_text_opens level x items tail :
text_only x = true → opens_value (items_text level (x :: items) +:+ tail).
Proof.
intros Hx. destruct items as [|y ys].
- unfold items_text. cbn [fmap list_fmap String.concat]. by apply dump_value_opens.
- rewrite items_text_cons, !string_app_assoc. by apply dump_value_opens.
Qed.

Lemma members_text_opens level kv members tail :
∃ s', members_text level (kv :: members) +:+ tail = String dquote s'.
Proof.
destruct members as [|y ys].
- unfold members_text, member_text, quote. cbn [fmap list_fmap String.concat].
  rewrite !string_app_cons. eauto.
- rewrite members_text_cons. unfold member_text, quote.
  rewrite !string_app_cons. eauto.
Qed.

Lemma skip_ws_closing level (c : ascii) rest :
is_space c = false →
skip_ws (newline_indent level +:+ String c rest) = String c rest.
Proof. intros Hc. rewrite skip_ws_newline_indent. simpl. by rewrite Hc. Qed.

Lemma reads_back_all fuel : reads_back fuel.
Proof.
induction fuel as [|fuel (IHv & IHi & IHm)].
{ split_and!.
  - intros v ? ? Hw. pose proof (weight_pos v). lia.
  - intros [|x items] ? ? ? Hne Hw; [done|]. simpl in Hw. lia.
  - intros [|x items] ? ? ? Hne Hw; [done|]. simpl in Hw. lia. }
split_and!.
- intros v level rest Hw Hv.
  rewrite parse_value_open by (by apply dump_value_opens).
  destruct v as [|[]|n|s|[|x items]|[|kv members]]; try done.
  + apply expect_null.
  + apply expect_true.
  + apply expect_false.
  + cbn [dump_value]. unfold quote. rewrite string_app_cons, string_app_assoc.
    rewrite string_app_cons, string_app_nil_l.
    change (nat_of_ascii dquote =? 34) with true. cbn match zeta.
    by rewrite scan_string_quote.
  + rewrite dump_arr, !string_app_assoc, string_app_cons, string_app_nil_l.
    change (nat_of_ascii "[" =? 34) with false.
    change (nat_of_ascii "[" =? 91) with true. cbn match zeta.
    rewrite skip_ws_newline_indent.
    cbn [text_only forallb] in Hv. apply andb_prop in Hv as [Hx Hitems].
    pose proof (items_text_opens (S level) x items
                  (newline_indent level +:+ "]" +:+ rest) Hx) as Ho.
    rewrite (opens_value_skip_ws _ Ho).
    destruct Ho as (c & s' & Heq & _ & Hc & _). rewrite Heq.
    rewrite (proj2 (Nat.eqb_neq _ _) Hc). rewrite <- Heq.
    rewrite (IHi (x :: items) (S level) _ rest); [done|done| | |].
    * cbn [weight] in Hw. lia.
    * cbn [forallb]. by rewrite Hx, Hitems.
    * rewrite string_app_cons, string_app_nil_l. by apply skip_ws_closing.
  + rewrite dump_obj, !string_app_assoc, string_app_cons, string_app_nil_l.
    change (nat_of_ascii "{" =? 34) with false.
    change (nat_of_ascii "{" =? 91) with false.
    change (nat_of_ascii "{" =? 123) with true. cbn match zeta.
    rewrite skip_ws_newline_indent.
    cbn [text_only] in Hv. apply andb_prop in Hv as [Hnd Hmembers].
    apply bool_decide_eq_true in Hnd.
    destruct (members_text_opens (S level) kv members
                (newline_indent level +:+ "}" +:+ rest)) as [s' Heq].
    rewrite Heq. cbn [skip_ws]. change (is_space dquote) with false. cbn match.
    change (nat_of_ascii dquote =? 125) with false. cbn match. rewrite <- Heq.
    rewrite (IHm (kv :: members) (S level) _ rest); [|done| |done|].
    * cbn [mbind option_bind]. by rewrite (foldl_dict_set_fresh _ []).
    * cbn [weight] in Hw. lia.
    * rewrite string_app_cons, string_app_nil_l. by apply skip_ws_closing.
- intros items level tail rest Hne Hw Hitems Htail.
  destruct items as [|x [|y ys]]; [done| |].
  + unfold items_text. cbn [fmap list_fmap String.concat parse_items].
    simpl in Hw. cbn [forallb] in Hitems.
    apply andb_prop in Hitems as [Hx _].
    rewrite IHv by (done || lia). cbn [mbind option_bind]. rewrite Htail.
    reflexivity.
  + rewrite items_text_cons, !string_app_assoc. cbn [parse_items].
    simpl in Hw. cbn [forallb] in Hitems.
    apply andb_prop in Hitems as [Hx Hrest].
    rewrite IHv by (done || lia). cbn [mbind option_bind].
    rewrite string_app_cons, string_app_nil_l. cbn [skip_ws].
    change (is_space ",") with false. cbn match.
    change (nat_of_ascii "," =? 44) with true. cbn match.
    rewrite <- parse_items_skip_ws, skip_ws_newline_indent, parse_items_skip_ws.
    rewrite (IHi (y :: ys) level tail rest); [done|done| |done|done].
    simpl. lia.
- intros members level tail rest Hne Hw Hmembers Htail.
  assert (∀ kv more f,
            weight kv.2 ≤ f → text_only kv.2 = true →
            parse_members (S f) (member_text level kv +:+ more)
            = '(v, rest2) ← parse_value f (dump_value level kv.2 +:+ more);
              match skip_ws rest2 with
              | String c rest3 =>
                  if nat_of_ascii c =? 44 then
                    '(kvs, rest4) ← parse_members f rest3;
                    Some ((kv.1, v) :: kvs, rest4)
                  else if nat_of_ascii c =? 125 then Some ([(kv.1, v)], rest3)
                  else None
              | EmptyString => None
              end) as Hstep.
  { intros [k v] more f Hwv Htv. unfold member_text, quote. cbn [fst snd].
    rewrite !string_app_assoc, !string_app_cons, !string_app_nil_l.
    cbn [parse_members skip_ws]. change (is_space dquote) with false. cbn match.
    change (nat_of_ascii dquote =? 34) with true. cbn match.
    rewrite string_app_assoc, string_app_cons, string_app_nil_l.
    rewrite scan_string_quote. cbn [mbind option_bind skip_ws].
    change (is_space ":") with false. cbn match.
    change (nat_of_ascii ":" =? 58) with true. cbn match.
    rewrite <- parse_value_skip_ws. cbn [skip_ws].
    change (is_space " ") with true. cbn match.
    rewrite (opens_value_skip_ws _ (dump_value_opens level v Htv more)).
    reflexivity. }
  destruct members as [|x [|y ys]]; [done| |].
  + unfold members_text. cbn [fmap list_fmap String.concat].
    simpl in Hw. cbn [forallb] in Hmembers.
    apply andb_prop in Hmembers as [Hx _].
    rewrite Hstep by (done || lia).
    rewrite IHv by (done || lia). cbn [mbind option_bind]. rewrite Htail.
    by destruct x.
  + rewrite members_text_cons, !string_app_assoc.
    simpl in Hw. cbn [forallb] in Hmembers.
    apply andb_prop in Hmembers as [Hx Hrest].
    rewrite Hstep by (done || lia).
    rewrite IHv by (done || lia). cbn [mbind option_bind].
    rewrite string_app_cons, string_app_nil_l. cbn [skip_ws].
    change (is_space ",") with false. cbn match.
    change (nat_of_ascii "," =? 44) with true. cbn match.
    rewrite <- parse_members_skip_ws, skip_ws_newline_indent, parse_members_skip_ws.
    rewrite (IHm (y :: ys) level tail rest); [by destruct x|done| |done|done].
    simpl. lia.
Qed.

Lemma json_nested_ind (P : json → Prop) :
P JNull → (∀ b, P (JBool b)) → (∀ n, P (JNum n)) → (∀ s, P (JStr s)) →
(∀ items, Forall P items → P (JArr items)) →
(∀ members, Forall (λ kv, P kv.2) members → P (JObj members)) →
∀ v, P v.
Proof.
intros HN HB HZ HS HA HO. fix IH 1. intros [|b|n|s|items|members].
- exact HN.
- apply HB.
- apply HZ.
- apply HS.
- apply HA. revert items. fix IHl 1. intros [|x items].
  + constructor.
  + constructor; [apply IH|apply IHl].
- apply HO. revert members. fix IHl 1. intros [|[k x] members].
  + constructor.
  + constructor; [apply IH|apply IHl].
Qed.

Lemma concat_length_ge (sep : string) (xs : list string) :
1 ≤ String.length sep →
list_sum ((λ x, S (String.length x)) <$> xs) ≤ S (String.length (String.concat sep xs)).
Proof.
intros Hsep. induction xs as [|x xs IH]; [simpl; lia|].
destruct xs as [|y ys]; [simpl; lia|].
change (String.concat sep (x :: y :: ys)) with (x +:+ sep +:+ String.concat sep (y :: ys)).
rewrite !string_app_length. rewrite fmap_cons. cbn [list_sum foldr] in *.
change (foldr Nat.add 0 ?l) with (list_sum l) in *. lia.
Qed.

Lemma newline_indent_length level : 1 ≤ String.length (newline_indent level).
Proof. unfold newline_indent. simpl. lia. Qed.

Lemma weight_le_length v :
text_only v = true → ∀ level, weight v ≤ String.length (dump_value level v).
Proof.
induction v as [|b|n|s|items IH|members IH] using json_nested_ind;
  intros Hv level; try done.
- simpl. lia.
- destruct b; simpl; lia.
- cbn [dump_value weight]. unfold quote. cbn [String.length]. lia.
- destruct items as [|x items]; [simpl; lia|]. rewrite dump_arr.
  rewrite !string_app_length.
  pose proof (newline_indent_length (S level)). pose proof (newline_indent_length level).
  pose proof (concat_length_ge ("," +:+ newline_indent (S level))
                (dump_value (S level) <$> (x :: items))) as Hc.
  rewrite string_app_length in Hc. specialize (Hc ltac:(simpl; lia)).
  fold (items_text (S level) (x :: items)) in Hc.
  assert (list_sum ((λ x, S (weight x)) <$> (x :: items))
          ≤ list_sum ((λ x, S (String.length x)) <$> (dump_value (S level) <$> (x :: items))))
    as Hsum.
  { clear Hc. cbn [text_only] in Hv. revert Hv.
    induction IH as [|y ys Hy _ IHys]; [done|]. cbn [forallb].
    intros [Hty Htys]%andb_prop.
    rewrite !fmap_cons. cbn [list_sum foldr].
    change (foldr Nat.add 0 ?l) with (list_sum l).
    specialize (Hy Hty (S level)). specialize (IHys Htys). lia. }
  cbn [weight]. simpl String.length. lia.
- destruct members as [|kv members]; [simpl; lia|]. rewrite dump_obj.
  rewrite !string_app_length.
  pose proof (newline_indent_length (S level)). pose proof (newline_indent_length level).
  pose proof (concat_length_ge ("," +:+ newline_indent (S level))
                (member_text (S level) <$> (kv :: members))) as Hc.
  rewrite string_app_length in Hc. specialize (Hc ltac:(simpl; lia)).
  fold (members_text (S level) (kv :: members)) in Hc.
  assert (list_sum ((λ kv, S (weight kv.2)) <$> (kv :: members))
          ≤ list_sum ((λ x, S (String.length x)) <$> (member_text (S level) <$> (kv :: members))))
    as Hsum.
  { clear Hc. cbn [text_only] in Hv. apply andb_prop in Hv as [_ Hv]. revert Hv.
    induction IH as [|y ys Hy _ IHys]; [done|]. cbn [forallb].
    intros [Hty Htys]%andb_prop.
    rewrite !fmap_cons. cbn [list_sum foldr].
    change (foldr Nat.add 0 ?l) with (list_sum l).
    specialize (Hy Hty (S level)). specialize (IHys Htys).
    unfold member_text at 1. rewrite !string_app_length. lia. }
  cbn [weight]. simpl String.length. lia.
Qed.

(** The codec reads back every document without numbers that it
  prints. *)
Lemma json_load_dump v : text_only v = true → json_load (json_dump v) = Ok v.
Proof.
intros Hv. unfold json_load, json_dump.
destruct (reads_back_all (S (String.length (dump_value 0 v)))) as (Hread & _ & _).
assert (dump_value 0 v = dump_value 0 v +:+ EmptyString) as Heq.
{ generalize (dump_value 0 v). intros s. induction s as [|c s IH]; [done|].
  by rewrite string_app_cons, <- IH. }
rewrite Heq at 2. rewrite Hread; [done| |done].
pose proof (weight_le_length v Hv 0). lia.
Qed.

Lemma text_only_strs (l : list string) : forallb text_only (JStr <$> l) = true.
Proof. by induction l. Qed.

Lemma text_only_state (s : pydict state_entry) :
dict_wf s → text_only (JObj [("products", json_of_state s)]) = true.
Proof.
intros Hwf. cbn [text_only forallb snd]. rewrite !andb_true_r.
apply andb_true_intro. split; [by vm_compute|].
unfold json_of_state. cbn [text_only]. apply andb_true_intro. split.
- apply bool_decide_eq_true. unfold dict_keys. rewrite <- list_fmap_compose.
  unfold dict_wf, dict_keys in Hwf.
  by rewrite (list_fmap_ext _ fst s) by (by intros ? []).
- clear Hwf. induction s as [|[k e] s IH]; [done|].
  rewrite fmap_cons. cbn [forallb snd]. rewrite IH, andb_true_r.
  unfold json_of_entry. cbn [text_only forallb snd].
  rewrite !text_only_strs, !andb_true_r. by vm_compute.
Qed.
End codec_facts.

(** ** State store *)

Section state_store_facts.
Variable json_dump : json → string.
Variable json_load : string → result json.

Lemma load_after_save current_state writable f f' :
  json_load (json_dump (JObj [("products", current_state)]))
  = Ok (JObj [("products", current_state)]) →
  save_current_state json_dump current_state writable f = Ok f' →
  load_previous_state json_load f' = current_state.
Proof.
  intros Hcodec Hsave. unfold save_current_state in Hsave.
  destruct writable; [|done]. injection Hsave as <-. unfold load_previous_state.
  cbn [path_exists negb read_text mbind result_bind]. rewrite Hcodec.
  cbn [mbind result_bind py_get try_except dict_get]. by rewrite decide_True.
Qed.

Lemma load_previous_state_not_json text e :
  json_load text = Raise e →
  load_previous_state json_load (Content text) = JObj [].
Proof.
  intros He. unfold load_previous_state.
  cbn [path_exists negb read_text mbind result_bind]. by rewrite He.
Qed.

Lemma load_previous_state_not_object text v :
  json_load text = Ok v → is_obj v = false →
  load_previous_state json_load (Content text) = JObj [].
Proof.
  intros Hv Hobj. unfold load_previous_state.
  cbn [path_exists negb read_text mbind result_bind]. rewrite Hv. by destruct v.
Qed.
End state_store_facts.

(** C6: for every snapshot, loading after a successful save gives
    back the snapshot that was saved: with the JSON codec as modelled in
    [PyLib], and with any codec that reads the snapshot's document back
    as it wrote it; and [load_previous_state] returns the empty mapping
    when the file is missing, when it cannot be read, when its text is
    not JSON and when the document is not an object: the error is
    swallowed. *)
Theorem state_round_trip (s : pydict state_entry) (writable : bool) (f : file) :
  dict_wf s →
  let doc := JObj [("products", json_of_state s)] in
  (∀ f',
     save_current_state PyLib.json_dump (json_of_state s) writable f = Ok f' →
     load_previous_state PyLib.json_load f' = json_of_state s) ∧
  (∀ json_dump json_load f',
     json_load (json_dump doc) = Ok doc →
     save_current_state json_dump (json_of_state s) writable f = Ok f' →
     load_previous_state json_load f' = json_of_state s) ∧
  (∀ json_load,
     load_previous_state json_load Absent = JObj [] ∧
     load_previous_state json_load Unreadable = JObj [] ∧
     (∀ text e,
        json_load text = Raise e →
        load_previous_state json_load (Content text) = JObj []) ∧
     (∀ text v,
        json_load text = Ok v → is_obj v = false →
        load_previous_state json_load (Content text) = JObj [])).
Proof.
  intros Hwf doc. split_and!.
  - intros f'. apply load_after_save. by apply json_load_dump, text_only_state.
  - intros json_dump json_load f'. apply load_after_save.
  - intros json_load. split_and!; [done|done| |].
    + apply load_previous_state_not_json.
    + apply load_previous_state_not_object.
Qed.

(** ** Fetcher and [main] *)

Section fetcher_facts.
Variable requests_get : string → result response.

Abbreviation fetch_products_page := (fetch_products_page requests_get).
Abbreviation fetch_loop := (fetch_loop requests_get).

Lemma fetch_products_page_not_200 page resp :
  requests_get (page_url page 250) = Ok resp →
  status_code resp ≠ 200%Z →
  fetch_products_page page = Ok (JArr []).
Proof.
  intros Hget Hst. unfold fetch_products_page. rewrite Hget.
  cbn [mbind result_bind]. by rewrite bool_decide_eq_true_2.
Qed.

Lemma fetch_products_page_raise page e :
  requests_get (page_url page 250) = Raise e →
  fetch_products_page page = Raise e.
Proof. intros Hget. unfold fetch_products_page. by rewrite Hget. Qed.

(** Pages that each yield a non-empty list are all appended. *)
Lemma fetch_loop_batches batches fuel page acc :
  (∀ i items,
     batches !! i = Some items →
     items ≠ [] ∧ fetch_products_page (page + i) = Ok (JArr items)) →
  fetch_loop (length batches + fuel) page acc
  = fetch_loop fuel (page + length batches) (acc ++ concat batches).
Proof.
  revert page acc. induction batches as [|items batches IH]; intros page acc Hgood.
  - simpl. by rewrite Nat.add_0_r, app_nil_r.
  - destruct (Hgood 0 items eq_refl) as [Hne Hpage]. rewrite Nat.add_0_r in Hpage.
    cbn [length Nat.add fetch_loop]. rewrite Hpage.
    assert (truthy (JArr items) = true) as ->.
    { simpl. by rewrite bool_decide_eq_false_2. }
    cbn [negb py_iter]. rewrite IH.
    + cbn [concat]. rewrite app_assoc. f_equal. lia.
    + intros i its Hi. specialize (Hgood (S i) its Hi).
      by replace (S page + i) with (page + S i) by lia.
Qed.
End fetcher_facts.

Section main_facts.
Variable urljoin : string → string → string.
Variable str_of : json → string.
Variable requests_get : string → result response.
Variable json_dump : json → string.
Variable json_load : string → result json.
Variable format_report_html : report → string.
Variable format_report_text : report → string.
Variable getenv : string → option string.
Variable writable : bool.
Variable smtp_session : message → bool.

Abbreviation build_report_via_products_json :=
  (build_report_via_products_json urljoin str_of requests_get).
Abbreviation main_with_report :=
  (main_with_report json_dump json_load format_report_html format_report_text
     getenv writable smtp_session).
Abbreviation main :=
  (main urljoin str_of requests_get json_dump json_load format_report_html
     format_report_text getenv writable smtp_session).
Abbreviation send_email := (send_email getenv smtp_session).

(** C2, amended: after any number of pages that each yield products, a
    page answered with a status other than 200 ends pagination: with
    enough fuel, [fetch_all_products] returns the products of the
    earlier pages and the classifier runs on them; when that page is the
    first, the report and the snapshot are empty and [main] goes on
    with them.  An exception raised by the request itself is not
    caught: it leaves [fetch_all_products] and [main] as it is, and
    nothing is saved. *)
Theorem failed_page_ends_pagination (batches : list (list json)) (fuel : nat)
    (w : world) :
  (∀ i items,
     batches !! i = Some items →
     items ≠ [] ∧ fetch_products_page requests_get (S i) = Ok (JArr items)) →
  length batches < fuel →
  let page := S (length batches) in
  (∀ resp,
     requests_get (page_url page 250) = Ok resp →
     status_code resp ≠ 200%Z →
     fetch_all_products requests_get fuel = Some (Ok (concat batches)) ∧
     build_report_via_products_json fuel
     = Some (build_report urljoin str_of (concat batches)) ∧
     (batches = [] →
        build_report_via_products_json fuel = Some (Ok empty_report) ∧
        extract_state_from_report empty_report = [] ∧
        main fuel w = Some (main_with_report empty_report w))) ∧
  (∀ e,
     requests_get (page_url page 250) = Raise e →
     fetch_all_products requests_get fuel = Some (Raise e) ∧
     main fuel w = Some (Raise e, w)).
Proof.
  intros Hgood Hfuel page.
  assert (∀ out,
    fetch_loop requests_get (fuel - length batches) page (concat batches) = out →
    fetch_all_products requests_get fuel = out) as Hloop.
  { intros out <-. unfold fetch_all_products.
    replace fuel with (length batches + (fuel - length batches)) at 1 by lia.
    rewrite fetch_loop_batches; [done|]. intros i items Hi. by apply Hgood. }
  destruct (fuel - length batches) as [|fuel'] eqn:Ef; [lia|].
  split.
  - intros resp Hget Hst.
    assert (fetch_all_products requests_get fuel = Some (Ok (concat batches))) as Hfetch.
    { apply Hloop. cbn [fetch_loop].
      by rewrite (fetch_products_page_not_200 _ _ _ Hget Hst). }
    split_and!; [done| |].
    + unfold build_report_via_products_json. by rewrite Hfetch.
    + intros ->. unfold main, build_report_via_products_json. by rewrite Hfetch.
  - intros e Hget.
    assert (fetch_all_products requests_get fuel = Some (Raise e)) as Hfetch.
    { apply Hloop. cbn [fetch_loop].
      by rewrite (fetch_products_page_raise _ _ _ Hget). }
    split; [done|]. unfold main, build_report_via_products_json. by rewrite Hfetch.
Qed.

(** C8: without an SMTP user or password, [send_email] raises
    [RuntimeError] whatever it is given; a run whose report was built
    and whose state file is writable has saved the current snapshot
    before that, and ends in [RuntimeError] exactly when it reaches the
    notification, that is unless the state is unchanged and only
    changes are mailed. *)
Theorem missing_credentials_fail_after_save (fuel : nat) (w : world) (rep : report) :
  unset_or_empty (SMTP_USER getenv) || unset_or_empty (SMTP_PASSWORD getenv) = true →
  build_report_via_products_json fuel = Some (Ok rep) →
  writable = true →
  let curr_state := json_of_state (extract_state_from_report rep) in
  let changed :=
    has_changes (load_previous_state json_load (state_file w)) curr_state in
  let saved :=
    World (Content (json_dump (JObj [("products", curr_state)]))) (outbox w) in
  (∀ subject html_body text_body w0,
     send_email subject html_body text_body w0 = (Raise RuntimeError, w0)) ∧
  save_current_state json_dump curr_state writable (state_file w)
  = Ok (state_file saved) ∧
  main fuel w
  = Some (if ONLY_EMAIL_IF_CHANGES getenv && negb changed
          then Ok () else Raise RuntimeError,
          saved).
Proof.
  intros Hcred Hrep Hw curr_state changed saved.
  assert (∀ subject html_body text_body w0,
            send_email subject html_body text_body w0 = (Raise RuntimeError, w0))
    as Hsend.
  { intros. unfold send_email. by rewrite Hcred. }
  split_and!; [done| |].
  - unfold save_current_state. by rewrite Hw.
  - unfold main. rewrite Hrep. unfold main_with_report, save_current_state.
    rewrite Hw. fold curr_state. fold changed. fold saved.
    destruct (ONLY_EMAIL_IF_CHANGES getenv && negb changed); [done|].
    by rewrite Hsend.
Qed.
End main_facts.

(** * Further properties *)

(** ** Pagination *)

Section pagination_facts.
Variable urljoin : string → string → string.
Variable str_of : json → string.
Variable requests_get : string → result response.
Variable json_dump : json → string.
Variable json_load : string → result json.
Variable format_report_html : report → string.
Variable format_report_text : report → string.
Variable getenv : string → option string.
Variable writable : bool.
Variable smtp_session : message → bool.

Abbreviation fetch_products_page := (fetch_products_page requests_get).
Abbreviation fetch_loop := (fetch_loop requests_get).
Abbreviation fetch_all_products := (fetch_all_products requests_get).
Abbreviation build_report_via_products_json :=
  (build_report_via_products_json urljoin str_of requests_get).
Abbreviation main :=
  (main urljoin str_of requests_get json_dump json_load format_report_html
     format_report_text getenv writable smtp_session).

(** The pages before the one that ends the loop. *)
Lemma fetch_all_after_batches batches fuel out :
  (∀ i items,
     batches !! i = Some items →
     items ≠ [] ∧ fetch_products_page (S i) = Ok (JArr items)) →
  length batches < fuel →
  fetch_loop (fuel - length batches) (S (length batches)) (concat batches) = out →
  fetch_all_products fuel = out.
Proof.
  intros Hgood Hfuel <-. unfold fetch_all_products.
  replace fuel with (length batches + (fuel - length batches)) at 1 by lia.
  rewrite fetch_loop_batches; [done|]. intros i items Hi. by apply Hgood.
Qed.

Lemma fetch_loop_stop fuel page acc v :
  fetch_products_page page = Ok v → truthy v = false →
  fetch_loop (S fuel) page acc = Some (Ok acc).
Proof. intros Hv Ht. cbn [fetch_loop]. by rewrite Hv, Ht. Qed.

Lemma fetch_loop_raise fuel page acc e :
  fetch_products_page page = Raise e →
  fetch_loop (S fuel) page acc = Some (Raise e).
Proof. intros Hv. cbn [fetch_loop]. by rewrite Hv. Qed.

Lemma fetch_products_page_200 page resp :
  requests_get (page_url page 250) = Ok resp →
  status_code resp = 200%Z →
  fetch_products_page page
  = (data ← resp_json resp; py_get data "products" (JArr [])).
Proof.
  intros Hget Hst. unfold fetch_products_page. rewrite Hget.
  cbn [mbind result_bind]. rewrite Hst. by rewrite bool_decide_eq_false_2 by (by intros ?).
Qed.

Lemma main_fetch_raise fuel w e :
  fetch_all_products fuel = Some (Raise e) → main fuel w = Some (Raise e, w).
Proof.
  intros Hf. unfold main, build_report_via_products_json. by rewrite Hf.
Qed.

(** X1: after any number of pages that each yield products, a page
    answered with status 200 whose document has no [products], or has
    an empty list or another false value there, ends pagination: with
    enough fuel, [fetch_all_products] returns the products of the
    earlier pages in page order, and the classifier runs on them. *)
Theorem pagination_stops_at_empty_page (batches : list (list json)) (fuel : nat)
    (resp : response) (members : pydict json) :
  (∀ i items,
     batches !! i = Some items →
     items ≠ [] ∧ fetch_products_page (S i) = Ok (JArr items)) →
  length batches < fuel →
  requests_get (page_url (S (length batches)) 250) = Ok resp →
  status_code resp = 200%Z →
  resp_json resp = Ok (JObj members) →
  truthy (default (JArr []) (dict_get "products" members)) = false →
  fetch_all_products fuel = Some (Ok (concat batches)) ∧
  build_report_via_products_json fuel
  = Some (build_report urljoin str_of (concat batches)).
Proof.
  intros Hgood Hfuel Hget Hst Hbody Hempty.
  assert (fetch_all_products fuel = Some (Ok (concat batches))) as Hfetch.
  { apply (fetch_all_after_batches batches); [done..|].
    destruct (fuel - length batches) as [|fuel'] eqn:Ef; [lia|].
    eapply fetch_loop_stop; [|exact Hempty].
    rewrite (fetch_products_page_200 _ _ Hget Hst), Hbody. done. }
  split; [done|]. unfold build_report_via_products_json. by rewrite Hfetch.
Qed.

Lemma fetch_loop_endless fuel page acc :
  (∀ p, page ≤ p →
     ∃ v more, fetch_products_page p = Ok v ∧ truthy v = true
               ∧ py_iter v = Ok more) →
  fetch_loop fuel page acc = None.
Proof.
  revert page acc. induction fuel as [|fuel IH]; intros page acc Hall; [done|].
  destruct (Hall page) as (v & more & Hv & Ht & Hi); [lia|].
  cbn [fetch_loop]. rewrite Hv, Ht, Hi. cbn [negb]. apply IH.
  intros p Hp. apply Hall. lia.
Qed.

(** X2: pagination has no page limit of its own.  Against a server
    that answers every page with products (one that ignores the page
    number, say), no amount of fuel brings [fetch_all_products] to a
    result, nor [build_report_via_products_json], nor [main]. *)
Theorem pagination_has_no_page_limit (fuel : nat) (w : world) :
  (∀ page, 1 ≤ page →
     ∃ v more, fetch_products_page page = Ok v ∧ truthy v = true
               ∧ py_iter v = Ok more) →
  fetch_all_products fuel = None ∧
  build_report_via_products_json fuel = None ∧
  main fuel w = None.
Proof.
  intros Hall.
  assert (fetch_all_products fuel = None) as Hf by by apply fetch_loop_endless.
  split_and!; [done| |].
  - unfold build_report_via_products_json. by rewrite Hf.
  - unfold main, build_report_via_products_json. by rewrite Hf.
Qed.

(** X3: unlike a page with another status, a page answered with
    status 200 and a bad body ends the run.  When [resp.json()] raises,
    when the document is not an object ([AttributeError] at
    [data.get]) and when [products] is a true value that cannot be
    iterated, a number say ([TypeError] at [extend]), the exception
    leaves [fetch_all_products] and [main], and nothing is saved or
    sent: the world is as it was. *)
Theorem malformed_page_aborts_run (batches : list (list json)) (fuel : nat)
    (w : world) (resp : response) :
  (∀ i items,
     batches !! i = Some items →
     items ≠ [] ∧ fetch_products_page (S i) = Ok (JArr items)) →
  length batches < fuel →
  requests_get (page_url (S (length batches)) 250) = Ok resp →
  status_code resp = 200%Z →
  (∀ e, resp_json resp = Raise e →
     fetch_all_products fuel = Some (Raise e) ∧ main fuel w = Some (Raise e, w)) ∧
  (∀ body, resp_json resp = Ok body → is_obj body = false →
     fetch_all_products fuel = Some (Raise AttributeError) ∧
     main fuel w = Some (Raise AttributeError, w)) ∧
  (∀ members v e,
     resp_json resp = Ok (JObj members) →
     dict_get "products" members = Some v →
     truthy v = true → py_iter v = Raise e →
     e = TypeError ∧
     fetch_all_products fuel = Some (Raise TypeError) ∧
     main fuel w = Some (Raise TypeError, w)).
Proof.
  intros Hgood Hfuel Hget Hst.
  pose proof (fetch_products_page_200 _ _ Hget Hst) as Hpage.
  destruct (fuel - length batches) as [|fuel'] eqn:Ef; [lia|].
  assert (∀ e, fetch_products_page (S (length batches)) = Raise e →
               fetch_all_products fuel = Some (Raise e)
               ∧ main fuel w = Some (Raise e, w)) as Hraise.
  { intros e He.
    assert (fetch_all_products fuel = Some (Raise e)) as Hf.
    { apply (fetch_all_after_batches batches); [done..|].
      rewrite Ef. by apply fetch_loop_raise. }
    split; [done|]. by apply main_fetch_raise. }
  split_and!.
  - intros e He. apply Hraise. by rewrite Hpage, He.
  - intros body Hb Hobj. apply Hraise. rewrite Hpage, Hb. by destruct body.
  - intros members v e Hb Hv Ht Hi.
    assert (e = TypeError) as -> by (destruct v; by simplify_eq/=).
    split; [done|].
    assert (fetch_all_products fuel = Some (Raise TypeError)) as Hf.
    { apply (fetch_all_after_batches batches); [done..|].
      rewrite Ef. cbn [fetch_loop]. rewrite Hpage, Hb.
      cbn [mbind result_bind py_get]. rewrite Hv. cbn [default from_option id].
      by rewrite Ht, Hi. }
    split; [done|]. by apply main_fetch_raise.
Qed.
End pagination_facts.

(** ** Skips, failures and the shape of the entries *)

Section classifier_edges.
Variable urljoin : string → string → string.
Variable str_of : json → string.

Abbreviation classify_product := (classify_product urljoin str_of).
Abbreviation product_url := (product_url urljoin str_of).
Abbreviation build_report := (build_report urljoin str_of).

Lemma label_set_nil_both vs :
  forallb is_str (sized_labels true vs) && forallb is_str (sized_labels false vs)
  = true →
  status_of_sets (label_set true vs) (label_set false vs) = None →
  sized_labels true vs = [] ∧ sized_labels false vs = [].
Proof.
  intros [Ha Hu]%andb_true_iff Hst.
  rewrite <- (label_set_nil true vs Ha), <- (label_set_nil false vs Hu).
  by destruct (label_set true vs), (label_set false vs).
Qed.

(** X4: the classifier leaves a product record out without an error in
    two cases only: its handle is missing or false, or its variants
    can be iterated, are records, and none of them yields a size
    label.  So the last [else: continue] of the chain is never
    taken. *)
Theorem skipped_only_by_the_two_guards (m : pydict json) :
  classify_product (JObj m) = Ok None ↔
  truthy (product_handle m) = false ∨
  ∃ vs, py_iter (product_variants m) = Ok vs ∧ Forall is_obj vs
        ∧ sized_labels true vs = [] ∧ sized_labels false vs = [].
Proof.
  rewrite classify_product_obj.
  destruct (truthy (product_handle m)) eqn:Eh; cbn [negb]; [|naive_solver].
  destruct (py_iter (product_variants m)) as [vs|e]; cbn [mbind result_bind].
  2:{ split; [done|]. intros [?|(vs & ? & _)]; done. }
  destruct (forallb is_obj vs) eqn:Eo.
  - assert (Forall is_obj vs) as Hobj by by apply forallb_True, Is_true_true.
    case_bool_decide as Hnil.
    + split; [|done]. intros _. right. exists vs. naive_solver.
    + destruct (forallb is_str (sized_labels true vs)
                && forallb is_str (sized_labels false vs)) eqn:Es.
      * destruct (status_of_sets _ _) eqn:Est; cbn [fmap option_fmap option_map].
        -- split; [done|]. intros [?|(vs' & ? & _ & ? & ?)]; [done|].
           simplify_eq. naive_solver.
        -- destruct Hnil. by apply label_set_nil_both.
      * split; [done|]. intros [?|(vs' & ? & _ & ? & ?)]; [done|].
        simplify_eq. naive_solver.
  - split; [done|]. intros [?|(vs' & ? & Hobj & _)]; [done|]. simplify_eq.
    apply forallb_True, Is_true_true in Hobj. congruence.
Qed.

Lemma classify_product_not_obj p :
  is_obj p = false → classify_product p = Raise AttributeError.
Proof. by destruct p. Qed.

Lemma forallb_false_iff {A} (f : A → bool) (l : list A) :
  forallb f l = false ↔ ¬ Forall f l.
Proof.
  rewrite <- forallb_True, Is_true_true. by destruct (forallb f l).
Qed.

Lemma classify_product_raise m e :
  classify_product (JObj m) = Raise e ↔
  truthy (product_handle m) = true ∧
  match py_iter (product_variants m) with
  | Raise e' => e' = e
  | Ok vs =>
      if forallb is_obj vs
      then forallb is_str (sized_labels true vs ++ sized_labels false vs) = false
           ∧ e = TypeError
      else e = AttributeError
  end.
Proof.
  rewrite classify_product_obj.
  destruct (truthy (product_handle m)) eqn:Eh; cbn [negb]; [|naive_solver].
  destruct (py_iter (product_variants m)) as [vs|e'] eqn:Ei;
    cbn [mbind result_bind]; [|naive_solver].
  rewrite forallb_app.
  destruct (forallb is_obj vs) eqn:Eo; [|naive_solver].
  case_bool_decide as Hnil.
  - destruct Hnil as [-> ->]. naive_solver.
  - destruct (forallb is_str (sized_labels true vs) &&
              forallb is_str (sized_labels false vs)); [|naive_solver].
    destruct (status_of_sets _ _); naive_solver.
Qed.

(** X5: when the classifier raises on a record.  A record that is not
    an object raises [AttributeError].  A record that is one raises
    exactly when its handle is true and either its [variants] cannot
    be iterated, or a variant is not a record ([AttributeError]), or
    the variants are records and a size label is not a string
    ([TypeError]).  In particular a record without a true handle
    never raises, whatever its variants hold. *)
Theorem classifier_failures (m : pydict json) (e : exn) :
  (∀ p, is_obj p = false → classify_product p = Raise AttributeError) ∧
  (classify_product (JObj m) = Raise e ↔
   truthy (product_handle m) = true ∧
   (py_iter (product_variants m) = Raise e ∨
    ∃ vs, py_iter (product_variants m) = Ok vs ∧
      (¬ Forall is_obj vs ∧ e = AttributeError ∨
       Forall is_obj vs ∧
       ¬ Forall is_str (sized_labels true vs ++ sized_labels false vs) ∧
       e = TypeError))).
Proof.
  split; [apply classify_product_not_obj|].
  rewrite classify_product_raise.
  destruct (py_iter (product_variants m)) as [vs|e'] eqn:Ei.
  - pose proof (forallb_false_iff is_obj vs) as Ho.
    pose proof (forallb_false_iff is_str
                  (sized_labels true vs ++ sized_labels false vs)) as Hs.
    destruct (forallb is_obj vs) eqn:Eo.
    + assert (Forall is_obj vs) as Hobj by by apply forallb_True, Is_true_true.
      split.
      * intros (? & Hstr & ->). split; [done|]. right. exists vs.
        split; [done|]. right. by rewrite <- Hs.
      * intros (? & [?|(vs' & ? & [[Hno _]|(_ & Hns & ->)])]); simplify_eq;
          [done|by rewrite Hs].
    + split.
      * intros (? & ->). split; [done|]. right. exists vs. split; [done|].
        left. by rewrite <- Ho.
      * intros (? & [?|(vs' & ? & [[_ ->]|(Hobj & _)])]); simplify_eq; [done|].
        by apply Ho in Hobj.
  - split.
    + intros (? & ->). by auto.
    + intros (? & [[= ->]|(vs & ? & _)]); done.
Qed.

Lemma build_report_first_failure ps1 p ps2 e :
  Forall (λ q, ∃ c, classify_product q = Ok c) ps1 →
  classify_product p = Raise e →
  build_report (ps1 ++ p :: ps2) = Raise e.
Proof.
  intros Hok Hp. unfold build_report. generalize empty_report.
  induction Hok as [|q ps1 [c Hq] _ IH]; intros r0.
  - cbn [app for_each]. rewrite product_step_spec, Hp. done.
  - cbn [app for_each]. rewrite product_step_spec, Hq. cbn [mbind result_bind].
    apply IH.
Qed.

Lemma build_report_entry_origin ps r st url info :
  build_report ps = Ok r →
  (url, info) ∈ bucket st r →
  ∃ p, p ∈ ps ∧ classify_product p = Ok (Some (url, st, info)).
Proof.
  intros Hr Hin.
  apply dict_get_wf in Hin; [|apply (build_report_wf _ _ ps r Hr)].
  rewrite (build_report_get _ _ ps r st url Hr) in Hin.
  by apply dict_get_elem_of, elem_of_assigned, elem_of_classified in Hin.
Qed.

Lemma sized_label_nonempty avail v s :
  sized_label avail v = Some (JStr s) → s ≠ EmptyString.
Proof.
  destruct v as [| | | | |m]; try done. cbn [sized_label].
  destruct (truthy (variant_size m)) eqn:Et; cbn [andb]; [|done].
  destruct (bool_decide _); [|done]. intros [= Hs]. rewrite Hs in Et.
  intros ->. done.
Qed.

Lemma label_set_nonempty avail vs :
  Forall (λ s, s ≠ EmptyString) (label_set avail vs).
Proof.
  apply Forall_forall. intros s Hs%elem_of_label_set.
  apply list_elem_of_omap in Hs as (v & _ & Hv). by eapply sized_label_nonempty.
Qed.

Lemma classify_product_shape p url st info :
  classify_product p = Ok (Some (url, st, info)) →
  Forall (λ s, s ≠ EmptyString) (available_sizes info ++ unavailable_sizes info) ∧
  status_of_sets (available_sizes info) (unavailable_sizes info) = Some st.
Proof.
  destruct p as [| | | | |m]; try done. rewrite classify_product_obj.
  destruct (negb _); [done|].
  destruct (py_iter (product_variants m)) as [vs|]; [|done].
  cbn [mbind result_bind]. destruct (forallb is_obj vs); [|done].
  destruct (bool_decide _); [done|]. destruct (_ && _); [|done].
  destruct (status_of_sets _ _) as [st'|] eqn:Est; [|done].
  intros [= <- <- <-]. cbn [available_sizes unavailable_sizes].
  split; [|done]. apply Forall_app. split; apply label_set_nonempty.
Qed.

(** X6: in a report the classifier returns, no size label is the empty
    string; an entry of [partial] has labels in both of its lists, an
    entry of [full_in_stock] has available labels and no unavailable
    one, and an entry of [full_oos] has unavailable labels and no
    available one. *)
Theorem bucket_entry_shapes (ps : list json) (r : report) (st : status_key)
    (url : string) (info : product_info) :
  build_report ps = Ok r →
  (url, info) ∈ bucket st r →
  Forall (λ s, s ≠ EmptyString) (available_sizes info ++ unavailable_sizes info) ∧
  match st with
  | StPartial => available_sizes info ≠ [] ∧ unavailable_sizes info ≠ []
  | StFullInStock => available_sizes info ≠ [] ∧ unavailable_sizes info = []
  | StFullOos => available_sizes info = [] ∧ unavailable_sizes info ≠ []
  end.
Proof.
  intros Hr Hin.
  destruct (build_report_entry_origin ps r st url info Hr Hin) as (p & _ & Hc).
  apply classify_product_shape in Hc as [Hne Hst]. split; [done|].
  destruct (available_sizes info), (unavailable_sizes info), st; by simplify_eq/=.
Qed.
End classifier_edges.

(** ** Order of the entries *)

Lemma dict_set_fresh {V} k (v : V) d :
  k ∉ dict_keys d → dict_set k v d = d ++ [(k, v)].
Proof.
  intros Hk. unfold dict_set.
  assert (dict_mem k d = false) as ->; [|done].
  destruct (dict_mem k d) eqn:E; [|done]. by apply dict_mem_true in E.
Qed.

Lemma foldl_assign_bucket st cs r0 :
  NoDup (dict_keys (bucket st r0 ++ assigned st cs)) →
  bucket st (foldl assign r0 cs) = bucket st r0 ++ assigned st cs.
Proof.
  revert r0. induction cs as [|[[url s] info] cs IH]; intros r0 Hnd.
  - by rewrite app_nil_r.
  - cbn [foldl]. unfold assigned in *. cbn [omap list_omap fst snd] in *.
    fold (assigned st cs) in *.
    destruct (decide (s = st)) as [->|Hs].
    + assert (bucket st (assign r0 (url, st, info))
              = bucket st r0 ++ [(url, info)]) as Hb.
      { unfold dict_keys in Hnd. rewrite fmap_app, fmap_cons in Hnd.
        apply NoDup_app in Hnd as (_ & Hdisj & _).
        assert (url ∉ dict_keys (bucket st r0)) as Hfresh.
        { intros Hin. apply (Hdisj url Hin). apply list_elem_of_here. }
        unfold assign. cbn [fst snd]. destruct st; cbn [bucket_assign bucket] in *;
          by apply dict_set_fresh. }
      rewrite IH; rewrite Hb, <- app_assoc; done.
    + assert (bucket st (assign r0 (url, s, info)) = bucket st r0) as Hb.
      { unfold assign. cbn [fst snd]. by destruct s, st. }
      rewrite IH; rewrite Hb; done.
Qed.

Section order_of_entries.
Variable urljoin : string → string → string.
Variable str_of : json → string.

(** X7: the entries of a bucket are in the order of the catalog.
    When the products classified under a status have pairwise distinct
    URLs, the bucket of that status is the list of their URLs and
    entries, in the order of the product list. *)
Theorem buckets_keep_catalogue_order (ps : list json) (r : report)
    (st : status_key) :
  build_report urljoin str_of ps = Ok r →
  NoDup (dict_keys (assigned st (classified urljoin str_of ps))) →
  bucket st r = assigned st (classified urljoin str_of ps).
Proof.
  intros [_ ->]%build_report_spec Hnd.
  rewrite foldl_assign_bucket; by destruct st.
Qed.
End order_of_entries.

(** ** What the snapshot keeps of the catalog *)

Lemma same_stock_keys d d' : same_stock d d' → dict_keys d = dict_keys d'.
Proof.
  unfold dict_keys. induction 1 as [|[k v] [k' v'] d d' (Hk & _) _ IH]; [done|].
  rewrite !fmap_cons. simpl in *. by rewrite Hk, IH.
Qed.

Lemma same_stock_set k v v' d d' :
  available_sizes v = available_sizes v' →
  unavailable_sizes v = unavailable_sizes v' →
  same_stock d d' → same_stock (dict_set k v d) (dict_set k v' d').
Proof.
  intros Ha Hu Hs. unfold dict_set, dict_mem. rewrite (same_stock_keys d d' Hs).
  destruct (bool_decide _).
  - unfold same_stock. apply Forall2_fmap.
    induction Hs as [|[k1 v1] [k2 v2] d d' (Hk & Ha' & Hu') _ IH]; [done|].
    constructor; [|done]. simpl in *. subst k2.
    destruct (decide (k1 = k)); done.
  - apply Forall2_app; [done|]. by constructor.
Qed.

Lemma extract_bucket_same_stock st d d' state :
  same_stock d d' → extract_bucket st d state = extract_bucket st d' state.
Proof.
  intros Hs. unfold extract_bucket. revert state.
  induction Hs as [|[k v] [k' v'] d d' (Hk & Ha & Hu) _ IH]; intros state; [done|].
  cbn [foldl fst snd]. simpl in Hk, Ha, Hu. subst k'.
  replace (entry_of st v) with (entry_of st v') by (unfold entry_of; congruence).
  apply IH.
Qed.

Lemma extract_state_same_stock r r' :
  (∀ st, same_stock (bucket st r) (bucket st r')) →
  extract_state_from_report r = extract_state_from_report r'.
Proof.
  intros Hs. unfold extract_state_from_report. cbn [foldl].
  rewrite (extract_bucket_same_stock StPartial _ _ _ (Hs StPartial)).
  rewrite (extract_bucket_same_stock StFullInStock _ _ _ (Hs StFullInStock)).
  by rewrite (extract_bucket_same_stock StFullOos _ _ _ (Hs StFullOos)).
Qed.

Lemma has_changes_same s :
  dict_wf s → has_changes (json_of_state s) (json_of_state s) = false.
Proof.
  intros Hwf. unfold has_changes. rewrite py_eq_state, negb_false_iff.
  by apply state_eqb_true.
Qed.

Section snapshot_of_catalogue.
Variable urljoin : string → string → string.
Variable str_of : json → string.

Abbreviation classify_product := (classify_product urljoin str_of).
Abbreviation product_step := (product_step urljoin str_of).
Abbreviation build_report := (build_report urljoin str_of).

Lemma retitled_classify p p' :
  retitled p p' →
  match classify_product p, classify_product p' with
  | Ok c, Ok c' => same_stock_class c c'
  | Raise e, Raise e' => e = e'
  | _, _ => False
  end.
Proof.
  intros [m m' Hm|q].
  - rewrite !classify_product_obj. unfold product_handle, product_variants.
    rewrite !Hm by done.
    destruct (negb _); [done|].
    destruct (py_iter _) as [vs|]; [|done]. cbn [mbind result_bind].
    destruct (forallb is_obj vs); [|done].
    destruct (bool_decide _); [done|]. destruct (_ && _); [|done].
    by destruct (status_of_sets _ _).
  - destruct (classify_product q) as [[[[url st] info]|]|]; done.
Qed.

Lemma retitled_build_report ps ps' r0 r0' r :
  Forall2 retitled ps ps' →
  (∀ st, same_stock (bucket st r0) (bucket st r0')) →
  for_each product_step ps r0 = Ok r →
  ∃ r', for_each product_step ps' r0' = Ok r'
        ∧ ∀ st, same_stock (bucket st r) (bucket st r').
Proof.
  intros Hps. revert r0 r0'.
  induction Hps as [|p p' ps ps' Hp _ IH]; intros r0 r0' H0.
  - intros [= <-]. by exists r0'.
  - cbn [for_each]. rewrite !product_step_spec.
    pose proof (retitled_classify p p' Hp) as Hc.
    destruct (classify_product p) as [c|]; [|done].
    destruct (classify_product p') as [c'|]; [|done].
    cbn [mbind result_bind]. apply IH.
    destruct c as [[[url st] info]|], c' as [[[url' st'] info']|]; try done.
    destruct Hc as (<- & <- & Ha & Hu). intros st'.
    pose proof (H0 StPartial) as H1. pose proof (H0 StFullInStock) as H2.
    pose proof (H0 StFullOos) as H3.
    destruct st, st'; simpl in *; try done; by apply same_stock_set.
Qed.

(** X8: the snapshot does not hold titles.  A product list that
    differs from another in the titles of its records only is
    classified as well, its report has the same snapshot, and the
    change detector finds no change between the two. *)
Theorem retitled_products_are_no_change (ps ps' : list json) (r : report) :
  Forall2 retitled ps ps' →
  build_report ps = Ok r →
  ∃ r', build_report ps' = Ok r' ∧
        extract_state_from_report r' = extract_state_from_report r ∧
        has_changes (json_of_state (extract_state_from_report r))
                    (json_of_state (extract_state_from_report r')) = false.
Proof.
  intros Hps Hr.
  destruct (retitled_build_report ps ps' empty_report empty_report r Hps)
    as (r' & Hr' & Hs); [intros []; constructor|done|].
  exists r'. split; [done|].
  rewrite <- (extract_state_same_stock r r' Hs). split; [done|].
  apply has_changes_same, extract_state_wf.
Qed.

Abbreviation alike := (alike urljoin str_of).
Abbreviation entry_from := (entry_from urljoin str_of).

Lemma snapshot_entry_iff ps r url e :
  build_report ps = Ok r → alike ps →
  dict_get url (extract_state_from_report r) = Some e ↔ entry_from ps url e.
Proof.
  intros Hr Hsame.
  assert (∀ st info,
            dict_get url (bucket st r) = Some info ↔
            ∃ p, p ∈ ps ∧ classify_product p = Ok (Some (url, st, info))) as Hb.
  { intros st info.
    rewrite <- (build_report_items urljoin str_of ps r st url info Hr Hsame).
    symmetry. apply dict_elem_of_get, (build_report_wf _ _ ps r Hr). }
  rewrite extract_state_get. split.
  - destruct (dict_get url (full_oos r)) as [i3|] eqn:E3.
    { intros [= <-]. apply (Hb StFullOos) in E3 as (p & ? & ?). by exists p, StFullOos, i3. }
    destruct (dict_get url (full_in_stock r)) as [i2|] eqn:E2.
    { intros [= <-]. apply (Hb StFullInStock) in E2 as (p & ? & ?).
      by exists p, StFullInStock, i2. }
    destruct (dict_get url (partial r)) as [i1|] eqn:E1; [|done].
    intros [= <-]. apply (Hb StPartial) in E1 as (p & ? & ?). by exists p, StPartial, i1.
  - intros (p & st & info & Hp & Hc & ->).
    assert (∀ st' info', dict_get url (bucket st' r) = Some info' →
                         st' = st ∧ info' = info) as Huniq.
    { intros st' info' (p' & Hp' & Hc')%Hb. by apply (Hsame p' p url). }
    assert (dict_get url (bucket st r) = Some info) as Hget by (apply Hb; eauto).
    destruct (dict_get url (full_oos r)) as [i3|] eqn:E3.
    { by destruct (Huniq StFullOos i3 E3) as [<- <-]. }
    destruct (dict_get url (full_in_stock r)) as [i2|] eqn:E2.
    { by destruct (Huniq StFullInStock i2 E2) as [<- <-]. }
    destruct st; simpl in Hget; simplify_eq. by rewrite Hget.
Qed.

(** X9: what the snapshot holds of the catalog.  For a product list in
    which the products that share a URL are classified alike, the
    snapshot of the report has each key once, and the entry of a URL
    is the status and the two size lists of a product of the list
    classified under that URL, and of nothing else. *)
Theorem snapshot_reflects_catalogue (ps : list json) (r : report) :
  build_report ps = Ok r →
  alike ps →
  dict_wf (extract_state_from_report r) ∧
  ∀ url e,
    dict_get url (extract_state_from_report r) = Some e ↔ entry_from ps url e.
Proof.
  intros Hr Hsame. split; [apply extract_state_wf|].
  intros url e. by apply snapshot_entry_iff.
Qed.

(** X10: the change detector is exact on catalogs.  For two product
    lists in each of which the products that share a URL are
    classified alike, [has_changes] is false on the two snapshots iff
    the lists give the same URLs the same entries: status, available
    sizes and unavailable sizes.  Titles, products the classifier
    leaves out, and the order of products and variants play no
    part. *)
Theorem change_detection_is_exact (ps ps' : list json) (r r' : report) :
  build_report ps = Ok r →
  build_report ps' = Ok r' →
  alike ps → alike ps' →
  has_changes (json_of_state (extract_state_from_report r))
              (json_of_state (extract_state_from_report r')) = false
  ↔ ∀ url e, entry_from ps url e ↔ entry_from ps' url e.
Proof.
  intros Hr Hr' Hsame Hsame'. unfold has_changes.
  rewrite py_eq_state, negb_false_iff, state_eqb_true by apply extract_state_wf.
  split.
  - intros Heq url e.
    by rewrite <- (snapshot_entry_iff ps r url e Hr Hsame),
               <- (snapshot_entry_iff ps' r' url e Hr' Hsame'), Heq.
  - intros Hiff url.
    destruct (dict_get url (extract_state_from_report r)) as [e|] eqn:E.
    + symmetry. apply (snapshot_entry_iff ps' r' url e Hr' Hsame'), Hiff.
      by apply (snapshot_entry_iff ps r url e Hr Hsame).
    + destruct (dict_get url (extract_state_from_report r')) as [e'|] eqn:E';
        [|done].
      apply (snapshot_entry_iff ps' r' url e' Hr' Hsame'), Hiff in E'.
      apply (snapshot_entry_iff ps r url e' Hr Hsame) in E'. congruence.
Qed.
End snapshot_of_catalogue.

(** ** Runs of [main] *)

Lemma dict_set_not_nil {V} k (v : V) d : dict_set k v d ≠ [].
Proof.
  unfold dict_set. destruct (dict_mem k d) eqn:E.
  - destruct d; [done|]. by rewrite fmap_cons.
  - by destruct d.
Qed.

Lemma extract_bucket_nil st items state :
  extract_bucket st items state = [] ↔ items = [] ∧ state = [].
Proof.
  unfold extract_bucket. revert state.
  induction items as [|[k v] items IH]; intros state; [naive_solver|].
  cbn [foldl]. rewrite IH. split; [|naive_solver].
  intros [_ Hset]. by apply dict_set_not_nil in Hset.
Qed.

Lemma extract_state_nil r :
  extract_state_from_report r = [] ↔ no_entries r = true.
Proof.
  unfold extract_state_from_report, no_entries. cbn [foldl bucket].
  rewrite bool_decide_eq_true, !extract_bucket_nil. naive_solver.
Qed.

Lemma has_changes_from_empty s :
  has_changes (JObj []) (json_of_state s) = negb (bool_decide (s = [])).
Proof. by destruct s. Qed.

Lemma has_changes_to_empty s :
  has_changes (json_of_state s) (JObj []) = negb (bool_decide (s = [])).
Proof. by destruct s. Qed.

Section runs.
Variable urljoin : string → string → string.
Variable str_of : json → string.
Variable requests_get : string → result response.
Variable json_dump : json → string.
Variable json_load : string → result json.
Variable format_report_html : report → string.
Variable format_report_text : report → string.

Abbreviation fetch_all_products := (fetch_all_products requests_get).
Abbreviation classify_product := (classify_product urljoin str_of).
Abbreviation build_report := (build_report urljoin str_of).
Abbreviation build_report_via_products_json :=
  (build_report_via_products_json urljoin str_of requests_get).
Abbreviation main_with_report :=
  (main_with_report json_dump json_load format_report_html format_report_text).
Abbreviation main :=
  (main urljoin str_of requests_get json_dump json_load format_report_html
     format_report_text).

(** The subject line of the notification. *)
Abbreviation subject := "CAVA Daily Stock Report (Full Inventory View)"%string.

Abbreviation saved_world := (saved_world json_dump).

Lemma main_built getenv writable smtp_session fuel w rep :
  build_report_via_products_json fuel = Some (Ok rep) →
  main getenv writable smtp_session fuel w
  = Some (main_with_report getenv writable smtp_session rep w).
Proof. intros Hrep. unfold main. by rewrite Hrep. Qed.

Lemma main_with_report_writable getenv smtp_session rep w :
  main_with_report getenv true smtp_session rep w =
  if ONLY_EMAIL_IF_CHANGES getenv
     && negb (has_changes (load_previous_state json_load (state_file w))
                (json_of_state (extract_state_from_report rep)))
  then (Ok (), saved_world rep w)
  else send_email getenv smtp_session subject (format_report_html rep)
         (Some (format_report_text rep)) (saved_world rep w).
Proof. done. Qed.

(** X11: one record on which the classifier raises ends
    [build_report] with that exception, whatever comes before and
    after it; a run that fetched such a list ends there, and nothing
    is saved or sent, not even for the products classified before the
    record. *)
Theorem bad_record_aborts_run (getenv : string → option string) (writable : bool)
    (smtp_session : message → bool) (ps1 ps2 : list json) (p : json) (e : exn)
    (fuel : nat) (w : world) :
  Forall (λ q, ∃ c, classify_product q = Ok c) ps1 →
  classify_product p = Raise e →
  build_report (ps1 ++ p :: ps2) = Raise e ∧
  (fetch_all_products fuel = Some (Ok (ps1 ++ p :: ps2)) →
   main getenv writable smtp_session fuel w = Some (Raise e, w)).
Proof.
  intros Hok Hp.
  pose proof (build_report_first_failure urljoin str_of ps1 p ps2 e Hok Hp) as Hb.
  split; [done|]. intros Hf. unfold main, build_report_via_products_json.
  by rewrite Hf, Hb.
Qed.

(** X12: a run whose previous state is the empty mapping (no state
    file, an unreadable one, text that is not a JSON object, or an
    empty snapshot) finds a change iff the report has an entry.  With
    a writable state file it saves the snapshot and then, if only
    changes are mailed and the report is empty, stops; otherwise it
    goes on to [send_email]. *)
Theorem first_run_mails_iff_catalogue_nonempty (getenv : string → option string)
    (smtp_session : message → bool) (fuel : nat) (w : world) (rep : report) :
  build_report_via_products_json fuel = Some (Ok rep) →
  load_previous_state json_load (state_file w) = JObj [] →
  has_changes (JObj []) (json_of_state (extract_state_from_report rep))
  = negb (no_entries rep) ∧
  main getenv true smtp_session fuel w
  = Some (if ONLY_EMAIL_IF_CHANGES getenv && no_entries rep
          then (Ok (), saved_world rep w)
          else send_email getenv smtp_session subject (format_report_html rep)
                 (Some (format_report_text rep)) (saved_world rep w)).
Proof.
  intros Hrep Hprev.
  assert (has_changes (JObj []) (json_of_state (extract_state_from_report rep))
          = negb (no_entries rep)) as Hch.
  { rewrite has_changes_from_empty. f_equal. apply bool_eq_iff.
    by rewrite bool_decide_eq_true, extract_state_nil. }
  split; [done|].
  rewrite (main_built _ _ _ _ _ _ Hrep), main_with_report_writable, Hprev, Hch.
  by rewrite negb_involutive.
Qed.

(** X13: an outage counts as a change.  When page 1 is answered with
    a status other than 200 and the state file holds a snapshot with
    an entry, the run builds the empty report, saves the empty
    snapshot over the previous one and goes on to [send_email] with
    the empty report, whether or not only changes are mailed. *)
Theorem outage_is_reported_as_change (getenv : string → option string)
    (smtp_session : message → bool) (fuel : nat) (w : world) (resp : response)
    (s : pydict state_entry) :
  requests_get (page_url 1 250) = Ok resp →
  status_code resp ≠ 200%Z →
  0 < fuel →
  load_previous_state json_load (state_file w) = json_of_state s →
  s ≠ [] →
  build_report_via_products_json fuel = Some (Ok empty_report) ∧
  main getenv true smtp_session fuel w
  = Some (send_email getenv smtp_session subject (format_report_html empty_report)
            (Some (format_report_text empty_report))
            (World (Content (json_dump (JObj [("products", JObj [])]))) (outbox w))).
Proof.
  intros Hget Hst Hfuel Hprev Hs.
  assert (build_report_via_products_json fuel = Some (Ok empty_report)) as Hrep.
  { unfold build_report_via_products_json, fetch_all_products.
    destruct fuel as [|fuel']; [lia|]. cbn [fetch_loop].
    by rewrite (fetch_products_page_not_200 _ _ _ Hget Hst). }
  split; [done|].
  rewrite (main_built _ _ _ _ _ _ Hrep), main_with_report_writable, Hprev.
  change (json_of_state (extract_state_from_report empty_report)) with (JObj []).
  rewrite has_changes_to_empty, bool_decide_eq_false_2 by done.
  by rewrite andb_false_r.
Qed.

(** X14: a catalog is reported once.  After a run that built the
    report and wrote the state file, a run over the same catalog that
    mails only changes finds none, sends nothing and leaves the world
    as it is; this holds whatever the first run started from and
    however its notification ended.  When the notification of the
    first run failed, its outbox is as before: the change it found is
    not mailed by a later run either. *)
Theorem unchanged_catalogue_is_not_mailed_again
    (getenv1 getenv2 : string → option string)
    (smtp_session1 smtp_session2 : message → bool)
    (fuel : nat) (w w1 : world) (rep : report) (res : result unit) :
  build_report_via_products_json fuel = Some (Ok rep) →
  (let doc := JObj [("products", json_of_state (extract_state_from_report rep))] in
   json_load (json_dump doc) = Ok doc) →
  main getenv1 true smtp_session1 fuel w = Some (res, w1) →
  ONLY_EMAIL_IF_CHANGES getenv2 = true →
  state_file w1 = state_file (saved_world rep w) ∧
  (res ≠ Ok () → outbox w1 = outbox w) ∧
  main getenv2 true smtp_session2 fuel w1 = Some (Ok (), w1).
Proof.
  intros Hrep Hcodec Hrun Hflag. cbv zeta in Hcodec.
  rewrite (main_built _ _ _ _ _ _ Hrep), main_with_report_writable in Hrun.
  assert (state_file w1 = state_file (saved_world rep w)
          ∧ (res ≠ Ok () → outbox w1 = outbox w)) as [Hfile Hout].
  { destruct (_ && _) in Hrun; [by simplify_eq|].
    unfold send_email in Hrun.
    destruct (_ || _) in Hrun; [by simplify_eq|].
    destruct (smtp_session1 _) in Hrun; by simplify_eq. }
  split_and!; [done..|].
  rewrite (main_built _ _ _ _ _ _ Hrep), main_with_report_writable, Hflag, Hfile.
  assert (load_previous_state json_load (state_file (saved_world rep w))
          = json_of_state (extract_state_from_report rep)) as ->.
  { by apply (load_after_save json_dump json_load _ true Absent). }
  rewrite has_changes_same by apply extract_state_wf. cbn [andb negb].
  do 2 f_equal. unfold saved_world. destruct w1 as [f1 o1]. simpl in *.
  by rewrite Hfile.
Qed.
(** X15: a state file whose [products] is not a mapping.  When the
    file holds a JSON object, [load_previous_state] returns what the
    object has under [products], and the empty mapping when it has no
    such key.  A value there that is not an object, [null] or a list
    say, is returned as it is and differs from every snapshot: the
    run goes on to [send_email] whether or not only changes are
    mailed, even with an empty report, and the save replaces the
    file. *)
Theorem state_file_with_other_products (getenv : string → option string)
    (smtp_session : message → bool) (fuel : nat) (w : world) (rep : report)
    (text : string) (members : pydict json) :
  state_file w = Content text →
  json_load text = Ok (JObj members) →
  load_previous_state json_load (state_file w)
  = default (JObj []) (dict_get "products" members) ∧
  (∀ v, dict_get "products" members = Some v → is_obj v = false →
     (∀ s, has_changes v (json_of_state s) = true) ∧
     (build_report_via_products_json fuel = Some (Ok rep) →
      main getenv true smtp_session fuel w
      = Some (send_email getenv smtp_session subject (format_report_html rep)
                (Some (format_report_text rep)) (saved_world rep w)))).
Proof.
  intros Hfile Hload.
  assert (load_previous_state json_load (state_file w)
          = default (JObj []) (dict_get "products" members)) as Hprev.
  { rewrite Hfile. unfold load_previous_state.
    cbn [path_exists negb read_text mbind result_bind]. by rewrite Hload. }
  split; [done|]. intros v Hv Hobj.
  assert (∀ s, has_changes v (json_of_state s) = true) as Hch
    by (intros s; by destruct v).
  split; [done|]. intros Hrep.
  rewrite (main_built _ _ _ _ _ _ Hrep), main_with_report_writable, Hprev, Hv.
  cbn [default from_option id]. by rewrite Hch, andb_false_r.
Qed.
End runs.

(** X16: every snapshot the program saves is read back.  For every
    report, the state file [save_current_state] writes for its snapshot
    is loaded by [load_previous_state] as that snapshot, with the JSON
    codec of [PyLib]; so the requirement on the codec made above for a
    second run is met whatever the catalog. *)
Theorem every_saved_snapshot_reads_back (r : report) (w : world) :
  save_current_state PyLib.json_dump
    (json_of_state (extract_state_from_report r)) true (state_file w)
  = Ok (state_file (saved_world PyLib.json_dump r w)) ∧
  load_previous_state PyLib.json_load
    (state_file (saved_world PyLib.json_dump r w))
  = json_of_state (extract_state_from_report r) ∧
  has_changes
    (load_previous_state PyLib.json_load
       (state_file (saved_world PyLib.json_dump r w)))
    (json_of_state (extract_state_from_report r)) = false.
Proof.
  assert (load_previous_state PyLib.json_load
            (state_file (saved_world PyLib.json_dump r w))
          = json_of_state (extract_state_from_report r)) as Hload.
  { apply (load_after_save PyLib.json_dump PyLib.json_load _ true Absent);
      [|done].
    apply json_load_dump, text_only_state, extract_state_wf. }
  split_and!; [done|done|].
  rewrite Hload. apply has_changes_same, extract_state_wf.
Qed.

(** ** What a run sends *)

Section sent_mail.
Variable urljoin : string → string → string.
Variable str_of : json → string.
Variable requests_get : string → result response.
Variable json_dump : json → string.
Variable json_load : string → result json.
Variable format_report_html : report → string.
Variable format_report_text : report → string.
Variable getenv : string → option string.
Variable writable : bool.
Variable smtp_session : message → bool.

Abbreviation build_report_via_products_json :=
  (build_report_via_products_json urljoin str_of requests_get).
Abbreviation main :=
  (main urljoin str_of requests_get json_dump json_load format_report_html
     format_report_text getenv writable smtp_session).

(** X17: what a run sends.  A run adds at most one message to the
    outbox, and when it adds one it ends without an exception, the
    snapshot of its report has been saved, the message carries the
    subject line and the two renderings of that report from
    [SMTP_USER] to [TO_EMAIL], and, if only changes are mailed, the
    snapshot differs from the previous state. *)
Theorem mail_only_after_save_and_change (fuel : nat) (w w1 : world)
    (res : result unit) :
  main fuel w = Some (res, w1) →
  outbox w1 ≠ outbox w →
  ∃ rep msg,
    build_report_via_products_json fuel = Some (Ok rep) ∧
    res = Ok () ∧
    w1 = World (state_file (saved_world json_dump rep w)) (outbox w ++ [msg]) ∧
    msg_subject msg = "CAVA Daily Stock Report (Full Inventory View)" ∧
    msg_html msg = format_report_html rep ∧
    msg_text msg = format_report_text rep ∧
    Some (msg_from msg) = SMTP_USER getenv ∧
    Some (msg_to msg) = TO_EMAIL getenv ∧
    (ONLY_EMAIL_IF_CHANGES getenv = true →
     has_changes (load_previous_state json_load (state_file w))
       (json_of_state (extract_state_from_report rep)) = true).
Proof.
  unfold main. destruct (build_report_via_products_json fuel) as [[rep|e]|] eqn:Hrep;
    [|by intros [= <- <-]|done].
  unfold main_with_report, save_current_state.
  destruct writable; [|by intros [= <- <-]].
  destruct (ONLY_EMAIL_IF_CHANGES getenv) eqn:Hflag; cbn [andb].
  - destruct (has_changes _ _) eqn:Hch; cbn [negb]; [|by intros [= <- <-]].
    unfold send_email.
    destruct (unset_or_empty (SMTP_USER getenv)) eqn:Hu; cbn [orb];
      [by intros [= <- <-]|].
    destruct (unset_or_empty (SMTP_PASSWORD getenv)) eqn:Hp; cbn [orb];
      [by intros [= <- <-]|].
    destruct (smtp_session _) eqn:Hs; [|by intros [= <- <-]].
    intros [= <- <-] _. eexists rep, _. split_and!; try done.
    + by destruct (SMTP_USER getenv).
    + unfold TO_EMAIL in *. destruct (getenv "TO_EMAIL"); [done|].
      by destruct (SMTP_USER getenv).
  - unfold send_email.
    destruct (unset_or_empty (SMTP_USER getenv)) eqn:Hu; cbn [orb];
      [by intros [= <- <-]|].
    destruct (unset_or_empty (SMTP_PASSWORD getenv)) eqn:Hp; cbn [orb];
      [by intros [= <- <-]|].
    destruct (smtp_session _) eqn:Hs; [|by intros [= <- <-]].
    intros [= <- <-] _. eexists rep, _. split_and!; try done.
    + by destruct (SMTP_USER getenv).
    + unfold TO_EMAIL in *. destruct (getenv "TO_EMAIL"); [done|].
      by destruct (SMTP_USER getenv).
Qed.
End sent_mail.

(** ** Configuration and recipients *)

Ltac ascii_cases c :=
  destruct c as [[] [] [] [] [] [] [] []]; vm_compute; intros; try discriminate; auto.

Lemma ascii_lower_t c : ascii_lower c = "t"%char → c = "t"%char ∨ c = "T"%char.
Proof. ascii_cases c. Qed.
Lemma ascii_lower_r c : ascii_lower c = "r"%char → c = "r"%char ∨ c = "R"%char.
Proof. ascii_cases c. Qed.
Lemma ascii_lower_u c : ascii_lower c = "u"%char → c = "u"%char ∨ c = "U"%char.
Proof. ascii_cases c. Qed.
Lemma ascii_lower_e c : ascii_lower c = "e"%char → c = "e"%char ∨ c = "E"%char.
Proof. ascii_cases c. Qed.

Lemma lower_true s :
  lower s = "true" ↔
  ∃ c1 c2 c3 c4,
    s = String c1 (String c2 (String c3 (String c4 EmptyString)))
    ∧ (c1 = "t" ∨ c1 = "T")%char ∧ (c2 = "r" ∨ c2 = "R")%char
    ∧ (c3 = "u" ∨ c3 = "U")%char ∧ (c4 = "e" ∨ c4 = "E")%char.
Proof.
  split.
  - destruct s as [|c1 [|c2 [|c3 [|c4 [|c5 s]]]]]; try done.
    cbn [lower]. intros [= H1 H2 H3 H4]. exists c1, c2, c3, c4.
    split; [done|]. split_and!.
    + by apply ascii_lower_t.
    + by apply ascii_lower_r.
    + by apply ascii_lower_u.
    + by apply ascii_lower_e.
  - intros (c1 & c2 & c3 & c4 & -> & H1 & H2 & H3 & H4).
    destruct H1 as [-> | ->], H2 as [-> | ->], H3 as [-> | ->], H4 as [-> | ->];
      reflexivity.
Qed.

(** X18: [ONLY_EMAIL_IF_CHANGES] is on iff the variable is unset or
    its value is the word [true] in any mix of upper and lower case.
    Any other value, [1], [yes], the empty text or [true] with a space
    around it, turns it off. *)
Theorem only_email_if_changes_values (getenv : string → option string) :
  ONLY_EMAIL_IF_CHANGES getenv = true ↔
  match getenv "ONLY_EMAIL_IF_CHANGES" with
  | None => True
  | Some s =>
      ∃ c1 c2 c3 c4,
        s = String c1 (String c2 (String c3 (String c4 EmptyString)))
        ∧ (c1 = "t" ∨ c1 = "T")%char ∧ (c2 = "r" ∨ c2 = "R")%char
        ∧ (c3 = "u" ∨ c3 = "U")%char ∧ (c4 = "e" ∨ c4 = "E")%char
  end.
Proof.
  unfold ONLY_EMAIL_IF_CHANGES. rewrite bool_decide_eq_true.
  destruct (getenv "ONLY_EMAIL_IF_CHANGES") as [s|]; cbn [default from_option id].
  - apply lower_true.
  - done.
Qed.

(** *** [split] *)

Lemma split_on_not_nil sep s : split_on sep s ≠ [].
Proof.
  destruct s as [|c s]; [done|]. cbn [split_on].
  destruct (decide (c = sep)); [done|]. by destruct (split_on sep s).
Qed.

Lemma split_on_cons sep c s :
  c ≠ sep →
  ∃ piece pieces, split_on sep s = piece :: pieces
                  ∧ split_on sep (String c s) = String c piece :: pieces.
Proof.
  intros Hc. cbn [split_on]. rewrite decide_False by done.
  pose proof (split_on_not_nil sep s). destruct (split_on sep s) as [|p ps]; [done|].
  by exists p, ps.
Qed.

Lemma split_on_free sep s : sep ∉ chars s → split_on sep s = [s].
Proof.
  induction s as [|c s IH]; [done|]. cbn [list_ascii_of_string].
  rewrite not_elem_of_cons. intros [Hc Hs]. cbn [split_on].
  rewrite decide_False by done. by rewrite IH.
Qed.

Lemma chars_app a b : chars (a +:+ b) = chars a ++ chars b.
Proof.
  induction a as [|c a IH]; [by rewrite string_app_nil_l|].
  rewrite string_app_cons. cbn [list_ascii_of_string]. by rewrite IH.
Qed.

Lemma split_on_app sep a b :
  sep ∉ chars a →
  split_on sep (a +:+ String sep b) = a :: split_on sep b.
Proof.
  induction a as [|c a IH].
  - intros _. rewrite string_app_nil_l. cbn [split_on]. by rewrite decide_True.
  - cbn [list_ascii_of_string]. rewrite not_elem_of_cons. intros [Hc Ha].
    rewrite string_app_cons. cbn [split_on]. rewrite decide_False by done.
    by rewrite IH.
Qed.

(** The pieces hold the characters other than the separator. *)
Lemma split_on_Forall sep (P : ascii → Prop) s :
  Forall (λ piece, Forall P (chars piece)) (split_on sep s)
  ↔ Forall (λ c, c = sep ∨ P c) (chars s).
Proof.
  induction s as [|c s IH].
  - cbn. split; [by constructor|]. intros _. by repeat constructor.
  - cbn [list_ascii_of_string]. rewrite Forall_cons, <- IH.
    destruct (decide (c = sep)) as [->|Hc].
    + cbn [split_on]. rewrite decide_True by done. rewrite Forall_cons.
      cbn [list_ascii_of_string]. split; [naive_solver|].
      intros [_ ?]. split; [constructor|done].
    + destruct (split_on_cons sep c s Hc) as (piece & pieces & -> & ->).
      rewrite !Forall_cons. cbn [list_ascii_of_string]. rewrite Forall_cons.
      naive_solver.
Qed.

Lemma split_on_pieces_free sep s :
  Forall (λ piece, sep ∉ chars piece) (split_on sep s).
Proof.
  assert (Forall (λ piece, Forall (λ c, c ≠ sep) (chars piece)) (split_on sep s)) as H.
  { apply split_on_Forall, Forall_forall. intros c _.
    destruct (decide (c = sep)); auto. }
  eapply Forall_impl; [exact H|]. intros piece Hp Hin.
  by eapply Forall_forall in Hp.
Qed.

(** *** [strip] *)

Lemma lstrip_starts_clean s : starts_clean (lstrip s).
Proof.
  induction s as [|c s IH]; [done|]. cbn [lstrip].
  by destruct (is_py_space c) eqn:E.
Qed.

Lemma lstrip_clean s : starts_clean s → lstrip s = s.
Proof. destruct s as [|c s]; [done|]. cbn. by intros ->. Qed.

Lemma rstrip_starts_clean s : starts_clean s → starts_clean (rstrip s).
Proof.
  destruct s as [|c s]; [done|]. cbn [starts_clean rstrip]. intros Hc.
  destruct (rstrip s); by rewrite ?Hc.
Qed.

Lemma rstrip_idemp s : rstrip (rstrip s) = rstrip s.
Proof.
  induction s as [|c s IH]; [done|]. cbn [rstrip].
  destruct (rstrip s) as [|d rest] eqn:E.
  - destruct (is_py_space c) eqn:Ec; [done|]. cbn [rstrip]. by rewrite Ec.
  - cbn [rstrip]. cbn [rstrip] in IH. by rewrite IH.
Qed.

Lemma strip_idemp s : strip (strip s) = strip s.
Proof.
  unfold strip.
  rewrite (lstrip_clean (rstrip (lstrip s)))
    by apply rstrip_starts_clean, lstrip_starts_clean.
  apply rstrip_idemp.
Qed.

Lemma lstrip_chars s x : x ∈ chars (lstrip s) → x ∈ chars s.
Proof.
  induction s as [|c s IH]; [done|]. cbn [lstrip].
  destruct (is_py_space c); [|done]. cbn [list_ascii_of_string].
  intros Hx. by apply list_elem_of_further, IH.
Qed.

Lemma rstrip_chars s x : x ∈ chars (rstrip s) → x ∈ chars s.
Proof.
  induction s as [|c s IH]; [done|]. cbn [rstrip].
  destruct (rstrip s) as [|d rest].
  - destruct (is_py_space c); cbn [list_ascii_of_string].
    + by intros ?%elem_of_nil.
    + intros ->%list_elem_of_singleton. apply list_elem_of_here.
  - cbn [list_ascii_of_string] in *. intros [->|Hx]%elem_of_cons.
    + apply list_elem_of_here.
    + by apply list_elem_of_further, IH.
Qed.

Lemma strip_chars s x : x ∈ chars (strip s) → x ∈ chars s.
Proof. unfold strip. intros Hx. by apply lstrip_chars, rstrip_chars. Qed.

Lemma lstrip_nil s : lstrip s = EmptyString ↔ Forall (λ c, is_py_space c = true) (chars s).
Proof.
  induction s as [|c s IH]; [done|]. cbn [lstrip list_ascii_of_string].
  rewrite Forall_cons. destruct (is_py_space c); naive_solver.
Qed.

Lemma rstrip_nil s : rstrip s = EmptyString ↔ Forall (λ c, is_py_space c = true) (chars s).
Proof.
  induction s as [|c s IH]; [done|]. cbn [rstrip list_ascii_of_string].
  rewrite Forall_cons, <- IH. destruct (rstrip s).
  - destruct (is_py_space c); naive_solver.
  - naive_solver.
Qed.

Lemma lstrip_spaces s :
  Forall (λ c, is_py_space c = true) (chars (lstrip s))
  ↔ Forall (λ c, is_py_space c = true) (chars s).
Proof.
  induction s as [|c s IH]; [done|]. cbn [lstrip].
  destruct (is_py_space c) eqn:E; [|done].
  cbn [list_ascii_of_string]. rewrite Forall_cons. naive_solver.
Qed.

Lemma strip_nil s : strip s = EmptyString ↔ Forall (λ c, is_py_space c = true) (chars s).
Proof. unfold strip. by rewrite rstrip_nil, lstrip_spaces. Qed.

(** *** [recipients] *)

Lemma elem_of_recipients e t :
  e ∈ recipients t ↔
  ∃ piece, piece ∈ split_on "," t ∧ e = strip piece ∧ e ≠ EmptyString.
Proof.
  unfold recipients. rewrite list_elem_of_fmap. setoid_rewrite list_elem_of_filter.
  naive_solver.
Qed.

(** X19: for a [TO_EMAIL] of ASCII characters, every recipient
    [send_email] computes is a piece between two commas with the white
    space at its ends removed: it is not empty, holds no comma, and
    has no white space at either end. *)
Theorem recipients_are_clean (to_email e : string) :
  is_ascii_text to_email = true →
  e ∈ recipients to_email →
  clean_address e ∧ ∃ piece, piece ∈ split_on "," to_email ∧ e = strip piece.
Proof.
  intros _ (piece & Hin & -> & Hne)%elem_of_recipients.
  split; [|by exists piece]. split_and!; [done| |apply strip_idemp].
  intros Hc%strip_chars.
  pose proof (split_on_pieces_free "," to_email) as Hfree.
  by eapply Forall_forall in Hfree.
Qed.

Lemma recipients_single e : clean_address e → recipients e = [e].
Proof.
  intros (Hne & Hc & Hs). unfold recipients. rewrite split_on_free by done.
  rewrite filter_cons_True by by rewrite Hs. by rewrite filter_nil, fmap_cons, Hs.
Qed.

Lemma recipients_cons e t :
  clean_address e →
  recipients (e +:+ String "," t) = e :: recipients t.
Proof.
  intros (Hne & Hc & Hs). unfold recipients. rewrite split_on_app by done.
  rewrite filter_cons_True by by rewrite Hs. by rewrite fmap_cons, Hs.
Qed.

Lemma recipients_space t : recipients (String " " t) = recipients t.
Proof.
  unfold recipients.
  destruct (split_on_cons "," " " t) as (piece & pieces & Ht & ->); [done|].
  rewrite Ht. rewrite !filter_cons. by destruct (decide _).
Qed.

Lemma recipients_join rs :
  Forall clean_address rs → recipients (String.concat ", " rs) = rs.
Proof.
  induction 1 as [|e rs He Hrs IH]; [done|].
  destruct rs as [|e' rs].
  - cbn [concat]. by apply recipients_single.
  - change (String.concat ", " (e :: e' :: rs))
      with (e +:+ String "," (String " " (String.concat ", " (e' :: rs)))).
    by rewrite recipients_cons, recipients_space, IH.
Qed.

(** X20: for a [TO_EMAIL] of ASCII characters, the [To] header names
    the recipients of the envelope: splitting the header as
    [send_email] splits [TO_EMAIL] gives the recipients back, in
    order. *)
Theorem to_header_names_the_recipients (to_email : string) :
  is_ascii_text to_email = true →
  Forall clean_address (recipients to_email) ∧
  recipients (to_header to_email) = recipients to_email.
Proof.
  intros Hascii.
  assert (Forall clean_address (recipients to_email)) as Hclean.
  { apply Forall_forall. intros e He.
    apply elem_of_recipients in He as (piece & Hin & -> & Hne).
    split_and!; [done| |apply strip_idemp].
    intros Hc%strip_chars.
    pose proof (split_on_pieces_free "," to_email) as Hfree.
    by eapply Forall_forall in Hfree. }
  split; [done|]. by apply recipients_join.
Qed.

(** X21: for a [TO_EMAIL] of ASCII characters, [send_email] has no
    recipient iff [TO_EMAIL] holds commas and white space only, as
    the empty text does. *)
Theorem no_recipient_iff_blank (to_email : string) :
  is_ascii_text to_email = true →
  recipients to_email = [] ↔
  Forall (λ c, c = ","%char ∨ is_py_space c = true) (chars to_email).
Proof.
  intros _. rewrite <- split_on_Forall. unfold recipients.
  setoid_rewrite <- strip_nil. rewrite Forall_forall. split.
  - intros Hnil%fmap_nil_inv piece Hin.
    destruct (decide (strip piece = EmptyString)); [done|].
    assert (piece ∈ filter (λ e, strip e ≠ EmptyString) (split_on "," to_email))
      as Hf by by apply list_elem_of_filter.
    rewrite Hnil in Hf. by apply elem_of_nil in Hf.
  - intros Hall.
    assert (filter (λ e, strip e ≠ EmptyString) (split_on "," to_email) = [])
      as ->; [|done].
    apply elem_of_nil_inv. intros piece [Hne Hin]%list_elem_of_filter.
    by apply Hne, Hall.
Qed.

(** X22: with the credentials set and [TO_EMAIL] unset, [TO_EMAIL] is
    [SMTP_USER], which is not empty, so that [TO_EMAIL.split] is never
    called on [None]; the message handed to the SMTP session goes from
    and to that user, with the standard text when no text body is
    given; and when the user is one address of ASCII characters, it is
    the only recipient and the [To] header. *)
Theorem default_recipient_is_the_sender (getenv : string → option string)
    (smtp_session : message → bool) (subject html_body : string)
    (text_body : option string) (w : world) :
  unset_or_empty (SMTP_USER getenv) || unset_or_empty (SMTP_PASSWORD getenv) = false →
  getenv "TO_EMAIL" = None →
  ∃ user,
    SMTP_USER getenv = Some user ∧ user ≠ EmptyString ∧
    TO_EMAIL getenv = Some user ∧
    (let msg :=
       Message user user subject
         (default
            "Your email client does not support HTML. Please view this email in an HTML-capable client."
            text_body)
         html_body in
     send_email getenv smtp_session subject html_body text_body w
     = if smtp_session msg
       then (Ok (), World (state_file w) (outbox w ++ [msg]))
       else (Raise SMTPException, w)) ∧
    (is_ascii_text user = true → clean_address user →
     recipients user = [user] ∧ to_header user = user).
Proof.
  intros Hguard Hto. unfold send_email. rewrite Hguard.
  apply orb_false_iff in Hguard as [Hu _].
  unfold TO_EMAIL. rewrite Hto.
  destruct (SMTP_USER getenv) as [user|]; [|done]. exists user.
  split_and!; [done| |done|done|].
  - intros ->. done.
  - intros _ Hc. unfold to_header. by rewrite recipients_single.
Qed.

(** ** The plain-text body *)

Lemma split_on_concat sep lines :
  lines ≠ [] →
  Forall (λ l, sep ∉ chars l) lines →
  split_on sep (String.concat (String sep EmptyString) lines) = lines.
Proof.
  intros Hne Hfree. induction Hfree as [|l lines Hl Hfree IH]; [done|].
  destruct lines as [|l' lines].
  - cbn [concat]. by apply split_on_free.
  - change (String.concat (String sep EmptyString) (l :: l' :: lines))
      with (l +:+ String sep (String.concat (String sep EmptyString) (l' :: lines))).
    rewrite split_on_app by done. by rewrite IH.
Qed.

Lemma newline_free_app a b :
  newline_free a → newline_free b → newline_free (a +:+ b).
Proof. unfold newline_free. rewrite chars_app, not_elem_of_app. done. Qed.

Lemma newline_free_concat sep xs :
  newline_free sep → Forall newline_free xs → newline_free (String.concat sep xs).
Proof.
  intros Hsep. induction 1 as [|x xs Hx Hxs IH]; [by intros ?%elem_of_nil|].
  destruct xs as [|y xs]; [done|].
  change (String.concat sep (x :: y :: xs))
    with (x +:+ (sep +:+ String.concat sep (y :: xs))).
  by repeat apply newline_free_app.
Qed.

Lemma newline_free_literal s :
  bool_decide (newline ∉ chars s) = true → newline_free s.
Proof. apply bool_decide_eq_true. Qed.

Lemma join_or_none_newline_free sizes :
  Forall newline_free sizes → newline_free (join_or_none sizes).
Proof.
  intros Hs. unfold join_or_none. case_bool_decide.
  - by apply newline_free_literal.
  - apply newline_free_concat; [by apply newline_free_literal|done].
Qed.

Lemma join_or_none_full sizes :
  sizes ≠ [] → Forall (λ s, s ≠ EmptyString) sizes →
  join_or_none sizes = String.concat ", " sizes.
Proof.
  intros Hne Hs. unfold join_or_none. rewrite bool_decide_eq_false_2; [done|].
  destruct Hs as [|s sizes Hs _]; [done|]. destruct s as [|c s]; [done|].
  by destruct sizes.
Qed.

Section text_body.
Variable str_of : json → string.

Abbreviation partial_lines := (partial_lines str_of).
Abbreviation full_in_stock_lines := (full_in_stock_lines str_of).
Abbreviation full_oos_lines := (full_oos_lines str_of).
Abbreviation report_text_lines := (report_text_lines str_of).
Abbreviation format_report_text := (format_report_text str_of).

Abbreviation block_of := (block_of str_of).
Abbreviation one_line_entry := (one_line_entry str_of).

Lemma block_newline_free st item :
  one_line_entry item → Forall newline_free (block_of st item).
Proof.
  destruct item as [url data]. intros (Hu & Ht & [Ha Hs]%Forall_app). simpl in *.
  destruct st; cbn [block_of partial_lines full_in_stock_lines
                      full_oos_lines];
    repeat (apply Forall_cons; split);
    try apply Forall_nil; try exact I;
    try (apply newline_free_app; [by apply newline_free_literal|]);
    try done; try by apply join_or_none_newline_free.
  all: by apply newline_free_literal.
Qed.

Lemma section_newline_free st items :
  Forall one_line_entry items →
  Forall newline_free (section_lines (block_of st) items).
Proof.
  intros Hitems. unfold section_lines. case_bool_decide as Hnil.
  - repeat constructor. by apply newline_free_literal.
  - clear Hnil. induction Hitems as [|item items Hi _ IH]; [constructor|].
    rewrite bind_cons. apply Forall_app. split; [by apply block_newline_free|done].
Qed.

Lemma block_url_lines st item : url_lines (block_of st item) = [item.1].
Proof. destruct item as [url data]. destruct st; reflexivity. Qed.

Lemma section_url_lines st items :
  url_lines (section_lines (block_of st) items) = dict_keys items.
Proof.
  unfold section_lines. case_bool_decide as Hnil; [by rewrite Hnil|].
  clear Hnil. induction items as [|item items IH]; [done|].
  rewrite bind_cons. unfold url_lines in *. rewrite omap_app, IH.
  fold (url_lines (block_of st item)). by rewrite block_url_lines.
Qed.

Lemma report_text_lines_sections r :
  report_text_lines r =
  ["CAVA Daily Stock Report"; "Source: /products.json"; EmptyString;
   "1) Partially Sold-Out Products"; "--------------------------------"]
  ++ section_lines (block_of StPartial) (partial r)
  ++ [EmptyString; "2) Fully Available Products";
      "--------------------------------"]
  ++ section_lines (block_of StFullInStock) (full_in_stock r)
  ++ [EmptyString; "3) Fully Sold-Out Products";
      "--------------------------------"]
  ++ section_lines (block_of StFullOos) (full_oos r).
Proof. reflexivity. Qed.

(** X23: the text body lists every entry once.  When no key, title
    or size label of the report holds a line break, the lines of the
    body are the lines [format_report_text] appended, and those that
    begin with the URL label give the keys of [partial], then of
    [full_in_stock], then of [full_oos], each bucket in its own
    order. *)
Theorem text_body_lists_every_entry (r : report) :
  (∀ st, Forall one_line_entry (bucket st r)) →
  split_on newline (format_report_text r) = report_text_lines r ∧
  url_lines (split_on newline (format_report_text r))
  = dict_keys (partial r) ++ dict_keys (full_in_stock r) ++ dict_keys (full_oos r).
Proof.
  intros Hr.
  assert (split_on newline (format_report_text r) = report_text_lines r) as Hsplit.
  { unfold format_report_text. apply split_on_concat.
    - by rewrite report_text_lines_sections.
    - rewrite report_text_lines_sections.
      repeat first
        [ apply Forall_app; split
        | apply Forall_cons; split
        | apply Forall_nil
        | apply section_newline_free, (Hr StPartial)
        | apply section_newline_free, (Hr StFullInStock)
        | apply section_newline_free, (Hr StFullOos)
        | exact I
        | by apply newline_free_literal ]. }
  split; [done|]. rewrite Hsplit, report_text_lines_sections.
  unfold url_lines. rewrite !omap_app. fold url_lines.
  by rewrite !section_url_lines.
Qed.
End text_body.

Section text_of_built_report.
Variable urljoin : string → string → string.
Variable str_of : json → string.

(** X24: in the text body of a report the classifier returns, the
    size lists are printed in full: the block of an entry holds its
    labels joined by a comma and a space, and the placeholder [None]
    of [format_report_text] is never printed in their place. *)
Theorem size_lists_are_printed_in_full (ps : list json) (r : report)
    (st : status_key) (url : string) (info : product_info) :
  build_report urljoin str_of ps = Ok r →
  (url, info) ∈ bucket st r →
  match st with
  | StPartial =>
      partial_lines str_of (url, info) =
      ["[PARTIAL] " +:+ str_of (title info);
       "  URL: " +:+ url;
       "  Available sizes: " +:+ String.concat ", " (available_sizes info);
       "  Sold-out sizes: " +:+ String.concat ", " (unavailable_sizes info);
       EmptyString]
  | StFullInStock =>
      full_in_stock_lines str_of (url, info) =
      ["[FULL IN STOCK] " +:+ str_of (title info);
       "  URL: " +:+ url;
       "  All sizes: " +:+ String.concat ", " (available_sizes info);
       EmptyString]
  | StFullOos =>
      full_oos_lines str_of (url, info) =
      ["[FULL OOS] " +:+ str_of (title info);
       "  URL: " +:+ url;
       "  All sold-out sizes: " +:+ String.concat ", " (unavailable_sizes info);
       EmptyString]
  end.
Proof.
  intros Hr Hin.
  destruct (build_report_entry_origin urljoin str_of ps r st url info Hr Hin)
    as (p & _ & Hc).
  apply classify_product_shape in Hc as [[Ha Hu]%Forall_app Hst].
  destruct (available_sizes info) as [|a la] eqn:Ea,
           (unavailable_sizes info) as [|u lu] eqn:Eu, st; simplify_eq/=;
    unfold partial_lines, full_in_stock_lines, full_oos_lines;
    rewrite ?Ea, ?Eu, ?join_or_none_full by done; done.
Qed.
End text_of_built_report.

(** ** The rows of the HTML tables *)

Lemma join_if_any_or_none sizes :
  Forall (λ s, s ≠ EmptyString) sizes → join_if_any sizes = join_or_none sizes.
Proof.
  intros Hs. unfold join_if_any. case_bool_decide as Hnil; [by subst|].
  by rewrite join_or_none_full.
Qed.

Section html_of_built_report.
Variable urljoin : string → string → string.
Variable str_of : json → string.

(** X25: in the HTML body of a report the classifier returns, the row
    of an entry carries the label of its bucket; its two size cells
    hold the labels joined by a comma and a space, and [None] in and
    only in the sold-out cell of a product fully in stock and the
    available cell of a product fully sold out.  The HTML and the text
    renderer, which test for the placeholder in different ways, show
    every size list of such a report alike. *)
Theorem html_rows_of_built_report (ps : list json) (r : report)
    (st : status_key) (url : string) (info : product_info) :
  build_report urljoin str_of ps = Ok r →
  (url, info) ∈ bucket st r →
  join_if_any (available_sizes info) = join_or_none (available_sizes info) ∧
  join_if_any (unavailable_sizes info) = join_or_none (unavailable_sizes info) ∧
  table_row str_of (status_name st) (url, info) =
  row_html url (str_of (title info))
    (match st with
     | StPartial => "Partially Sold-Out"
     | StFullInStock => "Fully Available"
     | StFullOos => "Fully Sold-Out"
     end)
    (match st with
     | StFullOos => "None"
     | _ => String.concat ", " (available_sizes info)
     end)
    (match st with
     | StFullInStock => "None"
     | _ => String.concat ", " (unavailable_sizes info)
     end).
Proof.
  intros Hr Hin.
  destruct (build_report_entry_origin urljoin str_of ps r st url info Hr Hin)
    as (p & _ & Hc).
  apply classify_product_shape in Hc as [[Ha Hu]%Forall_app Hst].
  split_and!; [by apply join_if_any_or_none..|].
  unfold table_row.
  destruct (available_sizes info) as [|a la] eqn:Ea,
           (unavailable_sizes info) as [|u lu] eqn:Eu, st; simplify_eq/=; done.
Qed.
End html_of_built_report.

(** * The theorems at concrete records *)

(** [x ∈ l] on a concrete list. *)
Ltac in_list := first [apply list_elem_of_here | apply list_elem_of_further; in_list].

(** The classification law at [bowl]: S in stock and M sold out put it
    under [partial]. *)
Lemma classifier_status_law_witness :
  product_step PyLib.urljoin PyLib.str_of empty_report (JObj bowl)
  = Ok (Report [(bowl_url, bowl_info)] [] []).
Proof.
  assert (truthy (product_handle bowl) = true) as H1 by reflexivity.
  pose proof (proj2 (classifier_status_law PyLib.urljoin PyLib.str_of bowl
                       empty_report) H1 bowl_variants) as H.
  assert (product_variants bowl = JArr bowl_variants) as H2 by reflexivity.
  assert (Forall is_obj bowl_variants) as H3 by (repeat constructor).
  assert (Forall is_str (sized_labels true bowl_variants
                         ++ sized_labels false bowl_variants)) as H4
    by (vm_compute; repeat constructor).
  destruct (H H2 H3 H4) as (_ & _ & _ & _ & _ & _ & _ & Hstep).
  vm_compute in Hstep. destruct Hstep as (_ & Hstep & _).
  vm_compute. exact Hstep.
Defined.

(** Without the handle the classification law fails, as at [ghost]: its
    one variant has the label S and is in stock, so the available set is
    non-empty and the unavailable set is empty, yet the record has no
    handle and the classifier stores nothing for it. *)
Lemma sized_product_without_handle_unclassified :
  sized_labels true ghost_variants = [JStr "S"] ∧
  label_set true ghost_variants = ["S"] ∧
  label_set false ghost_variants = [] ∧
  classify_product PyLib.urljoin PyLib.str_of (JObj ghost) = Ok None ∧
  build_report PyLib.urljoin PyLib.str_of [JObj ghost] = Ok empty_report.
Proof. vm_compute. done. Qed.

(** One label in both sets, at [twin], whose only variants are S in
    stock and S sold out. *)
Lemma same_label_in_both_sets_witness :
  ∃ info,
    classify_product PyLib.urljoin PyLib.str_of (JObj twin)
    = Ok (Some ("https://cavaathleisure.com/products/twin", StPartial, info)) ∧
    "S" ∈ available_sizes info ∧ "S" ∈ unavailable_sizes info.
Proof.
  destruct (same_label_in_both_sets PyLib.urljoin PyLib.str_of twin twin_variants
              [("option1", JStr "S"); ("available", JBool true)]
              [("option1", JStr "S"); ("available", JBool false)] "S"
              (Some ("https://cavaathleisure.com/products/twin", StPartial,
                     ProductInfo (JStr "Twin") ["S"] ["S"])))
    as (info & Hc & Ha & Hu).
  - reflexivity.
  - reflexivity.
  - in_list.
  - in_list.
  - reflexivity.
  - reflexivity.
  - discriminate.
  - reflexivity.
  - reflexivity.
  - vm_compute. reflexivity.
  - injection Hc as <-. eexists. split; [vm_compute; reflexivity|]. by split.
Defined.

(** A variant with a null [available] and one without the key. *)
Lemma available_defaults_only_when_absent_witness :
  variant_step (SizesAcc [] [] 0) (JObj null_variant)
  = Ok (SizesAcc [] [JStr "S"] 1) ∧
  variant_step (SizesAcc [] [] 0) (JObj bare_variant)
  = Ok (SizesAcc [JStr "S"] [] 1).
Proof.
  split.
  - refine (proj1 (proj1 (available_defaults_only_when_absent PyLib.urljoin PyLib.str_of
             nullish [JObj null_variant] null_variant "S" (SizesAcc [] [] 0)
             (Some ("https://cavaathleisure.com/products/nullish", StFullOos,
                    ProductInfo (JStr "Nullish") [] ["S"]))
             _ _ _ _ _ _) _)).
    + reflexivity.
    + reflexivity.
    + in_list.
    + reflexivity.
    + discriminate.
    + vm_compute. reflexivity.
    + reflexivity.
  - refine (proj1 (proj2 (available_defaults_only_when_absent PyLib.urljoin PyLib.str_of
             bare [JObj bare_variant] bare_variant "S" (SizesAcc [] [] 0)
             (Some ("https://cavaathleisure.com/products/bare", StFullInStock,
                    ProductInfo (JStr "Bare") ["S"] []))
             _ _ _ _ _ _) _)).
    + reflexivity.
    + reflexivity.
    + in_list.
    + reflexivity.
    + discriminate.
    + vm_compute. reflexivity.
    + reflexivity.
Defined.

(** Case analysis on [p ∈ [a; b]] with the classification recomputed. *)
Ltac classified_cases :=
  repeat match goal with
    | H : _ ∈ _ :: _ |- _ => apply elem_of_cons in H as [->|H]
    | H : _ ∈ [] |- _ => by apply elem_of_nil in H
    end;
  repeat match goal with
    | H : classify_product _ _ _ = Ok _ |- _ => vm_compute in H; revert H
    end;
  intros; simplify_eq; try done.

(** Two records of the handle [bowl], one partly sold out and one fully
    in stock: the URL is a key of both [partial] and [full_in_stock]. *)
Lemma shared_handle_in_two_buckets :
  build_report PyLib.urljoin PyLib.str_of [JObj bowl; JObj bowl_restocked]
  = Ok two_bucket_report ∧
  dict_mem bowl_url (partial two_bucket_report) = true ∧
  dict_mem bowl_url (full_in_stock two_bucket_report) = true.
Proof. vm_compute. done. Qed.

(** [bowl] and [cup]: the URL of [bowl] is in [partial] only. *)
Lemma url_in_exactly_one_bucket_witness :
  build_report PyLib.urljoin PyLib.str_of [JObj bowl; JObj cup]
  = Ok bowl_and_cup_report ∧
  ∀ st, bowl_url ∈ dict_keys (bucket st bowl_and_cup_report) ↔ st = StPartial.
Proof.
  assert (build_report PyLib.urljoin PyLib.str_of [JObj bowl; JObj cup]
          = Ok bowl_and_cup_report) as Hr by (vm_compute; reflexivity).
  split; [exact Hr|].
  refine (proj1 (proj2 (url_in_exactly_one_bucket PyLib.urljoin PyLib.str_of
            [JObj bowl; JObj cup] bowl_and_cup_report Hr) _)
            (JObj bowl) bowl_url StPartial bowl_info _ _).
  - intros p1 p2 url st1 st2 info1 info2 Hp1 Hp2 H1 H2.
    classified_cases.
  - in_list.
  - vm_compute. reflexivity.
Defined.

(** Two records of the handle [bowl], both fully in stock with different
    sizes: the entry of the URL is that of whichever record comes
    last. *)
Lemma shared_handle_order_matters :
  build_report PyLib.urljoin PyLib.str_of [JObj bowl_restocked; JObj bowl_small]
  = Ok (Report [] [(bowl_url, ProductInfo (JStr "Bowl") ["XS"] [])] []) ∧
  build_report PyLib.urljoin PyLib.str_of [JObj bowl_small; JObj bowl_restocked]
  = Ok (Report [] [(bowl_url, ProductInfo (JStr "Bowl") ["M"; "S"] [])] []).
Proof. vm_compute. done. Qed.

(** [bowl] and [cup], with the variants of [bowl] swapped and then the
    two products swapped. *)
Lemma classifier_order_independence_witness :
  build_report PyLib.urljoin PyLib.str_of [JObj bowl_swapped; JObj cup]
  = Ok bowl_and_cup_report ∧
  ∃ r', build_report PyLib.urljoin PyLib.str_of [JObj cup; JObj bowl_swapped] = Ok r' ∧
        ∀ st, bucket st r' ≡ₚ bucket st bowl_and_cup_report.
Proof.
  destruct (classifier_order_independence PyLib.urljoin PyLib.str_of
              [JObj bowl; JObj cup] [JObj bowl_swapped; JObj cup]
              [JObj cup; JObj bowl_swapped] bowl_and_cup_report)
    as (Hq & _ & Hperm & _).
  - constructor; [|constructor; [apply reordered_same|constructor]].
    apply (reordered_obj bowl bowl_swapped bowl_variants
             [variant "M" (JBool false); variant "S" (JBool true)]).
    + intros k Hk. unfold bowl, bowl_swapped, product. cbn [dict_get].
      repeat case_decide; simplify_eq; done.
    + reflexivity.
    + reflexivity.
    + apply perm_swap.
  - apply perm_swap.
  - vm_compute. reflexivity.
  - split; [exact Hq|]. destruct Hperm as (r' & Hr' & Hb).
    + intros p1 p2 url st1 st2 info1 info2 Hp1 Hp2 H1 H2.
      classified_cases.
    + exists r'. split; [exact Hr'|]. intros st. apply Hb.
Defined.

(** The report the classifier builds from the two [bowl] records above:
    the URL is a key of [partial], but the snapshot has it under
    [full_in_stock] alone. *)
Lemma shared_handle_status_lost :
  build_report PyLib.urljoin PyLib.str_of [JObj bowl; JObj bowl_restocked]
  = Ok two_bucket_report ∧
  dict_mem bowl_url (bucket StPartial two_bucket_report) = true ∧
  rederive_bucket StPartial (extract_state_from_report two_bucket_report) = [] ∧
  rederive_bucket StFullInStock (extract_state_from_report two_bucket_report)
  = [bowl_url].
Proof. vm_compute. done. Qed.

(** The buckets of the report of [bowl] and [cup], read back from its
    snapshot. *)
Lemma snapshot_restores_buckets_witness :
  bowl_url ∈ rederive_bucket StPartial (extract_state_from_report bowl_and_cup_report)
  ∧ cup_url ∈ rederive_bucket StFullOos (extract_state_from_report bowl_and_cup_report).
Proof.
  assert (∀ url st st',
            url ∈ dict_keys (bucket st bowl_and_cup_report) →
            url ∈ dict_keys (bucket st' bowl_and_cup_report) → st = st') as Hdisj.
  { intros url [] [] H1 H2; try reflexivity;
      unfold bowl_and_cup_report, dict_keys in H1, H2; cbn in H1, H2;
      repeat match goal with
        | H : _ ∈ _ :: _ |- _ => apply elem_of_cons in H as [?|H]
        | H : _ ∈ [] |- _ => by apply elem_of_nil in H
        end; unfold bowl_url, cup_url in *; simplify_eq. }
  split.
  - apply (proj2 (snapshot_restores_buckets bowl_and_cup_report) Hdisj bowl_url
             StPartial).
    in_list.
  - apply (proj2 (snapshot_restores_buckets bowl_and_cup_report) Hdisj cup_url
             StFullOos).
    in_list.
Defined.

(** A snapshot of two entries and the same entries swapped: no change. *)
Lemma has_changes_structural_witness :
  has_changes (json_of_state [(bowl_url, bowl_entry); (cup_url, cup_entry)])
              (json_of_state [(cup_url, cup_entry); (bowl_url, bowl_entry)])
  = false.
Proof.
  refine (proj2 (proj1 (proj2 (has_changes_structural
            [(bowl_url, bowl_entry); (cup_url, cup_entry)]
            [(cup_url, cup_entry); (bowl_url, bowl_entry)] _ _))) _).
  - apply (bool_decide_unpack _). vm_compute. exact I.
  - apply (bool_decide_unpack _). vm_compute. exact I.
  - intros url. cbn [dict_get]. repeat case_decide; simplify_eq; done.
Defined.

(** Saving and loading the snapshot of [bowl]. *)
Lemma state_round_trip_witness :
  load_previous_state PyLib.json_load
    (Content (PyLib.json_dump (JObj [("products", json_of_state bowl_state)])))
  = json_of_state bowl_state.
Proof.
  refine (proj1 (state_round_trip bowl_state true Absent _) _ _).
  - apply (bool_decide_unpack _). vm_compute. exact I.
  - reflexivity.
Defined.

(** The request of page 1 raises: the exception leaves
    [fetch_all_products] and ends [main], and the state file is never
    written. *)
Lemma network_error_aborts_run :
  fetch_all_products unreachable 3 = Some (Raise ConnectionError) ∧
  main PyLib.urljoin PyLib.str_of unreachable PyLib.json_dump PyLib.json_load
    render_html render_text with_credentials true smtp_up 3 fresh_world
  = Some (Raise ConnectionError, fresh_world).
Proof. vm_compute. done. Qed.

(** A catalog whose second page answers 500, and one whose first page
    answers 503: that run saves an empty snapshot, finds nothing changed
    and sends nothing. *)
Lemma failed_page_ends_pagination_witness :
  fetch_all_products one_page_then_500 5 = Some (Ok [JObj bowl]) ∧
  build_report_via_products_json PyLib.urljoin PyLib.str_of always_503 5
  = Some (Ok empty_report) ∧
  main PyLib.urljoin PyLib.str_of always_503 PyLib.json_dump PyLib.json_load
    render_html render_text with_credentials true smtp_up 5 fresh_world
  = Some (Ok (), World (Content (PyLib.json_dump (JObj [("products", JObj [])])))
                   []).
Proof.
  split.
  - refine (proj1 (proj1 (failed_page_ends_pagination PyLib.urljoin PyLib.str_of
              one_page_then_500 PyLib.json_dump PyLib.json_load render_html render_text
              with_credentials true smtp_up [[JObj bowl]] 5 fresh_world _ _)
              (Response 500 (Raise JSONDecodeError)) _ _)).
    + intros [|i] items Hi; simpl in Hi; simplify_eq.
      split; [discriminate|]. vm_compute. reflexivity.
    + simpl. lia.
    + vm_compute. reflexivity.
    + discriminate.
  - destruct (proj2 (proj2 (proj1 (failed_page_ends_pagination
              PyLib.urljoin PyLib.str_of
              always_503 PyLib.json_dump PyLib.json_load render_html render_text
              with_credentials true smtp_up [] 5 fresh_world
              ltac:(intros i items Hi; simpl in Hi; discriminate)
              ltac:(simpl; lia))
              (Response 503 (Raise JSONDecodeError)) eq_refl
              ltac:(discriminate))) eq_refl) as (Hrep & _ & Hmain).
    split; [exact Hrep|]. rewrite Hmain. vm_compute. reflexivity.
Defined.

(** The catalog of [bowl] without credentials: the run ends in
    [RuntimeError] with the snapshot of [bowl] on disk. *)
Lemma missing_credentials_fail_after_save_witness :
  main PyLib.urljoin PyLib.str_of one_page_then_500 PyLib.json_dump PyLib.json_load
    render_html render_text no_credentials true smtp_up 5 fresh_world
  = Some (Raise RuntimeError,
          World (Content (PyLib.json_dump
                            (JObj [("products", json_of_state bowl_state)]))) []).
Proof.
  refine (proj2 (proj2 (missing_credentials_fail_after_save PyLib.urljoin PyLib.str_of
            one_page_then_500 PyLib.json_dump PyLib.json_load render_html render_text
            no_credentials true smtp_up 5 fresh_world (Report [(bowl_url, bowl_info)] [] [])
            _ _ _))).
  - reflexivity.
  - vm_compute. reflexivity.
  - reflexivity.
Defined.

(** The end-to-end scenario: the first run finds no previous snapshot,
    sends the report and writes the snapshot; a second run on the same
    catalog finds it unchanged and sends nothing. *)
Example end_to_end_scenario :
  ∃ text msg,
    main PyLib.urljoin PyLib.str_of one_page_then_empty PyLib.json_dump
      PyLib.json_load render_html render_text with_credentials true smtp_up
      5 fresh_world
    = Some (Ok (), World (Content text) [msg]) ∧
    main PyLib.urljoin PyLib.str_of one_page_then_empty PyLib.json_dump
      PyLib.json_load render_html render_text with_credentials true smtp_up
      5 (World (Content text) [msg])
    = Some (Ok (), World (Content text) [msg]).
Proof. eexists _, _. split; vm_compute; reflexivity. Qed.

(** ** The further properties at concrete records *)

(** The pages before the last, for a catalog of one page of [bowl]. *)
Ltac one_page_of_bowl :=
  let i := fresh "i" in let items := fresh "items" in let Hi := fresh "Hi" in
  intros [|i] items Hi; simpl in Hi; simplify_eq;
  split; [discriminate|vm_compute; reflexivity].

(** Page 2 of [one_page_then_empty] holds no product: the fetch returns
    the product of page 1. *)
Lemma pagination_stops_at_empty_page_witness :
  fetch_all_products one_page_then_empty 5 = Some (Ok [JObj bowl]) ∧
  build_report_via_products_json PyLib.urljoin PyLib.str_of one_page_then_empty 5
  = Some (Ok (Report [(bowl_url, bowl_info)] [] [])).
Proof.
  destruct (pagination_stops_at_empty_page PyLib.urljoin PyLib.str_of
              one_page_then_empty [[JObj bowl]] 5
              (Response 200 (Ok (JObj [("products", JArr [])])))
              [("products", JArr [])]) as [Hf Hb].
  - one_page_of_bowl.
  - simpl. lia.
  - vm_compute. reflexivity.
  - reflexivity.
  - reflexivity.
  - reflexivity.
  - split; [exact Hf|]. rewrite Hb. vm_compute. reflexivity.
Defined.

(** [endless] answers every page with a product: seven turns of the
    loop do not end it. *)
Lemma pagination_has_no_page_limit_witness :
  fetch_all_products endless 7 = None ∧
  main PyLib.urljoin PyLib.str_of endless PyLib.json_dump PyLib.json_load
    render_html render_text with_credentials true smtp_up 7 fresh_world = None.
Proof.
  destruct (pagination_has_no_page_limit PyLib.urljoin PyLib.str_of endless
              PyLib.json_dump PyLib.json_load render_html render_text
              with_credentials true smtp_up 7 fresh_world) as (Hf & _ & Hm).
  - intros page _. exists (JArr [JObj bowl]), [JObj bowl]. split_and!; reflexivity.
  - by split.
Defined.

(** Page 1 of [garbled] answers 200 with a body that is not JSON: the
    run ends there and the state file is not written. *)
Lemma malformed_page_aborts_run_witness :
  main PyLib.urljoin PyLib.str_of garbled PyLib.json_dump PyLib.json_load
    render_html render_text with_credentials true smtp_up 3 fresh_world
  = Some (Raise JSONDecodeError, fresh_world).
Proof.
  refine (proj2 (proj1 (malformed_page_aborts_run PyLib.urljoin PyLib.str_of garbled
            PyLib.json_dump PyLib.json_load render_html render_text
            with_credentials true smtp_up [] 3 fresh_world
            (Response 200 (Raise JSONDecodeError)) _ _ _ _) JSONDecodeError _)).
  - intros i items Hi. simpl in Hi. discriminate.
  - simpl. lia.
  - reflexivity.
  - reflexivity.
  - reflexivity.
Defined.

(** [odd] between [bowl] and [cup]: its numeric label ends the
    classifier and the run; nothing is saved for [bowl] either. *)
Lemma bad_record_aborts_run_witness :
  build_report PyLib.urljoin PyLib.str_of [JObj bowl; JObj odd; JObj cup]
  = Raise TypeError ∧
  main PyLib.urljoin PyLib.str_of one_odd_page PyLib.json_dump PyLib.json_load
    render_html render_text with_credentials true smtp_up 5 fresh_world
  = Some (Raise TypeError, fresh_world).
Proof.
  destruct (bad_record_aborts_run PyLib.urljoin PyLib.str_of one_odd_page
              PyLib.json_dump PyLib.json_load render_html render_text
              with_credentials true smtp_up [JObj bowl] [JObj cup] (JObj odd)
              TypeError 5 fresh_world) as [Hb Hm].
  - repeat constructor. eexists. vm_compute. reflexivity.
  - vm_compute. reflexivity.
  - split; [exact Hb|]. apply Hm. vm_compute. reflexivity.
Defined.

(** The entry of [bowl] in the report of [bowl] and [cup]. *)
Lemma bucket_entry_shapes_witness :
  Forall (λ s, s ≠ EmptyString) (["S"] ++ ["M"]) ∧
  ["S"] ≠ ([] : list string) ∧ ["M"] ≠ ([] : list string).
Proof.
  refine (bucket_entry_shapes PyLib.urljoin PyLib.str_of [JObj bowl; JObj cup]
            bowl_and_cup_report StPartial bowl_url bowl_info _ _).
  - vm_compute. reflexivity.
  - in_list.
Defined.

(** [bowl] renamed: the snapshot is the one of [bowl]. *)
Lemma retitled_products_are_no_change_witness :
  ∃ r', build_report PyLib.urljoin PyLib.str_of [JObj bowl_renamed] = Ok r' ∧
        extract_state_from_report r' = bowl_state ∧
        has_changes (json_of_state bowl_state)
          (json_of_state (extract_state_from_report r')) = false.
Proof.
  refine (retitled_products_are_no_change PyLib.urljoin PyLib.str_of
            [JObj bowl] [JObj bowl_renamed] (Report [(bowl_url, bowl_info)] [] [])
            _ _).
  - repeat constructor. intros k Hk. unfold bowl_renamed, bowl, product.
    cbn [dict_get].
    destruct (match (if decide ("variants" = k) then _ else _) with
              | Some w => Some w | None => _ end); [done|].
    by rewrite !decide_False.
  - vm_compute. reflexivity.
Defined.

(** The snapshot of the catalog of [bowl] and [cup] has the entry of
    [cup]. *)
Lemma snapshot_reflects_catalogue_witness :
  dict_get cup_url (extract_state_from_report bowl_and_cup_report) = Some cup_entry.
Proof.
  refine (proj2 (proj2 (snapshot_reflects_catalogue PyLib.urljoin PyLib.str_of
            [JObj bowl; JObj cup] bowl_and_cup_report _ _) cup_url cup_entry) _).
  - vm_compute. reflexivity.
  - intros p1 p2 url st1 st2 info1 info2 Hp1 Hp2 H1 H2. classified_cases.
  - exists (JObj cup), StFullOos, cup_info. split_and!.
    + in_list.
    + vm_compute. reflexivity.
    + reflexivity.
Defined.

(** The first run on the catalog of [bowl]: the report has an entry,
    the mail goes out and the snapshot is saved. *)
Lemma first_run_mails_iff_catalogue_nonempty_witness :
  main PyLib.urljoin PyLib.str_of one_page_then_empty PyLib.json_dump
    PyLib.json_load render_html render_text with_credentials true smtp_up
    5 fresh_world
  = Some (Ok (), World bowl_saved [bowl_mail]).
Proof.
  destruct (first_run_mails_iff_catalogue_nonempty PyLib.urljoin PyLib.str_of
              one_page_then_empty PyLib.json_dump PyLib.json_load render_html
              render_text with_credentials smtp_up 5 fresh_world
              (Report [(bowl_url, bowl_info)] [] [])) as [_ Hm].
  - vm_compute. reflexivity.
  - reflexivity.
  - rewrite Hm. vm_compute. reflexivity.
Defined.

(** The shop answers 503 while the state file holds the snapshot of
    [bowl]: the run mails an empty report and saves an empty snapshot. *)
Lemma outage_is_reported_as_change_witness :
  main PyLib.urljoin PyLib.str_of always_503 PyLib.json_dump PyLib.json_load
    render_html render_text with_credentials true smtp_up 5 (World bowl_saved [])
  = Some (Ok (),
          World (Content (PyLib.json_dump (JObj [("products", JObj [])])))
            [bowl_mail]).
Proof.
  destruct (outage_is_reported_as_change PyLib.urljoin PyLib.str_of always_503
              PyLib.json_dump PyLib.json_load render_html render_text
              with_credentials smtp_up 5 (World bowl_saved [])
              (Response 503 (Raise JSONDecodeError)) bowl_state) as [_ Hm].
  - reflexivity.
  - discriminate.
  - lia.
  - vm_compute. reflexivity.
  - discriminate.
  - rewrite Hm. vm_compute. reflexivity.
Defined.

(** A first run whose SMTP session fails, then a run with the server
    up: the second run finds the snapshot of the first and sends
    nothing. *)
Lemma unchanged_catalogue_is_not_mailed_again_witness :
  main PyLib.urljoin PyLib.str_of one_page_then_empty PyLib.json_dump
    PyLib.json_load render_html render_text with_credentials true smtp_up
    5 (World bowl_saved [])
  = Some (Ok (), World bowl_saved []).
Proof.
  refine (proj2 (proj2 (unchanged_catalogue_is_not_mailed_again
            PyLib.urljoin PyLib.str_of one_page_then_empty PyLib.json_dump
            PyLib.json_load render_html render_text with_credentials with_credentials
            smtp_down smtp_up 5 fresh_world (World bowl_saved [])
            (Report [(bowl_url, bowl_info)] [] []) (Raise SMTPException) _ _ _ _))).
  - vm_compute. reflexivity.
  - vm_compute. reflexivity.
  - vm_compute. reflexivity.
  - reflexivity.
Defined.

(** The state file holds [null] for [products]: the first run on the
    catalog of [bowl] reads [None] for the previous state and mails. *)
Lemma state_file_with_other_products_witness :
  load_previous_state PyLib.json_load (Content null_products) = JNull ∧
  main PyLib.urljoin PyLib.str_of one_page_then_empty PyLib.json_dump
    PyLib.json_load render_html render_text with_credentials true smtp_up
    5 (World (Content null_products) [])
  = Some (Ok (), World bowl_saved [bowl_mail]).
Proof.
  destruct (state_file_with_other_products PyLib.urljoin PyLib.str_of
              one_page_then_empty PyLib.json_dump PyLib.json_load render_html
              render_text with_credentials smtp_up 5
              (World (Content null_products) [])
              (Report [(bowl_url, bowl_info)] [] [])
              null_products [("products", JNull)]) as [Hprev Hnull].
  - reflexivity.
  - vm_compute. reflexivity.
  - split; [exact Hprev|].
    destruct (Hnull JNull) as [_ Hmain]; [reflexivity..|].
    rewrite Hmain; vm_compute; reflexivity.
Defined.

(** The second address of [typed_recipients]. *)
Lemma recipients_are_clean_witness :
  clean_address "bob@example.com" ∧
  ∃ piece, piece ∈ split_on "," typed_recipients ∧ "bob@example.com" = strip piece.
Proof.
  refine (recipients_are_clean typed_recipients "bob@example.com" _ _).
  - reflexivity.
  - vm_compute. in_list.
Defined.

(** The header made from [typed_recipients] names its two addresses. *)
Lemma to_header_names_the_recipients_witness :
  to_header typed_recipients = "ann@example.com, bob@example.com" ∧
  recipients (to_header typed_recipients) = ["ann@example.com"; "bob@example.com"].
Proof.
  destruct (to_header_names_the_recipients typed_recipients) as [_ Hr];
    [reflexivity|].
  split; [reflexivity|]. rewrite Hr. reflexivity.
Defined.

(** Commas and spaces alone name nobody. *)
Lemma no_recipient_iff_blank_witness : recipients " , ," = [].
Proof.
  refine (proj2 (no_recipient_iff_blank " , ," _) _).
  - reflexivity.
  - repeat (apply List.Forall_cons; [first [by left|by right]|]).
    apply List.Forall_nil.
Defined.

(** With [TO_EMAIL] unset the mail goes to the sender. *)
Lemma default_recipient_is_the_sender_witness :
  TO_EMAIL with_credentials = Some "bot@example.com" ∧
  recipients "bot@example.com" = ["bot@example.com"].
Proof.
  destruct (default_recipient_is_the_sender with_credentials smtp_up
              "subject" "<html></html>" None fresh_world)
    as (user & Hu & _ & Hto & _ & Hr).
  - reflexivity.
  - reflexivity.
  - injection Hu as <-. split; [exact Hto|].
    refine (proj1 (Hr _ _)); [reflexivity|].
    split_and!; [discriminate| |reflexivity].
    vm_compute. intros Hin. repeat (apply elem_of_cons in Hin as [Hin|Hin];
      [discriminate|]). by apply elem_of_nil in Hin.
Defined.

(** The URL lines of the text body of the report of [bowl] and [cup]. *)
Lemma text_body_lists_every_entry_witness :
  url_lines (split_on newline (format_report_text PyLib.str_of bowl_and_cup_report))
  = [bowl_url; cup_url].
Proof.
  refine (proj2 (text_body_lists_every_entry PyLib.str_of bowl_and_cup_report _)).
  intros []; repeat constructor; vm_compute;
    intros Hin; repeat (apply elem_of_cons in Hin as [Hin|Hin]; [discriminate|]);
    by apply elem_of_nil in Hin.
Defined.

(** The block of [bowl] in the text body. *)
Lemma size_lists_are_printed_in_full_witness :
  partial_lines PyLib.str_of (bowl_url, bowl_info)
  = ["[PARTIAL] Bowl"; "  URL: https://cavaathleisure.com/products/bowl";
     "  Available sizes: S"; "  Sold-out sizes: M"; EmptyString].
Proof.
  refine (size_lists_are_printed_in_full PyLib.urljoin PyLib.str_of
            [JObj bowl; JObj cup] bowl_and_cup_report StPartial bowl_url bowl_info
            _ _).
  - vm_compute. reflexivity.
  - in_list.
Defined.

(** The sold-out bucket of the catalog of [bowl] and [cup]. *)
Lemma buckets_keep_catalogue_order_witness :
  full_oos bowl_and_cup_report = [(cup_url, cup_info)].
Proof.
  refine (buckets_keep_catalogue_order PyLib.urljoin PyLib.str_of
            [JObj bowl; JObj cup] bowl_and_cup_report StFullOos _ _).
  - vm_compute. reflexivity.
  - vm_compute. repeat constructor. by intros ?%elem_of_nil.
Defined.

(** The mail of the first run on the catalog of [bowl]. *)
Lemma mail_only_after_save_and_change_witness :
  ∃ rep msg,
    build_report_via_products_json PyLib.urljoin PyLib.str_of one_page_then_empty 5
    = Some (Ok rep) ∧
    Ok () = Ok () ∧
    World bowl_saved [bowl_mail]
    = World (state_file (saved_world PyLib.json_dump rep fresh_world))
        (outbox fresh_world ++ [msg]) ∧
    msg_subject msg = "CAVA Daily Stock Report (Full Inventory View)" ∧
    msg_html msg = render_html rep ∧
    msg_text msg = render_text rep ∧
    Some (msg_from msg) = SMTP_USER with_credentials ∧
    Some (msg_to msg) = TO_EMAIL with_credentials ∧
    (ONLY_EMAIL_IF_CHANGES with_credentials = true →
     has_changes (load_previous_state PyLib.json_load (state_file fresh_world))
       (json_of_state (extract_state_from_report rep)) = true).
Proof.
  refine (mail_only_after_save_and_change PyLib.urljoin PyLib.str_of
            one_page_then_empty PyLib.json_dump PyLib.json_load render_html
            render_text with_credentials true smtp_up 5 fresh_world
            (World bowl_saved [bowl_mail]) (Ok ()) _ _).
  - vm_compute. reflexivity.
  - discriminate.
Defined.

(** [bowl] renamed: the entry of its URL is the same in both
    catalogs. *)
Lemma change_detection_is_exact_witness :
  entry_from PyLib.urljoin PyLib.str_of [JObj bowl] bowl_url bowl_entry
  ↔ entry_from PyLib.urljoin PyLib.str_of [JObj bowl_renamed] bowl_url bowl_entry.
Proof.
  refine (proj1 (change_detection_is_exact PyLib.urljoin PyLib.str_of
            [JObj bowl] [JObj bowl_renamed]
            (Report [(bowl_url, bowl_info)] [] [])
            (Report [(bowl_url, ProductInfo (JStr "Salad Bowl") ["S"] ["M"])] [] [])
            _ _ _ _) _ bowl_url bowl_entry).
  - vm_compute. reflexivity.
  - vm_compute. reflexivity.
  - intros p1 p2 url st1 st2 info1 info2 Hp1 Hp2 H1 H2. classified_cases.
  - intros p1 p2 url st1 st2 info1 info2 Hp1 Hp2 H1 H2. classified_cases.
  - vm_compute. reflexivity.
Defined.

(** The row of [cup] in the table of the sold-out products. *)
Lemma html_rows_of_built_report_witness :
  table_row PyLib.str_of "full_oos" (cup_url, cup_info)
  = row_html cup_url "Cup" "Fully Sold-Out" "None" "L".
Proof.
  refine (proj2 (proj2 (html_rows_of_built_report PyLib.urljoin PyLib.str_of
            [JObj bowl; JObj cup] bowl_and_cup_report StFullOos cup_url cup_info
            _ _))).
  - vm_compute. reflexivity.
  - in_list.
Defined.

(** The two bodies of the mail for the report of [bowl] and [cup], and
    the run that sends them. *)
Example bodies_of_bowl_and_cup :
  format_report_text PyLib.str_of bowl_and_cup_report
  = String.concat (String newline EmptyString)
      ["CAVA Daily Stock Report"; "Source: /products.json"; EmptyString;
       "1) Partially Sold-Out Products"; "--------------------------------";
       "[PARTIAL] Bowl"; "  URL: https://cavaathleisure.com/products/bowl";
       "  Available sizes: S"; "  Sold-out sizes: M"; EmptyString; EmptyString;
       "2) Fully Available Products"; "--------------------------------";
       "None."; EmptyString;
       "3) Fully Sold-Out Products"; "--------------------------------";
       "[FULL OOS] Cup"; "  URL: https://cavaathleisure.com/products/cup";
       "  All sold-out sizes: L"; EmptyString] ∧
  format_report_html PyLib.str_of bowl_and_cup_report
  = page_html
      (table_html "1) Partially Sold-Out Products" "#ffb347"
         (row_html bowl_url "Bowl" "Partially Sold-Out" "S" "M"))
      (empty_table_html "2) Fully Available Products")
      (table_html "3) Fully Sold-Out Products" "#ff6961"
         (row_html cup_url "Cup" "Fully Sold-Out" "None" "L")) ∧
  ∃ msg,
    main PyLib.urljoin PyLib.str_of one_page_then_empty PyLib.json_dump
      PyLib.json_load (format_report_html PyLib.str_of)
      (format_report_text PyLib.str_of) with_credentials true smtp_up
      5 fresh_world
    = Some (Ok (), World bowl_saved [msg]) ∧
    msg_text msg
    = format_report_text PyLib.str_of (Report [(bowl_url, bowl_info)] [] []).
Proof.
  split_and!; [vm_compute; reflexivity..|].
  eexists. split; vm_compute; reflexivity.
Qed.
